(** * Video task reconciliation and settlement (new-api)

    A shallow embedding of [controller/task_video.go] (the Reconciler and the
    Settlement Engine) and of the Volc Ark video adaptor's [ParseTaskResult],
    together with the properties the specification states about them.

    Conventions.
    - Go [int]/[int64] values are [Z]; arithmetic that can leave the 64-bit
      range is wrapped with [wrap64].
    - Go [float64] values are Rocq primitive floats (IEEE 754 binary64, round
      to nearest even), so products are computed exactly as on the machine.
    - Go strings are [string]; [model.TaskStatus] is a string type.
    - Calls to external collaborators (ledger, logs, task store) are recorded
      in order as a list of [Event]s; their outcomes come from an [Env]. *)

From Stdlib Require Import ZArith Lia Bool List String Ascii.
From Stdlib Require Import Floats.PrimFloat Floats.SpecFloat Floats.FloatOps.
From stdpp Require Import base option strings list gmap pretty.

Local Open Scope string_scope.
Local Open Scope Z_scope.

(** ** Machine integers *)

Module Int64.

Definition min_int : Z := - 2 ^ 63.
Definition max_int : Z := 2 ^ 63 - 1.

(** Two's complement wrap-around of a 64-bit signed integer. *)
Definition wrap64 (z : Z) : Z := (z + 2 ^ 63) mod 2 ^ 64 - 2 ^ 63.

Definition in_range (z : Z) : Prop := min_int <= z <= max_int.

Definition in_rangeb (z : Z) : bool := (min_int <=? z) && (z <=? max_int).

Definition sub (a b : Z) : Z := wrap64 (a - b).
Definition neg (a : Z) : Z := wrap64 (- a).

End Int64.

(** ** float64 *)

Module Float64.

(** [float64(n)] for a Go int: the nearest binary64, ties to even. *)
Definition of_int (z : Z) : float :=
  SF2Prim (binary_normalize 53 1024 z 0 false).

(** The integer part of a finite float (the fraction is discarded); [None] for
    NaN and the infinities. *)
Definition integer_part (f : float) : option Z :=
  match Prim2SF f with
  | S754_zero _ => Some 0
  | S754_finite s m e =>
      let a := if 0 <=? e then Z.shiftl (Z.pos m) e else Z.shiftr (Z.pos m) (- e) in
      Some (if s then - a else a)
  | S754_infinity _ => None
  | S754_nan => None
  end.

Section Conversion.
(** Go leaves the result of converting a float that no [int] represents
    (NaN, infinities, magnitudes beyond 64 bits) to the implementation; it
    is taken as given. *)
Variable unrepresentable : float -> Z.

(** [int(f)]: truncation toward zero. *)
Definition to_int (f : float) : Z :=
  match integer_part f with
  | Some z => if Int64.in_rangeb z then z else Int64.wrap64 (unrepresentable f)
  | None => Int64.wrap64 (unrepresentable f)
  end.
End Conversion.

(** Rounding to the nearest integer, halves away from zero ([math.Round]);
    this is the operation the specification's settlement formula names. *)
Definition round_nearest (f : float) : option Z :=
  match Prim2SF f with
  | S754_zero _ => Some 0
  | S754_finite s m e =>
      let a :=
        if 0 <=? e then Z.shiftl (Z.pos m) e
        else
          let d := 2 ^ (- e) in
          let q := Z.pos m / d in
          let r := Z.pos m mod d in
          if d <=? 2 * r then q + 1 else q in
      Some (if s then - a else a)
  | S754_infinity _ => None
  | S754_nan => None
  end.

End Float64.

(** ** Data model *)

(** [model.TaskStatus] and its constants (package [model]). The reconciler
    writes the literal ["FAILURE"] in its bulk update, which is
    [TaskStatusFailure]. *)
Definition TaskStatus := string.

Definition TaskStatusNotStart : TaskStatus := "NOT_START".
Definition TaskStatusSubmitted : TaskStatus := "SUBMITTED".
Definition TaskStatusQueued : TaskStatus := "QUEUED".
Definition TaskStatusInProgress : TaskStatus := "IN_PROGRESS".
Definition TaskStatusFailure : TaskStatus := "FAILURE".
Definition TaskStatusSuccess : TaskStatus := "SUCCESS".
Definition TaskStatusUnknown : TaskStatus := "UNKNOWN".

(** The six states of the specification's status enum. *)
Definition six_states : list TaskStatus :=
  [TaskStatusSubmitted; TaskStatusQueued; TaskStatusInProgress;
   TaskStatusSuccess; TaskStatusFailure; TaskStatusUnknown].

(** [model.Task]: the fields the reconciler reads or writes. *)
Record Task := mkTask {
  TaskID : string;
  Action : string;
  Status : TaskStatus;
  Progress : string;
  ModelName : string;
  UserId : Z;
  ChannelId : Z;
  TokenId : Z;
  TokenName : string;
  Group : string;
  Quota : Z;
  SubmitTime : Z;
  StartTime : Z;
  FinishTime : Z;
  FailReason : string;
  Data : string
}.

(** [relaycommon.TaskInfo]: the adaptor's normalized poll result. *)
Record TaskInfo := mkTaskInfo {
  ti_TaskID : string;
  ti_Status : string;
  ti_Progress : string;
  ti_Url : string;
  ti_Reason : string;
  ti_TotalTokens : Z
}.

Definition set_Status (s : TaskStatus) (t : Task) : Task :=
  mkTask (TaskID t) (Action t) s (Progress t) (ModelName t) (UserId t)
    (ChannelId t) (TokenId t) (TokenName t) (Group t) (Quota t) (SubmitTime t)
    (StartTime t) (FinishTime t) (FailReason t) (Data t).

Definition set_Progress (p : string) (t : Task) : Task :=
  mkTask (TaskID t) (Action t) (Status t) p (ModelName t) (UserId t)
    (ChannelId t) (TokenId t) (TokenName t) (Group t) (Quota t) (SubmitTime t)
    (StartTime t) (FinishTime t) (FailReason t) (Data t).

Definition set_Quota (q : Z) (t : Task) : Task :=
  mkTask (TaskID t) (Action t) (Status t) (Progress t) (ModelName t) (UserId t)
    (ChannelId t) (TokenId t) (TokenName t) (Group t) q (SubmitTime t)
    (StartTime t) (FinishTime t) (FailReason t) (Data t).

Definition set_StartTime (n : Z) (t : Task) : Task :=
  mkTask (TaskID t) (Action t) (Status t) (Progress t) (ModelName t) (UserId t)
    (ChannelId t) (TokenId t) (TokenName t) (Group t) (Quota t) (SubmitTime t)
    n (FinishTime t) (FailReason t) (Data t).

Definition set_FinishTime (n : Z) (t : Task) : Task :=
  mkTask (TaskID t) (Action t) (Status t) (Progress t) (ModelName t) (UserId t)
    (ChannelId t) (TokenId t) (TokenName t) (Group t) (Quota t) (SubmitTime t)
    (StartTime t) n (FailReason t) (Data t).

Definition set_FailReason (r : string) (t : Task) : Task :=
  mkTask (TaskID t) (Action t) (Status t) (Progress t) (ModelName t) (UserId t)
    (ChannelId t) (TokenId t) (TokenName t) (Group t) (Quota t) (SubmitTime t)
    (StartTime t) (FinishTime t) r (Data t).

Definition set_Data (d : string) (t : Task) : Task :=
  mkTask (TaskID t) (Action t) (Status t) (Progress t) (ModelName t) (UserId t)
    (ChannelId t) (TokenId t) (TokenName t) (Group t) (Quota t) (SubmitTime t)
    (StartTime t) (FinishTime t) (FailReason t) d.

(** [s == ""] *)
Definition is_empty (s : string) : bool := String.eqb s "".

(** ** The Volc Ark video adaptor *)

Module VolcVideo.

(** [fetchResponse], the decoded vendor poll payload. *)
Record fetchResponse := mkFetch {
  fr_ID : string;
  fr_Model : string;
  fr_Status : string;
  fr_VideoURL : string;
  fr_CompletionTokens : Z;
  fr_TotalTokens : Z;
  fr_CreatedAt : Z;
  fr_UpdatedAt : Z;
  fr_Seed : Z;
  fr_Resolution : string;
  fr_Duration : Z;
  fr_Ratio : string;
  fr_FramesPerSecond : Z;
  fr_ErrorCode : string;
  fr_ErrorMessage : string;
  fr_ErrorType : string;
  fr_ErrorParam : string
}.

(** The [successData] map built for a succeeded task, key by key. *)
Inductive JsonValue :=
| JString (s : string)
| JInt (n : Z)
| JContent (video_url : string)
| JUsage (completion_tokens total_tokens : Z).

Definition successData (fr : fetchResponse) : list (string * JsonValue) :=
  [("id", JString (fr_ID fr));
   ("model", JString (fr_Model fr));
   ("status", JString (fr_Status fr));
   ("content", JContent (fr_VideoURL fr));
   ("usage", JUsage (fr_CompletionTokens fr) (fr_TotalTokens fr));
   ("created_at", JInt (fr_CreatedAt fr));
   ("updated_at", JInt (fr_UpdatedAt fr));
   ("seed", JInt (fr_Seed fr));
   ("resolution", JString (fr_Resolution fr));
   ("duration", JInt (fr_Duration fr));
   ("ratio", JString (fr_Ratio fr));
   ("framespersecond", JInt (fr_FramesPerSecond fr))].

(** ASCII lower-casing of one byte. *)
Definition lower_ascii (c : ascii) : ascii :=
  let n := nat_of_ascii c in
  if ((65 <=? n) && (n <=? 90))%nat then ascii_of_nat (n + 32) else c.

Fixpoint lower_bytes (s : string) : string :=
  match s with
  | EmptyString => EmptyString
  | String c s' => String (lower_ascii c) (lower_bytes s')
  end.

Fixpoint is_ascii (s : string) : bool :=
  match s with
  | EmptyString => true
  | String c s' => (nat_of_ascii c <? 128)%nat && is_ascii s'
  end.

(** The literal reasons of [ParseTaskResult] (UTF-8 bytes). *)
Definition reason_unknown_format : string :=
  String.string_of_list_ascii
    (map ascii_of_nat
       [230; 156; 170; 231; 159; 165; 229; 147; 141; 229; 186; 148; 230; 160;
        188; 229; 188; 143]%nat).

Definition reason_task_failed : string :=
  String.string_of_list_ascii
    (map ascii_of_nat
       [228; 187; 187; 229; 138; 161; 230; 137; 167; 232; 161; 140; 229; 164;
        177; 232; 180; 165]%nat).

Definition reason_unknown_status_prefix : string :=
  String.string_of_list_ascii
    (map ascii_of_nat
       [230; 156; 170; 231; 159; 165; 231; 138; 182; 230; 128; 129; 58; 32]%nat).

Section Adaptor.
(** [strings.ToLower] on a string with bytes outside ASCII maps each rune
    through the Unicode tables of Go's library; on an ASCII string it is
    [lower_bytes]. *)
Variable unicode_lower : string -> string.

Definition ToLower (s : string) : string :=
  if is_ascii s then lower_bytes s else unicode_lower s.

(** [json.Unmarshal(respBody, &fr)]; [None] when it fails. *)
Variable unmarshal_fetch : string -> option fetchResponse.

(** [json.Marshal(successData)]; [None] when it fails. *)
Variable marshal : list (string * JsonValue) -> option string.

(** The body of [ParseTaskResult] after the payload is decoded. *)
Definition parse_fetch (fr : fetchResponse) : TaskInfo :=
  let res := {| ti_TaskID := fr_ID fr; ti_Status := ""; ti_Progress := "";
                ti_Url := ""; ti_Reason := ""; ti_TotalTokens := 0 |} in
  if negb (is_empty (fr_ErrorCode fr)) then
    {| ti_TaskID := ti_TaskID res; ti_Status := TaskStatusFailure;
       ti_Progress := "100%"; ti_Url := ti_Url res;
       ti_Reason := fr_ErrorCode fr +:+ ": " +:+ fr_ErrorMessage fr;
       ti_TotalTokens := ti_TotalTokens res |}
  else if is_empty (fr_Status fr) then
    {| ti_TaskID := ti_TaskID res; ti_Status := TaskStatusUnknown;
       ti_Progress := "0%"; ti_Url := ti_Url res;
       ti_Reason := reason_unknown_format;
       ti_TotalTokens := ti_TotalTokens res |}
  else
    let st := ToLower (fr_Status fr) in
    if String.eqb st "queued" then
      {| ti_TaskID := ti_TaskID res; ti_Status := TaskStatusQueued;
         ti_Progress := "20%"; ti_Url := ti_Url res;
         ti_Reason := ti_Reason res; ti_TotalTokens := ti_TotalTokens res |}
    else if String.eqb st "running" then
      {| ti_TaskID := ti_TaskID res; ti_Status := TaskStatusInProgress;
         ti_Progress := "60%"; ti_Url := ti_Url res;
         ti_Reason := ti_Reason res; ti_TotalTokens := ti_TotalTokens res |}
    else if String.eqb st "succeeded" then
      {| ti_TaskID := ti_TaskID res; ti_Status := TaskStatusSuccess;
         ti_Progress := "100%"; ti_Url := fr_VideoURL fr;
         ti_Reason := match marshal (successData fr) with
                      | Some bytes => bytes
                      | None => ti_Reason res
                      end;
         ti_TotalTokens := ti_TotalTokens res |}
    else if String.eqb st "failed" then
      {| ti_TaskID := ti_TaskID res; ti_Status := TaskStatusFailure;
         ti_Progress := "100%"; ti_Url := ti_Url res;
         ti_Reason := if negb (is_empty (fr_ErrorMessage fr))
                      then fr_ErrorMessage fr else reason_task_failed;
         ti_TotalTokens := ti_TotalTokens res |}
    else
      {| ti_TaskID := ti_TaskID res; ti_Status := TaskStatusUnknown;
         ti_Progress := "0%"; ti_Url := ti_Url res;
         ti_Reason := reason_unknown_status_prefix +:+ fr_Status fr;
         ti_TotalTokens := ti_TotalTokens res |}.

(** [ParseTaskResult]: [None] is the error return. *)
Definition ParseTaskResult (respBody : string) : option TaskInfo :=
  match unmarshal_fetch respBody with
  | None => None
  | Some fr => Some (parse_fetch fr)
  end.
End Adaptor.

End VolcVideo.

(** ** External collaborators *)

(** [model.Channel]: what the reconciler reads of it. *)
Record Channel := mkChannel {
  ch_Type : Z;
  ch_BaseURL : string;
  ch_Key : string
}.

(** The result of [adaptor.FetchTask] followed by [io.ReadAll]. *)
Inductive FetchOutcome :=
| FetchFailed
| ReadAllFailed
| ResponseBody (responseBody : string).

(** [channel.TaskAdaptor], the capability the reconciler uses after the
    response is read; [None] is the error return. *)
Class TaskAdaptor := {
  adaptor_ParseTaskResult : string -> option TaskInfo
}.

(** Decoders and tables that do not change between polls. *)
Record Static := mkStatic {
  (** [int(f)] where Go leaves it to the implementation *)
  unrepresentable : float -> Z;
  (** [json.Unmarshal] into [dto.TaskResponse[model.Task]] succeeded and
      [IsSuccess()] holds: the [Data] task *)
  decode_envelope : string -> option Task;
  (** [json.Unmarshal] into a map succeeded and its ["model"] is a string *)
  json_model : string -> option string;
  (** [constant.ChannelBaseURLs] *)
  ChannelBaseURLs : Z -> string
}.

(** What one poll of one task meets outside this code: the clock, the vendor,
    the rate tables and the outcomes of the ledger and store calls ([true]
    is a nil error). *)
Record Env := mkEnv {
  now : Z;
  now_use_time : Z;
  FetchTask : string -> string -> string -> string -> FetchOutcome;
  GetModelRatio : string -> float;
  GetCompletionRatio : string -> float;
  GetGroupRatio : string -> float;
  DecreaseUserQuota : Z -> Z -> bool;
  IncreaseUserQuota : Z -> Z -> bool;
  GetUserById : Z -> option string;
  Update : Task -> bool
}.

(** *** The calls made, in order *)

Inductive Username :=
| UserNamed (username : string)
| UserNumbered (userId : Z).

Inductive OtherValue :=
| OString (s : string)
| OFloat (f : float).

Inductive LogContent :=
| ContentSupplement (modelRatio completionRatio groupRatio : float)
| ContentTokenRefund (taskID : string) (refund tokens : Z) (modelName : string)
| ContentFailRefund (taskID : string) (refund : Z).

Inductive LogType := LogTypeSystem.

(** [model.RecordConsumeLogParams], with the values set on the temporary
    context. *)
Record ConsumeLog := mkConsumeLog {
  ctx_id : Z;
  ctx_token_id : Z;
  ctx_token_name : string;
  ctx_username : Username;
  cl_ChannelId : Z;
  cl_PromptTokens : Z;
  cl_CompletionTokens : Z;
  cl_ModelName : string;
  cl_TokenName : string;
  cl_Quota : Z;
  cl_Content : LogContent;
  cl_TokenId : Z;
  cl_UseTimeSeconds : Z;
  cl_IsStream : bool;
  cl_Group : string;
  cl_Other : list (string * OtherValue)
}.

Inductive Err :=
| ErrTaskNotFound (taskId : string)
| ErrFetchTask (taskId : string)
| ErrReadAll (taskId : string)
| ErrParseTaskResult (taskId : string)
| ErrStatusEmpty (taskId : string)
| ErrUnknownStatus (status taskId : string)
| ErrCacheGetChannel
| ErrAdaptorNotFound.

Inductive Message :=
| MsgPending (channelId : Z) (n : nat)
| MsgTaskNotFound (taskId : string)
| MsgDefaultModel (taskID modelName : string)
| MsgDecreaseFailed
| MsgIncreaseFailed
| MsgSettled (taskID : string) (tokens quota : Z)
| MsgTaskFailed (taskID reason : string)
| MsgUpdateError
| MsgBulkUpdateError
| MsgSingleTaskFailed (taskId : string) (err : Err).

Inductive Event :=
| EvLogInfo (m : Message)
| EvLogError (m : Message)
| EvSysLog (m : Message)
| EvFetchTask (baseURL key taskId action : string)
| EvDecreaseUserQuota (userId quota : Z) (ok : bool)
| EvIncreaseUserQuota (userId quota : Z) (ok : bool)
| EvGetUserById (userId : Z)
| EvRecordConsumeLog (userId : Z) (params : ConsumeLog)
| EvRecordLog (userId : Z) (logType : LogType) (content : LogContent)
| EvUpdateUserUsedQuotaAndRequestCount (userId quota : Z)
| EvUpdateChannelUsedQuota (channelId quota : Z)
| EvTaskUpdate (task : Task) (ok : bool)
| EvTaskBulkUpdate (taskIds : list string) (fields : list (string * string)) (ok : bool).

(** A call that touches the user's quota or writes the ledger's logs. *)
Definition is_ledger_event (ev : Event) : bool :=
  match ev with
  | EvDecreaseUserQuota _ _ _ | EvIncreaseUserQuota _ _ _
  | EvRecordConsumeLog _ _ | EvRecordLog _ _ _
  | EvUpdateUserUsedQuotaAndRequestCount _ _
  | EvUpdateChannelUsedQuota _ _ => true
  | _ => false
  end.

Definition is_system_log (ev : Event) : bool :=
  match ev with
  | EvRecordLog _ LogTypeSystem _ => true
  | _ => false
  end.

(** A single-record write to the store. *)
Definition is_task_update (ev : Event) : bool :=
  match ev with
  | EvTaskUpdate _ _ => true
  | _ => false
  end.

(** The amount taken from a user's quota by the calls that succeeded. *)
Fixpoint charged (userId : Z) (evs : list Event) : Z :=
  match evs with
  | [] => 0
  | EvDecreaseUserQuota u q true :: evs' =>
      (if Z.eqb u userId then q else 0) + charged userId evs'
  | EvIncreaseUserQuota u q true :: evs' =>
      (if Z.eqb u userId then - q else 0) + charged userId evs'
  | _ :: evs' => charged userId evs'
  end.

(** ** The Task Store *)

(** The tasks in memory ([taskM], shared by pointer with the caller) and the
    persisted records, keyed by task ID. *)
Record World := mkWorld {
  taskM : gmap string Task;
  store : gmap string Task
}.

(** Modelled from the spec: [Task.Update] of package [model], the Task
    Store's single-record update; it writes the whole record, and a failed
    write leaves the store as it was. *)
Definition task_Update (ok : bool) (task : Task) (st : gmap string Task) : gmap string Task :=
  if ok then <[TaskID task := task]> st else st.

(** The columns a bulk update can name. *)
Definition update_column (t : Task) (kv : string * string) : Task :=
  let '(k, v) := kv in
  if String.eqb k "fail_reason" then set_FailReason v t
  else if String.eqb k "status" then set_Status v t
  else if String.eqb k "progress" then set_Progress v t
  else t.

(** Modelled from the spec: [TaskBulkUpdate] of package [model], the Task
    Store's bulk-update-by-ID; it sets the given columns on every record whose
    task ID is listed, and a failed update leaves the store as it was. *)
Definition TaskBulkUpdate (ok : bool) (taskIds : list string)
    (fields : list (string * string)) (st : gmap string Task) : gmap string Task :=
  if ok then
    foldr (fun id m => alter (fun t => foldl update_column t fields) id m) st taskIds
  else st.

(** ** The Reconciler and the Settlement Engine *)

Section Reconciler.
Variable cfg : Static.
Context {adaptor : TaskAdaptor}.

Definition default_model : string := "doubao-seedance-1-0-lite-i2v".

(** Lines 127-153: the billed model name, and whether the default was used. *)
Definition modelName_of (task : Task) (taskResult : TaskInfo) : string :=
  let m0 := ModelName task in
  let m1 :=
    if is_empty m0 && negb (is_empty (ti_Reason taskResult)) then
      match json_model cfg (ti_Reason taskResult) with
      | Some m => m
      | None => m0
      end
    else m0 in
  let m2 :=
    if is_empty m1 then
      match json_model cfg (Data task) with
      | Some m => m
      | None => m1
      end
    else m1 in
  m2.

Definition modelName (task : Task) (taskResult : TaskInfo) : string :=
  let m := modelName_of task taskResult in
  if is_empty m then default_model else m.

(** Lines 156-159. *)
Definition modelRatio (e : Env) (name : string) : float :=
  let r := GetModelRatio e name in
  if PrimFloat.eqb r 0 then 1%float else r.

(** Lines 162-165. *)
Definition completionRatio (e : Env) (name : string) : float :=
  let r := GetCompletionRatio e name in
  if PrimFloat.eqb r 0 then 1%float else r.

(** Lines 168-172. *)
Definition groupRatio (e : Env) (task : Task) : float :=
  let groupName := if is_empty (Group task) then "default" else Group task in
  GetGroupRatio e groupName.

(** Lines 176-179. *)
Definition actualQuota (e : Env) (task : Task) (taskResult : TaskInfo) : Z :=
  let name := modelName task taskResult in
  let a :=
    Float64.to_int (unrepresentable cfg)
      (Float64.of_int (ti_TotalTokens taskResult) * completionRatio e name
       * modelRatio e name * groupRatio e task)%float in
  if (a <=? 0) && PrimFloat.ltb 0 (modelRatio e name) then 1 else a.

(** Line 182. *)
Definition quotaDelta (e : Env) (task : Task) (taskResult : TaskInfo) : Z :=
  Int64.sub (actualQuota e task taskResult) (Quota task).

(** Lines 191-237: the supplement consumption entry. *)
Definition supplement_log (e : Env) (task : Task) (taskResult : TaskInfo) : ConsumeLog :=
  let name := modelName task taskResult in
  let delta := quotaDelta e task taskResult in
  let useTime0 := Int64.sub (FinishTime task) (SubmitTime task) in
  let useTime :=
    if useTime0 <=? 0 then Int64.sub (now_use_time e) (SubmitTime task)
    else useTime0 in
  let username :=
    match GetUserById e (UserId task) with
    | Some u => UserNamed u
    | None => UserNumbered (UserId task)
    end in
  {| ctx_id := UserId task;
     ctx_token_id := TokenId task;
     ctx_token_name := TokenName task;
     ctx_username := username;
     cl_ChannelId := ChannelId task;
     cl_PromptTokens := 0;
     cl_CompletionTokens := ti_TotalTokens taskResult;
     cl_ModelName := name;
     cl_TokenName := TokenName task;
     cl_Quota := delta;
     cl_Content :=
       ContentSupplement (modelRatio e name) (completionRatio e name)
         (groupRatio e task);
     cl_TokenId := TokenId task;
     cl_UseTimeSeconds := useTime;
     cl_IsStream := false;
     cl_Group := Group task;
     cl_Other :=
       [("task_id", OString (TaskID task));
        ("action", OString (Action task));
        ("model_ratio", OFloat (modelRatio e name));
        ("completion_ratio", OFloat (completionRatio e name));
        ("group_ratio", OFloat (groupRatio e task));
        ("adjustment_type", OString "supplement")] |}.

(** Lines 125-255: settlement of a succeeded task that reports usage. [task]
    already carries the status, progress, finish time and result URL of the
    Success case. *)
Definition settle (e : Env) (task : Task) (taskResult : TaskInfo) : Task * list Event :=
  let name := modelName task taskResult in
  let evs_name :=
    if is_empty (modelName_of task taskResult)
    then [EvLogInfo (MsgDefaultModel (TaskID task) name)] else [] in
  let actual := actualQuota e task taskResult in
  let delta := quotaDelta e task taskResult in
  let '(task1, evs_ledger) :=
    if negb (delta =? 0) then
      let evs :=
        if 0 <? delta then
          if DecreaseUserQuota e (UserId task) delta then
            [EvDecreaseUserQuota (UserId task) delta true;
             EvGetUserById (UserId task);
             EvRecordConsumeLog (UserId task) (supplement_log e task taskResult);
             EvUpdateUserUsedQuotaAndRequestCount (UserId task) delta;
             EvUpdateChannelUsedQuota (ChannelId task) delta]
          else
            [EvDecreaseUserQuota (UserId task) delta false;
             EvLogError MsgDecreaseFailed]
        else
          if IncreaseUserQuota e (UserId task) (Int64.neg delta) then
            [EvIncreaseUserQuota (UserId task) (Int64.neg delta) true;
             EvRecordLog (UserId task) LogTypeSystem
               (ContentTokenRefund (TaskID task) (Int64.neg delta)
                  (ti_TotalTokens taskResult) name)]
          else
            [EvIncreaseUserQuota (UserId task) (Int64.neg delta) false;
             EvLogError MsgIncreaseFailed] in
      (set_Quota actual task, evs)
    else (task, []) in
  (task1,
   (evs_name ++ evs_ledger
    ++ [EvLogInfo (MsgSettled (TaskID task) (ti_TotalTokens taskResult) actual)])%list).

(** Lines 256-271: the Failure case. *)
Definition on_failure (e : Env) (task : Task) (taskResult : TaskInfo) : Task * list Event :=
  let task := set_Status TaskStatusFailure task in
  let task := set_Progress "100%" task in
  let task := if FinishTime task =? 0 then set_FinishTime (now e) task else task in
  let task := set_FailReason (ti_Reason taskResult) task in
  let quota := Quota task in
  (task,
   EvLogInfo (MsgTaskFailed (TaskID task) (FailReason task))
   :: (if negb (quota =? 0) then
         (if IncreaseUserQuota e (UserId task) quota
          then [EvIncreaseUserQuota (UserId task) quota true]
          else [EvIncreaseUserQuota (UserId task) quota false;
                EvLogError MsgIncreaseFailed])
         ++ [EvRecordLog (UserId task) LogTypeSystem
               (ContentFailRefund (TaskID task) quota)]
       else [])%list).

(** Lines 118-255: the Success case. *)
Definition on_success (e : Env) (task : Task) (taskResult : TaskInfo) : Task * list Event :=
  let task := set_Progress "100%" task in
  let task := if FinishTime task =? 0 then set_FinishTime (now e) task else task in
  let task := set_FailReason (ti_Url taskResult) task in
  if 0 <? ti_TotalTokens taskResult then settle e task taskResult
  else (task, []).

(** Lines 275-280: the explicit progress and the store write. *)
Definition persist (e : Env) (task : Task) (taskResult : TaskInfo)
    (st : gmap string Task) : Task * gmap string Task * list Event :=
  let task :=
    if negb (is_empty (ti_Progress taskResult))
    then set_Progress (ti_Progress taskResult) task else task in
  let ok := Update e task in
  (task, task_Update ok task st,
   EvTaskUpdate task ok :: (if ok then [] else [EvSysLog MsgUpdateError])).

(** Lines 108-274: the switch on the normalized status; [None] is its
    default case. *)
Definition transition (e : Env) (task : Task) (taskResult : TaskInfo)
  : option (Task * list Event) :=
  let st := ti_Status taskResult in
  if String.eqb st TaskStatusSubmitted then
    Some (set_Progress "10%" task, [])
  else if String.eqb st TaskStatusQueued then
    Some (set_Progress "20%" task, [])
  else if String.eqb st TaskStatusInProgress then
    let task := set_Progress "30%" task in
    Some (if StartTime task =? 0 then set_StartTime (now e) task else task, [])
  else if String.eqb st TaskStatusSuccess then
    Some (on_success e task taskResult)
  else if String.eqb st TaskStatusFailure then
    Some (on_failure e task taskResult)
  else None.

(** Lines 103-282: the status transition for a normalized result. The task
    returned is the in-memory record after the call, also on an error
    return. *)
Definition apply_result (e : Env) (taskId : string) (task : Task)
    (taskResult : TaskInfo) (st : gmap string Task)
  : Task * gmap string Task * list Event * option Err :=
  if is_empty (ti_Status taskResult) then
    (task, st, [], Some (ErrStatusEmpty taskId))
  else
    let task := set_Status (ti_Status taskResult) task in
    match transition e task taskResult with
    | Some (task1, evs) =>
        let '(task2, st', evs') := persist e task1 taskResult st in
        (task2, st', (evs ++ evs')%list, None)
    | None =>
        (task, st, [], Some (ErrUnknownStatus (ti_Status taskResult) taskId))
    end.

(** Lines 87-101: the response read as this gateway's own envelope, else by
    the adaptor. *)
Definition normalize (task : Task) (responseBody : string) : option (Task * TaskInfo) :=
  match decode_envelope cfg responseBody with
  | Some t =>
      Some (task,
            {| ti_TaskID := TaskID t; ti_Status := Status t;
               ti_Progress := Progress t; ti_Url := FailReason t;
               ti_Reason := FailReason t; ti_TotalTokens := 0 |})
  | None =>
      match adaptor_ParseTaskResult responseBody with
      | None => None
      | Some taskResult => Some (set_Data responseBody task, taskResult)
      end
  end.

(** [updateVideoSingleTask]: the tasks and the store after the call, the
    calls made, and the error returned. *)
Definition updateVideoSingleTask (e : Env) (channel : Channel) (taskId : string)
    (w : World) : World * list Event * option Err :=
  let baseURL :=
    if negb (is_empty (ch_BaseURL channel)) then ch_BaseURL channel
    else ChannelBaseURLs cfg (ch_Type channel) in
  match taskM w !! taskId with
  | None => (w, [EvLogError (MsgTaskNotFound taskId)], Some (ErrTaskNotFound taskId))
  | Some task =>
      let call := EvFetchTask baseURL (ch_Key channel) taskId (Action task) in
      match FetchTask e baseURL (ch_Key channel) taskId (Action task) with
      | FetchFailed => (w, [call], Some (ErrFetchTask taskId))
      | ReadAllFailed => (w, [call], Some (ErrReadAll taskId))
      | ResponseBody responseBody =>
          match normalize task responseBody with
          | None => (w, [call], Some (ErrParseTaskResult taskId))
          | Some (task1, taskResult) =>
              let '(task2, st', evs, err) :=
                apply_result e taskId task1 taskResult (store w) in
              ({| taskM := <[taskId := task2]> (taskM w); store := st' |},
               call :: evs, err)
          end
      end
  end.

(** The loop of [updateVideoTaskAll] (lines 52-56); [env i] is what the
    [i]-th iteration meets. *)
Fixpoint update_each (env : nat -> Env) (i : nat) (channel : Channel)
    (taskIds : list string) (w : World) : World * list Event :=
  match taskIds with
  | [] => (w, [])
  | taskId :: rest =>
      let '(w1, evs, err) := updateVideoSingleTask (env i) channel taskId w in
      let evs_err :=
        match err with
        | Some er => [EvLogError (MsgSingleTaskFailed taskId er)]
        | None => []
        end in
      let '(w2, evs_rest) := update_each env (S i) channel rest w1 in
      (w2, (evs ++ evs_err ++ evs_rest)%list)
  end.

End Reconciler.

(** What one run of [updateVideoTaskAll] meets. *)
Record BatchEnv := mkBatchEnv {
  CacheGetChannel : Z -> option Channel;
  TaskBulkUpdate_ok : bool;
  GetTaskAdaptor : string -> option TaskAdaptor;
  poll_env : nat -> Env
}.

(** The columns written when the channel cannot be resolved (lines 38-42). *)
Definition channel_failure_fields (channelId : Z) : list (string * string) :=
  [("fail_reason", "Failed to get channel info, channel ID: " +:+ pretty channelId);
   ("status", "FAILURE");
   ("progress", "100%")].

(** [updateVideoTaskAll] *)
Definition updateVideoTaskAll (cfg : Static) (b : BatchEnv) (platform : string)
    (channelId : Z) (taskIds : list string) (w : World)
  : World * list Event * option Err :=
  let info := EvLogInfo (MsgPending channelId (length taskIds)) in
  match taskIds with
  | [] => (w, [info], None)
  | _ :: _ =>
      match CacheGetChannel b channelId with
      | None =>
          let fields := channel_failure_fields channelId in
          let ok := TaskBulkUpdate_ok b in
          ({| taskM := taskM w;
              store := TaskBulkUpdate ok taskIds fields (store w) |},
           info :: EvTaskBulkUpdate taskIds fields ok
           :: (if ok then [] else [EvSysLog MsgBulkUpdateError]),
           Some ErrCacheGetChannel)
      | Some cacheGetChannel =>
          match GetTaskAdaptor b platform with
          | None => (w, [info], Some ErrAdaptorNotFound)
          | Some adaptor =>
              let '(w', evs) :=
                update_each cfg (adaptor := adaptor) (poll_env b) 0
                  cacheGetChannel taskIds w in
              (w', info :: evs, None)
          end
      end
  end.

(** The parts of what [apply_result] returns. *)
Definition out_task (r : Task * gmap string Task * list Event * option Err) : Task :=
  let '(t, _, _, _) := r in t.

Definition out_store (r : Task * gmap string Task * list Event * option Err)
  : gmap string Task :=
  let '(_, st, _, _) := r in st.

Definition out_events (r : Task * gmap string Task * list Event * option Err)
  : list Event :=
  let '(_, _, evs, _) := r in evs.

Definition out_err (r : Task * gmap string Task * list Event * option Err) : option Err :=
  let '(_, _, _, err) := r in err.

(** ** Sequences of reconciliation passes on one task *)

(** One run of [updateVideoTaskAll] over the channel's batch. *)
Record Pass := mkPass {
  pass_env : BatchEnv;
  pass_platform : string;
  pass_channel : Z
}.

(** One pass over a batch holding the single task [t], read from the store:
    the persisted record afterwards and the calls made. *)
Definition run_pass (cfg : Static) (p : Pass) (t : Task) : Task * list Event :=
  let id := TaskID t in
  let w := {| taskM := {[ id := t ]}; store := {[ id := t ]} |} in
  let '(w', evs, _) :=
    updateVideoTaskAll cfg (pass_env p) (pass_platform p) (pass_channel p) [id] w in
  (default t (store w' !! id), evs).

(** The record before, the calls made and the record after, pass by pass. *)
Fixpoint history (cfg : Static) (t : Task) (ps : list Pass)
  : list (Task * list Event * Task) :=
  match ps with
  | [] => []
  | p :: ps' =>
      let '(t', evs) := run_pass cfg p t in
      (t, evs, t') :: history cfg t' ps'
  end.

Definition is_terminal (s : TaskStatus) : bool :=
  String.eqb s TaskStatusSuccess || String.eqb s TaskStatusFailure.

(** The pass wrote the record through the Success or the Failure case. *)
Definition terminal_transition (evs : list Event) : bool :=
  existsb (fun ev => match ev with
                     | EvTaskUpdate t true => is_terminal (Status t)
                     | _ => false
                     end) evs.

(** The pass wrote the record through the InProgress case. *)
Definition in_progress_transition (evs : list Event) : bool :=
  existsb (fun ev => match ev with
                     | EvTaskUpdate t true => String.eqb (Status t) TaskStatusInProgress
                     | _ => false
                     end) evs.

Definition finish_changed (h : Task * list Event * Task) : bool :=
  let '(before, _, after) := h in negb (FinishTime after =? FinishTime before).

Definition start_changed (h : Task * list Event * Task) : bool :=
  let '(before, _, after) := h in negb (StartTime after =? StartTime before).

Definition events_of (h : Task * list Event * Task) : list Event :=
  let '(_, evs, _) := h in evs.

(** What a pass does to the timestamps of the stored record: either it
    writes no record through the status switch and both stay, or it writes
    the record it produced, whose timestamps follow from its status. *)
Definition pass_outcome (nowv : Z) (t t' : Task) (evs : list Event) : Prop :=
  ((List.filter is_task_update evs = [] \/
    exists t2, List.filter is_task_update evs = [EvTaskUpdate t2 false]) /\
   FinishTime t' = FinishTime t /\ StartTime t' = StartTime t)
  \/
  (List.filter is_task_update evs = [EvTaskUpdate t' true] /\
   FinishTime t' =
     (if is_terminal (Status t') && (FinishTime t =? 0) then nowv else FinishTime t) /\
   StartTime t' =
     (if String.eqb (Status t') TaskStatusInProgress && (StartTime t =? 0)
      then nowv else StartTime t)).

Definition record_before (h : Task * list Event * Task) : Task :=
  let '(before, _, _) := h in before.

Definition record_after (h : Task * list Event * Task) : Task :=
  let '(_, _, after) := h in after.

(** Each pass starts from the record the pass before it left. *)
Inductive chained : Task -> list (Task * list Event * Task) -> Prop :=
| chained_nil (t : Task) : chained t []
| chained_cons (t t' : Task) (evs : list Event) (h : list (Task * list Event * Task)) :
    chained t' h -> chained t ((t, evs, t') :: h).

(** A timestamp [time] that a pass sets only from zero, only together with
    the transition [trans] into a status satisfying [final], and always to a
    nonzero value when that transition is written. *)
Definition sets_once (time : Task -> Z) (trans : list Event -> bool)
    (final : Task -> bool) (x : Task * list Event * Task) : Prop :=
  let '(before, evs, after) := x in
  (time before <> 0 -> time after = time before) /\
  (time after <> time before ->
   time before = 0 /\ trans evs = true /\ final after = true) /\
  (trans evs = true -> time after <> 0).

Definition changed (time : Task -> Z) (x : Task * list Event * Task) : bool :=
  let '(before, _, after) := x in negb (time after =? time before).

(** The clock of every per-task poll of the pass reads a nonzero epoch
    second. *)
Definition clock_set (p : Pass) : Prop :=
  forall i, now (poll_env (pass_env p) i) <> 0.

(** ** The settlement formula as the specification words it *)

(** [round(totalUsageTokens * completionRate * modelRate * groupRate)], at
    least 1 when the model rate is positive; the rates are the ones the
    code multiplies. *)
Definition spec_actualQuota (cfg : Static) (e : Env) (task : Task) (taskResult : TaskInfo)
  : option Z :=
  let name := modelName cfg task taskResult in
  match
    Float64.round_nearest
      (Float64.of_int (ti_TotalTokens taskResult) * completionRatio e name
       * modelRatio e name * groupRatio e task)%float
  with
  | Some r => Some (if (r <=? 0) && PrimFloat.ltb 0 (modelRatio e name) then 1 else r)
  | None => None
  end.

(** A rate that resolves to zero read as 1.0. *)
Definition neutral (r : float) : float :=
  if PrimFloat.eqb r 0 then 1%float else r.

(** ** What the settlement reads *)

(** Two records that bill alike: same stored model name, payload and group. *)
Definition same_billing (t t' : Task) : Prop :=
  ModelName t = ModelName t' /\ Data t = Data t' /\ Group t = Group t'.

(** Two environments whose rate tables agree. *)
Definition same_rates (e e' : Env) : Prop :=
  (forall n, GetModelRatio e' n = GetModelRatio e n) /\
  (forall n, GetCompletionRatio e' n = GetCompletionRatio e n) /\
  (forall g, GetGroupRatio e' g = GetGroupRatio e g).

(** The record as the Success case hands it to the settlement (lines
    118-123), the status being already written. *)
Definition success_prep (e : Env) (task : Task) (taskResult : TaskInfo) : Task :=
  let task := set_Progress "100%" task in
  let task := if FinishTime task =? 0 then set_FinishTime (now e) task else task in
  set_FailReason (ti_Url taskResult) task.

(** The product the settlement converts to an integer (line 176). *)
Definition usage_product (cfg : Static) (e : Env) (task : Task) (taskResult : TaskInfo)
  : float :=
  let name := modelName cfg task taskResult in
  (Float64.of_int (ti_TotalTokens taskResult) * completionRatio e name
   * modelRatio e name * groupRatio e task)%float.

(** ** Sample collaborators and tasks *)

Module Sample.

Definition cfg : Static :=
  {| unrepresentable := fun _ => Int64.min_int;
     decode_envelope := fun _ => None;
     json_model := fun _ => None;
     ChannelBaseURLs := fun _ => "https://ark.cn-beijing.volces.com" |}.

Definition channel : Channel :=
  {| ch_Type := 45; ch_BaseURL := ""; ch_Key := "key" |}.

(** A task of user 7 with the given reserved quota, submitted at 1000. *)
Definition task (quota : Z) : Task :=
  {| TaskID := "cgt-1"; Action := "generate"; Status := TaskStatusSubmitted;
     Progress := "10%"; ModelName := "doubao-seedance-pro-250528"; UserId := 7;
     ChannelId := 3; TokenId := 11; TokenName := "tk"; Group := "";
     Quota := quota; SubmitTime := 1000; StartTime := 0; FinishTime := 0;
     FailReason := ""; Data := "" |}.

(** An environment with constant rates and ledger outcomes; the vendor
    answers every fetch with [body]. *)
Definition env (model completion group : float) (debit credit : bool) (body : string) : Env :=
  {| now := 2000;
     now_use_time := 2001;
     FetchTask := fun _ _ _ _ => ResponseBody body;
     GetModelRatio := fun _ => model;
     GetCompletionRatio := fun _ => completion;
     GetGroupRatio := fun _ => group;
     DecreaseUserQuota := fun _ _ => debit;
     IncreaseUserQuota := fun _ _ => credit;
     GetUserById := fun _ => Some "alice";
     Update := fun _ => true |}.

Definition result (status : string) (tokens : Z) : TaskInfo :=
  {| ti_TaskID := "cgt-1"; ti_Status := status; ti_Progress := "";
     ti_Url := "https://cdn/video.mp4"; ti_Reason := ""; ti_TotalTokens := tokens |}.

(** A vendor payload with the given status and error code. *)
Definition payload (status code : string) : VolcVideo.fetchResponse :=
  {| VolcVideo.fr_ID := "cgt-1"; VolcVideo.fr_Model := "doubao-seedance-pro-250528";
     VolcVideo.fr_Status := status; VolcVideo.fr_VideoURL := "https://cdn/video.mp4";
     VolcVideo.fr_CompletionTokens := 0; VolcVideo.fr_TotalTokens := 0;
     VolcVideo.fr_CreatedAt := 1000; VolcVideo.fr_UpdatedAt := 1500;
     VolcVideo.fr_Seed := 1; VolcVideo.fr_Resolution := "720p";
     VolcVideo.fr_Duration := 5; VolcVideo.fr_Ratio := "16:9";
     VolcVideo.fr_FramesPerSecond := 24; VolcVideo.fr_ErrorCode := code;
     VolcVideo.fr_ErrorMessage := "slow down"; VolcVideo.fr_ErrorType := "";
     VolcVideo.fr_ErrorParam := "" |}.

(** A decoder that reads the body as the vendor status. *)
Definition unmarshal (body : string) : option VolcVideo.fetchResponse :=
  Some (payload body "").

Definition marshal (kvs : list (string * VolcVideo.JsonValue)) : option string :=
  Some "{}".

(** An adaptor that hands back a fixed normalized result. *)
Definition fixed_adaptor (r : TaskInfo) : TaskAdaptor :=
  {| adaptor_ParseTaskResult := fun _ => Some r |}.

Definition batch (ch : option Channel) (r : TaskInfo) : BatchEnv :=
  {| CacheGetChannel := fun _ => ch;
     TaskBulkUpdate_ok := true;
     GetTaskAdaptor := fun _ => Some (fixed_adaptor r);
     poll_env := fun _ => env 1 1 1 true true "body" |}.

Definition pass (ch : option Channel) (r : TaskInfo) : Pass :=
  {| pass_env := batch ch r; pass_platform := "volcvideo"; pass_channel := 3 |}.

End Sample.

(** The Volc Ark adaptor as a [TaskAdaptor]. *)
Definition volcvideo_adaptor (unicode_lower : string -> string)
    (unmarshal_fetch : string -> option VolcVideo.fetchResponse)
    (marshal : list (string * VolcVideo.JsonValue) -> option string) : TaskAdaptor :=
  {| adaptor_ParseTaskResult :=
       VolcVideo.ParseTaskResult unicode_lower unmarshal_fetch marshal |}.

(** ** The Volc Ark adaptor: submission and polling requests *)

Module VolcRequest.

(** A decoded JSON value held in a [map[string]any]. *)
#[warnings="-register-all"]
Inductive Any :=
| ANil
| AString (s : string)
| ABool (b : bool)
| ANumber (f : float)
| AList (l : list Any)
| AMap (m : list (string * Any)).

(** [m[key]] on a decoded object, the first binding of the key. *)
Fixpoint map_get (m : list (string * Any)) (key : string) : option Any :=
  match m with
  | [] => None
  | (k, v) :: m' => if String.eqb k key then Some v else map_get m' key
  end.

(** [relaycommon.TaskSubmitReq]: the fields the adaptor reads. *)
Record TaskSubmitReq := mkTaskSubmitReq {
  req_Model : string;
  req_Prompt : string;
  req_Image : string;
  req_Metadata : gmap string Any
}.

(** [relaycommon.RelayInfo]: the fields the adaptor reads or writes. *)
Record RelayInfo := mkRelayInfo {
  ri_ChannelType : Z;
  ri_ChannelBaseUrl : string;
  ri_ApiKey : string;
  ri_UpstreamModelName : string;
  ri_Action : string
}.

(** The [TaskAdaptor] struct. *)
Record Adaptor := mkAdaptor {
  ChannelType : Z;
  baseURL : string;
  apiKey : string
}.

Record contentItem := mkContentItem {
  ci_Type : string;
  ci_Text : string;
  ci_ImageURL : option string;
  ci_Role : string
}.

Record submitRequest := mkSubmitRequest {
  sr_Model : string;
  sr_Content : list contentItem;
  sr_CallbackURL : string;
  sr_ReturnLastFrame : bool
}.

(** What [service.TaskErrorWrapperLocal] and [service.TaskErrorWrapper] are
    given: the cause, the code and the HTTP status. *)
Inductive Cause :=
| CauseDecode
| CauseRead
| CauseText (message : string).

Record TaskError := mkTaskError {
  te_cause : Cause;
  te_code : string;
  te_status : Z;
  te_local : bool
}.

Record HttpRequest := mkHttpRequest {
  rq_Method : string;
  rq_URL : string;
  rq_Header : gmap string string
}.

Inductive FetchError :=
| InvalidTaskId
| NewRequestFailed.

Inductive BuildResult :=
| BuildOk (data : string)
| BuildNoRequest
| BuildMarshalFailed.

(** [Init] *)
Definition Init (info : RelayInfo) : Adaptor :=
  {| ChannelType := ri_ChannelType info;
     baseURL := ri_ChannelBaseUrl info;
     apiKey := ri_ApiKey info |}.

(** [BuildRequestURL] *)
Definition BuildRequestURL (a : Adaptor) : string :=
  baseURL a +:+ "/api/v3/contents/generations/tasks".

(** [BuildRequestHeader]: [Header.Set] replaces what the key held. *)
Definition BuildRequestHeader (a : Adaptor) (header : gmap string string)
  : gmap string string :=
  <["Authorization" := "Bearer " +:+ apiKey a]>
    (<["Accept" := "application/json"]>
       (<["Content-Type" := "application/json"]> header)).

(** [GetModelList] *)
Definition GetModelList : list string :=
  ["doubao-seedance-pro-250528";
   "doubao-seedance-1-0-lite-t2v-250428";
   "doubao-seedance-1-0-lite-i2v-250428";
   "wan2-1-14b-t2v-250428";
   "wan2-1-14b-i2v-250428";
   "wan2-1-14b-flf2v-250428"].

(** [GetChannelName] *)
Definition GetChannelName : string := "volcvideo".

Section Requests.
(** [strings.TrimSpace] of Go's library. *)
Variable TrimSpace : string -> string.
(** [fmt.Sprint] on a number, a list or an object. *)
Variable Sprint_other : Any -> string.
(** [constant.TaskActionGenerate] *)
Variable TaskActionGenerate : string.
(** [json.Marshal] of the submission body; [None] when it fails. *)
Variable marshal_request : submitRequest -> option string.
(** [json.Unmarshal] into [submitResponse]: its [ID]; [None] when it fails. *)
Variable unmarshal_submit : string -> option string.
(** [http.NewRequest] accepts the URL. *)
Variable url_accepted : string -> bool.

(** [fmt.Sprint(m[key])]: a missing key and a JSON null are the nil
    interface. *)
Definition Sprint (v : option Any) : string :=
  match v with
  | None => "<nil>"
  | Some ANil => "<nil>"
  | Some (AString s) => s
  | Some (ABool true) => "true"
  | Some (ABool false) => "false"
  | Some (ANumber f) => Sprint_other (ANumber f)
  | Some (AList l) => Sprint_other (AList l)
  | Some (AMap m) => Sprint_other (AMap m)
  end.

(** [ValidateRequestAndSetAction]: the action written to [info] (on every
    path), and either the error or the request stored in the context;
    [decoded] is what [common.UnmarshalBodyReusable] gave, [None] on error. *)
Definition ValidateRequestAndSetAction (decoded : option TaskSubmitReq) (info : RelayInfo)
  : RelayInfo * (TaskError + TaskSubmitReq) :=
  let info :=
    {| ri_ChannelType := ri_ChannelType info;
       ri_ChannelBaseUrl := ri_ChannelBaseUrl info;
       ri_ApiKey := ri_ApiKey info;
       ri_UpstreamModelName := ri_UpstreamModelName info;
       ri_Action := TaskActionGenerate |} in
  match decoded with
  | None => (info, inl (mkTaskError CauseDecode "invalid_request" 400 true))
  | Some req =>
      if is_empty (TrimSpace (req_Model req)) then
        (info, inl (mkTaskError (CauseText "model is required") "invalid_request" 400 true))
      else if is_empty (TrimSpace (req_Prompt req)) && is_empty (req_Image req) then
        (info,
         inl (mkTaskError (CauseText "prompt or image is required") "invalid_request"
                400 true))
      else (info, inr req)
  end.

(** Lines 149-159: one entry of the metadata image list. *)
Definition image_item (it : Any) : list contentItem :=
  let m := match it with AMap m => m | _ => [] end in
  let u := Sprint (map_get m "url") in
  if is_empty u then []
  else
    [{| ci_Type := "image_url"; ci_Text := ""; ci_ImageURL := Some u;
        ci_Role := Sprint (map_get m "role") |}].

(** Lines 127-165: the body before it is marshalled. *)
Definition build_body (req : TaskSubmitReq) (info : RelayInfo) : submitRequest :=
  let modelName :=
    if negb (is_empty (ri_UpstreamModelName info)) then ri_UpstreamModelName info
    else req_Model req in
  let text :=
    if negb (is_empty (TrimSpace (req_Prompt req))) then
      [{| ci_Type := "text"; ci_Text := req_Prompt req; ci_ImageURL := None;
          ci_Role := "" |}]
    else [] in
  let image :=
    if negb (is_empty (req_Image req)) then
      let role :=
        match req_Metadata req !! "role" with
        | Some (AString r) => if negb (is_empty r) then r else "first_frame"
        | _ => "first_frame"
        end in
      [{| ci_Type := "image_url"; ci_Text := ""; ci_ImageURL := Some (req_Image req);
          ci_Role := role |}]
    else [] in
  let images :=
    match req_Metadata req !! "images" with
    | Some (AList imgs) => List.flat_map image_item imgs
    | _ => []
    end in
  {| sr_Model := modelName;
     sr_Content := (text ++ image ++ images)%list;
     sr_CallbackURL :=
       match req_Metadata req !! "callback_url" with
       | Some (AString cb) => cb
       | _ => ""
       end;
     sr_ReturnLastFrame :=
       match req_Metadata req !! "return_last_frame" with
       | Some (ABool rlf) => rlf
       | _ => false
       end |}.

(** [BuildRequestBody]; [stored] is the context's ["task_request"]. *)
Definition BuildRequestBody (stored : option TaskSubmitReq) (info : RelayInfo)
  : BuildResult :=
  match stored with
  | None => BuildNoRequest
  | Some req =>
      match marshal_request (build_body req info) with
      | Some data => BuildOk data
      | None => BuildMarshalFailed
      end
  end.

(** [DoResponse]: the task ID and data or the error, and the JSON answer
    written to the client; [read] is what [io.ReadAll] gave, [None] on error. *)
Definition DoResponse (read : option string)
  : (TaskError + string * string) * option (Z * list (string * string)) :=
  match read with
  | None => (inl (mkTaskError CauseRead "read_response_body_failed" 500 false), None)
  | Some responseBody =>
      match unmarshal_submit responseBody with
      | None =>
          (inl (mkTaskError CauseDecode "unmarshal_response_body_failed" 500 false), None)
      | Some id =>
          if is_empty id then
            (inl (mkTaskError (CauseText "empty task id") "invalid_response" 500 true),
             None)
          else (inr (id, responseBody), Some (200, [("task_id", id)]))
      end
  end.

(** [FetchTask] up to the call of the HTTP client: the request it sends. *)
Definition FetchTask_request (baseUrl key : string) (body : gmap string Any)
  : FetchError + HttpRequest :=
  let taskID :=
    match body !! "task_id" with
    | Some (AString s) => s
    | _ => ""
    end in
  if is_empty taskID then inl InvalidTaskId
  else
    let url := baseUrl +:+ "/api/v3/contents/generations/tasks/" +:+ taskID in
    if url_accepted url then
      inr {| rq_Method := "GET"; rq_URL := url;
             rq_Header :=
               <["Authorization" := "Bearer " +:+ key]>
                 (<["Accept" := "application/json"]> ∅) |}
    else inl NewRequestFailed.

End Requests.

End VolcRequest.

(** ** The run over all channels *)

(** A call of a channel's batch, or the log line of a channel that failed. *)
Inductive RunEvent :=
| InChannel (channelId : Z) (ev : Event)
| ChannelFailed (channelId : Z) (err : Err).

(** [UpdateVideoTaskAll]: [visits] lists the entries of [taskChannelM] in the
    order the range visits them, [benv channelId] is what that channel's
    batch meets. The error returned is always nil. *)
Fixpoint UpdateVideoTaskAll (cfg : Static) (benv : Z -> BatchEnv) (platform : string)
    (visits : list (Z * list string)) (w : World) : World * list RunEvent :=
  match visits with
  | [] => (w, [])
  | (channelId, taskIds) :: rest =>
      let '(w1, evs, err) :=
        updateVideoTaskAll cfg (benv channelId) platform channelId taskIds w in
      let failed :=
        match err with
        | Some er => [ChannelFailed channelId er]
        | None => []
        end in
      let '(w2, evs_rest) := UpdateVideoTaskAll cfg benv platform rest w1 in
      (w2, (map (InChannel channelId) evs ++ failed ++ evs_rest)%list)
  end.

(** A debit of the user or a consumption entry. *)
Definition is_debit_event (ev : Event) : bool :=
  match ev with
  | EvDecreaseUserQuota _ _ _ | EvRecordConsumeLog _ _
  | EvUpdateUserUsedQuotaAndRequestCount _ _
  | EvUpdateChannelUsedQuota _ _ => true
  | _ => false
  end.

(** ** More samples *)

Module Sample2.

(** [strings.TrimSpace] on strings whose blanks are ASCII spaces. *)
Fixpoint trim_left (l : list ascii) : list ascii :=
  match l with
  | c :: l' => if Ascii.eqb c " " then trim_left l' else l
  | [] => []
  end.

Definition trim_spaces (s : string) : string :=
  string_of_list_ascii
    (rev (trim_left (rev (trim_left (list_ascii_of_string s))))).

Definition sprint_other (v : VolcRequest.Any) : string := "?".

Definition marshal_request (b : VolcRequest.submitRequest) : option string :=
  Some "{}".

(** The vendor answers a submission with the id as the whole body. *)
Definition unmarshal_submit (body : string) : option string := Some body.

Definition url_accepted (url : string) : bool := true.

Definition info : VolcRequest.RelayInfo :=
  {| VolcRequest.ri_ChannelType := 45;
     VolcRequest.ri_ChannelBaseUrl := "https://ark.example";
     VolcRequest.ri_ApiKey := "key";
     VolcRequest.ri_UpstreamModelName := "";
     VolcRequest.ri_Action := "" |}.

(** A text-and-image request whose metadata lists two more images, the
    second of them not an object. *)
Definition request : VolcRequest.TaskSubmitReq :=
  {| VolcRequest.req_Model := "doubao-seedance-pro-250528";
     VolcRequest.req_Prompt := "a cat";
     VolcRequest.req_Image := "https://img/first.png";
     VolcRequest.req_Metadata :=
       <["images" :=
           VolcRequest.AList
             [VolcRequest.AMap [("url", VolcRequest.AString "https://img/last.png");
                                ("role", VolcRequest.AString "last_frame")];
              VolcRequest.ANumber 1]]> ∅ |}.

(** A request with a blank prompt, no image, and an image in the metadata. *)
Definition metadata_only : VolcRequest.TaskSubmitReq :=
  {| VolcRequest.req_Model := "doubao-seedance-pro-250528";
     VolcRequest.req_Prompt := "  ";
     VolcRequest.req_Image := "";
     VolcRequest.req_Metadata :=
       <["images" :=
           VolcRequest.AList
             [VolcRequest.AMap [("url", VolcRequest.AString "https://img/last.png")]]]>
         ∅ |}.

(** An environment whose store refuses every write. *)
Definition env_store_down : Env :=
  {| now := 2000;
     now_use_time := 2001;
     FetchTask := fun _ _ _ _ => ResponseBody "body";
     GetModelRatio := fun _ => 1%float;
     GetCompletionRatio := fun _ => 1%float;
     GetGroupRatio := fun _ => 1%float;
     DecreaseUserQuota := fun _ _ => true;
     IncreaseUserQuota := fun _ _ => true;
     GetUserById := fun _ => Some "alice";
     Update := fun _ => false |}.

(** A gateway envelope that reports the task queued at 45%. *)
Definition envelope_task : Task :=
  {| TaskID := "cgt-1"; Action := "generate"; Status := TaskStatusQueued;
     Progress := "45%"; ModelName := ""; UserId := 0; ChannelId := 0; TokenId := 0;
     TokenName := ""; Group := ""; Quota := 0; SubmitTime := 0; StartTime := 0;
     FinishTime := 0; FailReason := ""; Data := "" |}.

Definition cfg_envelope : Static :=
  {| unrepresentable := fun _ => Int64.min_int;
     decode_envelope := fun _ => Some envelope_task;
     json_model := fun _ => None;
     ChannelBaseURLs := fun _ => "https://ark.cn-beijing.volces.com" |}.

Definition task_two : Task :=
  {| TaskID := "cgt-2"; Action := "generate"; Status := TaskStatusQueued;
     Progress := "20%"; ModelName := "doubao-seedance-pro-250528"; UserId := 8;
     ChannelId := 3; TokenId := 12; TokenName := "tk2"; Group := "";
     Quota := 70; SubmitTime := 1000; StartTime := 0; FinishTime := 0;
     FailReason := ""; Data := "" |}.

(** Two tasks in memory and in the store. *)
Definition world : World :=
  {| taskM := <["cgt-2" := task_two]> {["cgt-1" := Sample.task 100]};
     store := <["cgt-2" := task_two]> {["cgt-1" := Sample.task 100]} |}.

(** Channel 1 cannot be resolved, every other channel can. *)
Definition channels (channelId : Z) : BatchEnv :=
  if channelId =? 1
  then Sample.batch None (Sample.result TaskStatusInProgress 0)
  else Sample.batch (Some Sample.channel) (Sample.result TaskStatusInProgress 0).

End Sample2.

(** Every debit and credit call of the poll succeeds. *)
Definition ledger_accepts (e : Env) : Prop :=
  (forall u q, DecreaseUserQuota e u q = true) /\
  (forall u q, IncreaseUserQuota e u q = true).

(** * Properties *)

(** ** Machine integers *)

Lemma wrap64_range (z : Z) : Int64.in_range (Int64.wrap64 z).
Proof.
  unfold Int64.in_range, Int64.wrap64, Int64.min_int, Int64.max_int.
  pose proof (Z.mod_pos_bound (z + 2 ^ 63) (2 ^ 64) ltac:(lia)). lia.
Qed.

Lemma wrap64_id (z : Z) : Int64.in_range z -> Int64.wrap64 z = z.
Proof.
  unfold Int64.in_range, Int64.wrap64, Int64.min_int, Int64.max_int. intros H.
  rewrite Z.mod_small; lia.
Qed.

Lemma in_rangeb_spec (z : Z) : Int64.in_rangeb z = true <-> Int64.in_range z.
Proof.
  unfold Int64.in_rangeb, Int64.in_range.
  rewrite andb_true_iff, !Z.leb_le. tauto.
Qed.

Lemma sub_diag (a : Z) : Int64.sub a a = 0.
Proof. unfold Int64.sub. rewrite Z.sub_diag. reflexivity. Qed.

Lemma sub_zero_eq (a b : Z) :
  Int64.in_range a -> Int64.in_range b -> Int64.sub a b = 0 -> a = b.
Proof.
  unfold Int64.sub, Int64.wrap64, Int64.in_range, Int64.min_int, Int64.max_int.
  intros Ha Hb H.
  pose proof (Z.div_mod (a - b + 2 ^ 63) (2 ^ 64) ltac:(lia)) as Hd.
  change (2 ^ 64) with 18446744073709551616 in *.
  change (2 ^ 63) with 9223372036854775808 in *.
  lia.
Qed.

Lemma to_int_range (u : float -> Z) (f : float) : Int64.in_range (Float64.to_int u f).
Proof.
  unfold Float64.to_int.
  destruct (Float64.integer_part f) as [z|]; [|apply wrap64_range].
  destruct (Int64.in_rangeb z) eqn:E; [|apply wrap64_range].
  now apply in_rangeb_spec.
Qed.

(** ** String comparisons *)

Lemma is_empty_true (s : string) : is_empty s = true <-> s = "".
Proof. unfold is_empty. apply String.eqb_eq. Qed.

Lemma is_empty_false (s : string) : is_empty s = false <-> s <> "".
Proof. unfold is_empty. apply String.eqb_neq. Qed.

Ltac string_cases :=
  repeat match goal with
  | H : is_empty _ = true |- _ => apply is_empty_true in H
  | H : is_empty _ = false |- _ => apply is_empty_false in H
  | H : String.eqb _ _ = true |- _ => apply String.eqb_eq in H
  | H : String.eqb _ _ = false |- _ => apply String.eqb_neq in H
  end.

(** ** The adaptor's status mapping *)

Lemma lower_ascii_keeps_ascii (c : ascii) :
  (nat_of_ascii (VolcVideo.lower_ascii c) <? 128)%nat = (nat_of_ascii c <? 128)%nat.
Proof. destruct c as [[] [] [] [] [] [] [] []]; reflexivity. Qed.

Lemma lower_bytes_keeps_ascii (s : string) :
  VolcVideo.is_ascii (VolcVideo.lower_bytes s) = VolcVideo.is_ascii s.
Proof.
  induction s as [|c s IH]; simpl; [reflexivity|].
  now rewrite lower_ascii_keeps_ascii, IH.
Qed.

(** A spelling of an ASCII word in any letter case lower-cases to the word,
    whatever the Unicode tables hold. *)
Lemma ToLower_ignores_case (unicode_lower : string -> string) (s w : string) :
  VolcVideo.is_ascii w = true ->
  VolcVideo.lower_bytes s = w ->
  VolcVideo.ToLower unicode_lower s = w.
Proof.
  intros Hw Hs. subst w. rewrite lower_bytes_keeps_ascii in Hw.
  unfold VolcVideo.ToLower. now rewrite Hw.
Qed.

Lemma parse_fetch_running (unicode_lower : string -> string)
    (marshal : list (string * VolcVideo.JsonValue) -> option string)
    (fr : VolcVideo.fetchResponse) :
  VolcVideo.fr_ErrorCode fr = "" ->
  VolcVideo.lower_bytes (VolcVideo.fr_Status fr) = "running" ->
  ti_Status (VolcVideo.parse_fetch unicode_lower marshal fr) = TaskStatusInProgress /\
  ti_Progress (VolcVideo.parse_fetch unicode_lower marshal fr) = "60%".
Proof.
  intros Hc Hl. unfold VolcVideo.parse_fetch.
  apply is_empty_true in Hc. rewrite Hc.
  assert (Hs : is_empty (VolcVideo.fr_Status fr) = false).
  { apply is_empty_false. intros E. rewrite E in Hl. discriminate. }
  rewrite Hs. simpl.
  rewrite (ToLower_ignores_case unicode_lower _ "running" eq_refl Hl).
  simpl. auto.
Qed.

(** C3: [ParseTaskResult] on a decoded payload. A non-empty error
    code gives Failure, 100%, with reason "<code>: <message>", whatever the
    status field holds; else an empty status gives Unknown, 0%, with the
    format-mismatch reason; else the lower-cased status decides: queued gives
    Queued 20%, running gives InProgress 60%, succeeded gives Success 100%
    with the video URL and the marshalled metadata snapshot as reason, failed
    gives Failure 100% with the vendor message or the fallback reason, and
    anything else gives Unknown 0% whose reason is the code's own literal
    prefix (the bytes of [reason_unknown_status_prefix], not the English
    words "unrecognized status: ") followed by the status as received. Any
    letter case of the four ASCII words lower-cases to the word. *)
Theorem C3_parse_priority (unicode_lower : string -> string)
    (marshal : list (string * VolcVideo.JsonValue) -> option string)
    (fr : VolcVideo.fetchResponse) :
  let res := VolcVideo.parse_fetch unicode_lower marshal fr in
  let st := VolcVideo.ToLower unicode_lower (VolcVideo.fr_Status fr) in
  ti_TaskID res = VolcVideo.fr_ID fr /\
  (VolcVideo.fr_ErrorCode fr <> "" ->
     ti_Status res = TaskStatusFailure /\ ti_Progress res = "100%" /\
     ti_Reason res =
       VolcVideo.fr_ErrorCode fr +:+ ": " +:+ VolcVideo.fr_ErrorMessage fr) /\
  (VolcVideo.fr_ErrorCode fr = "" -> VolcVideo.fr_Status fr = "" ->
     ti_Status res = TaskStatusUnknown /\ ti_Progress res = "0%" /\
     ti_Reason res = VolcVideo.reason_unknown_format) /\
  (VolcVideo.fr_ErrorCode fr = "" -> VolcVideo.fr_Status fr <> "" ->
     (st = "queued" ->
        ti_Status res = TaskStatusQueued /\ ti_Progress res = "20%") /\
     (st = "running" ->
        ti_Status res = TaskStatusInProgress /\ ti_Progress res = "60%") /\
     (st = "succeeded" ->
        ti_Status res = TaskStatusSuccess /\ ti_Progress res = "100%" /\
        ti_Url res = VolcVideo.fr_VideoURL fr /\
        forall bytes, marshal (VolcVideo.successData fr) = Some bytes ->
                      ti_Reason res = bytes) /\
     (st = "failed" ->
        ti_Status res = TaskStatusFailure /\ ti_Progress res = "100%" /\
        ti_Reason res =
          if is_empty (VolcVideo.fr_ErrorMessage fr)
          then VolcVideo.reason_task_failed else VolcVideo.fr_ErrorMessage fr) /\
     (st <> "queued" -> st <> "running" -> st <> "succeeded" -> st <> "failed" ->
        ti_Status res = TaskStatusUnknown /\ ti_Progress res = "0%" /\
        ti_Reason res =
          VolcVideo.reason_unknown_status_prefix +:+ VolcVideo.fr_Status fr)) /\
  (forall s w, In w ["queued"; "running"; "succeeded"; "failed"] ->
     VolcVideo.lower_bytes s = w -> VolcVideo.ToLower unicode_lower s = w).
Proof.
  intros res st. subst res st. unfold VolcVideo.parse_fetch.
  split.
  { destruct (is_empty (VolcVideo.fr_ErrorCode fr)),
      (is_empty (VolcVideo.fr_Status fr)); simpl; try reflexivity.
    repeat match goal with |- context [String.eqb ?a ?b] => destruct (String.eqb a b) end;
      reflexivity. }
  split.
  { intros Hc. apply is_empty_false in Hc. rewrite Hc. simpl. auto. }
  split.
  { intros Hc Hs. apply is_empty_true in Hc. apply is_empty_true in Hs.
    rewrite Hc, Hs. simpl. auto. }
  split.
  { intros Hc Hs. apply is_empty_true in Hc. apply is_empty_false in Hs.
    rewrite Hc, Hs. simpl.
    split; [intros ->; simpl; auto|].
    split; [intros ->; simpl; auto|].
    split.
    { intros ->. simpl. repeat split. intros bytes Hm. now rewrite Hm. }
    split.
    { intros ->. simpl. repeat split.
      destruct (is_empty (VolcVideo.fr_ErrorMessage fr)); reflexivity. }
    intros H1 H2 H3 H4. apply String.eqb_neq in H1, H2, H3, H4.
    rewrite H1, H2, H3, H4. simpl. auto. }
  intros s w Hw Hs. apply ToLower_ignores_case; [|exact Hs].
  simpl in Hw. destruct Hw as [<-|[<-|[<-|[<-|[]]]]]; reflexivity.
Qed.

(** ** The status switch *)

Section Transition.
Variable cfg : Static.
Context {adaptor : TaskAdaptor}.

Lemma transition_success (e : Env) (task : Task) (taskResult : TaskInfo) :
  ti_Status taskResult = TaskStatusSuccess ->
  transition cfg e task taskResult = Some (on_success cfg e task taskResult).
Proof. intros H. unfold transition. rewrite H. reflexivity. Qed.

Lemma transition_failure (e : Env) (task : Task) (taskResult : TaskInfo) :
  ti_Status taskResult = TaskStatusFailure ->
  transition cfg e task taskResult = Some (on_failure e task taskResult).
Proof. intros H. unfold transition. rewrite H. reflexivity. Qed.

Lemma transition_in_progress (e : Env) (task : Task) (taskResult : TaskInfo) :
  ti_Status taskResult = TaskStatusInProgress ->
  transition cfg e task taskResult =
    Some (if StartTime task =? 0
          then set_StartTime (now e) (set_Progress "30%" task)
          else set_Progress "30%" task, []).
Proof. intros H. unfold transition. rewrite H. reflexivity. Qed.

Lemma transition_unhandled (e : Env) (task : Task) (taskResult : TaskInfo) :
  ~ In (ti_Status taskResult)
      [TaskStatusSubmitted; TaskStatusQueued; TaskStatusInProgress;
       TaskStatusSuccess; TaskStatusFailure] ->
  transition cfg e task taskResult = None.
Proof.
  intros H. unfold transition.
  repeat match goal with
  | |- context [String.eqb ?a ?b] =>
      destruct (String.eqb a b) eqn:?; string_cases;
      [exfalso; apply H; simpl; auto 10|]
  end.
  reflexivity.
Qed.

(** The shape of [apply_result] once the status is not empty. *)
Lemma apply_result_unfold (e : Env) (taskId : string) (task : Task)
    (taskResult : TaskInfo) (st : gmap string Task) :
  ti_Status taskResult <> "" ->
  apply_result cfg e taskId task taskResult st =
    match transition cfg e (set_Status (ti_Status taskResult) task) taskResult with
    | Some (task1, evs) =>
        let '(task2, st', evs') := persist e task1 taskResult st in
        (task2, st', (evs ++ evs')%list, None)
    | None =>
        (set_Status (ti_Status taskResult) task, st, [],
         Some (ErrUnknownStatus (ti_Status taskResult) taskId))
    end.
Proof.
  intros H. apply is_empty_false in H. unfold apply_result. now rewrite H.
Qed.

Lemma modelName_same (t t' : Task) (taskResult : TaskInfo) :
  same_billing t t' -> modelName cfg t taskResult = modelName cfg t' taskResult.
Proof.
  intros (Hm & Hd & _). unfold modelName, modelName_of. now rewrite Hm, Hd.
Qed.

Lemma actualQuota_same (e e' : Env) (t t' : Task) (taskResult : TaskInfo) :
  same_billing t t' -> same_rates e e' ->
  actualQuota cfg e' t' taskResult = actualQuota cfg e t taskResult.
Proof.
  intros Hb (Hm & Hc & Hg). pose proof Hb as (_ & _ & Hgr).
  unfold actualQuota, modelRatio, completionRatio, groupRatio.
  rewrite <- (modelName_same _ _ taskResult Hb), Hgr.
  now rewrite Hm, Hc, Hg.
Qed.

Lemma actualQuota_range (e : Env) (t : Task) (taskResult : TaskInfo) :
  Int64.in_range (actualQuota cfg e t taskResult).
Proof.
  unfold actualQuota.
  match goal with |- context [if ?b then _ else _] => destruct b end.
  - unfold Int64.in_range, Int64.min_int, Int64.max_int. lia.
  - apply to_int_range.
Qed.

(** *** Settlement *)

Lemma set_Quota_same (t : Task) : set_Quota (Quota t) t = t.
Proof. now destruct t. Qed.

Lemma success_prep_billing (e : Env) (task : Task) (taskResult : TaskInfo) :
  same_billing task (success_prep e task taskResult).
Proof.
  unfold success_prep, same_billing. simpl.
  destruct (FinishTime task =? 0); simpl; auto.
Qed.

Lemma status_billing (s : TaskStatus) (task : Task) :
  same_billing task (set_Status s task).
Proof. unfold same_billing. simpl. auto. Qed.

Lemma same_billing_trans (a b c : Task) :
  same_billing a b -> same_billing b c -> same_billing a c.
Proof. unfold same_billing. intuition congruence. Qed.

Lemma same_rates_refl (e : Env) : same_rates e e.
Proof. unfold same_rates. auto. Qed.

Lemma success_prep_quota (e : Env) (task : Task) (taskResult : TaskInfo) :
  Quota (success_prep e task taskResult) = Quota task.
Proof. unfold success_prep. simpl. destruct (FinishTime task =? 0); reflexivity. Qed.

Lemma success_prep_user (e : Env) (task : Task) (taskResult : TaskInfo) :
  UserId (success_prep e task taskResult) = UserId task.
Proof. unfold success_prep. simpl. destruct (FinishTime task =? 0); reflexivity. Qed.

Lemma on_success_settles (e : Env) (task : Task) (taskResult : TaskInfo) :
  0 < ti_TotalTokens taskResult ->
  on_success cfg e task taskResult =
    settle cfg e (success_prep e task taskResult) taskResult.
Proof.
  intros H. apply Z.ltb_lt in H. unfold on_success. fold (success_prep e task taskResult).
  now rewrite H.
Qed.

(** After a settlement the stored quota is the actual quota, whatever the
    ledger answered. *)
Lemma settle_quota (e : Env) (task : Task) (taskResult : TaskInfo) :
  Int64.in_range (Quota task) ->
  fst (settle cfg e task taskResult) =
    set_Quota (actualQuota cfg e task taskResult) task.
Proof.
  intros Hq. unfold settle.
  destruct (quotaDelta cfg e task taskResult =? 0) eqn:Hd; simpl; [|reflexivity].
  apply Z.eqb_eq in Hd. unfold quotaDelta in Hd.
  apply sub_zero_eq in Hd; [|apply actualQuota_range|exact Hq].
  rewrite Hd. symmetry. apply set_Quota_same.
Qed.

Lemma ledger_filter_app (a b : list Event) :
  List.filter is_ledger_event (a ++ b) =
    (List.filter is_ledger_event a ++ List.filter is_ledger_event b)%list.
Proof. apply List.filter_app. Qed.

Lemma charged_app (u : Z) (a b : list Event) :
  charged u (a ++ b) = charged u a + charged u b.
Proof.
  induction a as [|ev a IH]; simpl; [reflexivity|].
  destruct ev; simpl; try exact IH; destruct ok; simpl; rewrite ?IH; lia.
Qed.

Lemma settle_events (e : Env) (task : Task) (taskResult : TaskInfo) :
  let delta := quotaDelta cfg e task taskResult in
  let u := UserId task in
  let evs := snd (settle cfg e task taskResult) in
  (delta = 0 -> List.filter is_ledger_event evs = [] /\ charged u evs = 0) /\
  (0 < delta -> DecreaseUserQuota e u delta = true ->
     List.filter is_ledger_event evs =
       [EvDecreaseUserQuota u delta true;
        EvRecordConsumeLog u (supplement_log cfg e task taskResult);
        EvUpdateUserUsedQuotaAndRequestCount u delta;
        EvUpdateChannelUsedQuota (ChannelId task) delta] /\
     charged u evs = delta) /\
  (0 < delta -> DecreaseUserQuota e u delta = false ->
     List.filter is_ledger_event evs = [EvDecreaseUserQuota u delta false] /\
     charged u evs = 0).
Proof.
  intros delta u evs. subst evs. unfold settle. fold delta. fold u.
  set (evs_name := if is_empty (modelName_of cfg task taskResult) then _ else _).
  assert (Hn : List.filter is_ledger_event evs_name = [] /\ charged u evs_name = 0).
  { subst evs_name. destruct (is_empty _); simpl; auto. }
  destruct Hn as [Hn1 Hn2].
  assert (Hpos : 0 < delta -> (delta =? 0) = false /\ (0 <? delta) = true).
  { intros Hd. split; [apply Z.eqb_neq|apply Z.ltb_lt]; lia. }
  split; [|split].
  - intros Hd. apply Z.eqb_eq in Hd. rewrite Hd. simpl.
    rewrite ledger_filter_app, charged_app, Hn1, Hn2. auto.
  - intros Hd Hok. destruct (Hpos Hd) as [E1 E2]. rewrite E1, E2, Hok. simpl.
    rewrite ledger_filter_app, charged_app, Hn1, Hn2. simpl.
    rewrite Z.eqb_refl. split; [reflexivity|lia].
  - intros Hd Hok. destruct (Hpos Hd) as [E1 E2]. rewrite E1, E2, Hok. simpl.
    rewrite ledger_filter_app, charged_app, Hn1, Hn2. auto.
Qed.

(** *** The store write *)

Lemma persist_task (e : Env) (task : Task) (taskResult : TaskInfo) (st : gmap string Task) :
  let '(task', _, _) := persist e task taskResult st in
  task' = if is_empty (ti_Progress taskResult) then task
          else set_Progress (ti_Progress taskResult) task.
Proof. unfold persist. destruct (is_empty (ti_Progress taskResult)); reflexivity. Qed.

Lemma persist_events (e : Env) (task : Task) (taskResult : TaskInfo)
    (st : gmap string Task) (u : Z) :
  let '(_, _, evs) := persist e task taskResult st in
  List.filter is_ledger_event evs = [] /\ charged u evs = 0.
Proof. unfold persist. destruct (Update e _); simpl; auto. Qed.

(** A Success result that reports usage: the record and the calls. *)
Lemma apply_result_success (e : Env) (taskId : string) (task : Task)
    (taskResult : TaskInfo) (st : gmap string Task) :
  ti_Status taskResult = TaskStatusSuccess ->
  0 < ti_TotalTokens taskResult ->
  let prep := success_prep e (set_Status TaskStatusSuccess task) taskResult in
  let r := apply_result cfg e taskId task taskResult st in
  out_err r = None /\
  (Int64.in_range (Quota task) ->
   Quota (out_task r) = actualQuota cfg e task taskResult) /\
  same_billing task (out_task r) /\
  UserId (out_task r) = UserId task /\
  TaskID (out_task r) = TaskID task /\
  out_store r = task_Update (Update e (out_task r)) (out_task r) st /\
  List.filter is_ledger_event (out_events r) =
    List.filter is_ledger_event (snd (settle cfg e prep taskResult)) /\
  (forall u, charged u (out_events r) = charged u (snd (settle cfg e prep taskResult))).
Proof.
  intros Hs Ht prep r. subst r.
  rewrite apply_result_unfold by (rewrite Hs; discriminate).
  rewrite transition_success by exact Hs.
  rewrite Hs, on_success_settles by exact Ht. fold prep.
  pose proof (settle_quota e prep taskResult) as Hq.
  assert (Hb : same_billing task prep).
  { eapply same_billing_trans; [apply status_billing|apply success_prep_billing]. }
  assert (Hqp : Quota prep = Quota task).
  { unfold prep. now rewrite success_prep_quota. }
  assert (Hup : UserId prep = UserId task).
  { unfold prep. now rewrite success_prep_user. }
  destruct (settle cfg e prep taskResult) as [task1 evs] eqn:Hset. simpl in Hq.
  pose proof (persist_task e task1 taskResult st) as Hp.
  pose proof (persist_events e task1 taskResult st) as He.
  destruct (persist e task1 taskResult st) as [[task2 st'] evs'] eqn:Hper.
  simpl.
  assert (Hfr : task1 = prep \/ task1 = set_Quota (actualQuota cfg e prep taskResult) prep).
  { unfold settle in Hset.
    destruct (negb (quotaDelta cfg e prep taskResult =? 0)); inversion Hset; auto. }
  assert (Hb1 : same_billing task task1).
  { destruct Hfr as [->| ->]; [exact Hb|].
    eapply same_billing_trans; [exact Hb|]. unfold same_billing; simpl; auto. }
  assert (Hu1 : UserId task1 = UserId task).
  { destruct Hfr as [->| ->]; [exact Hup|]. simpl. exact Hup. }
  assert (Hid : TaskID task1 = TaskID task).
  { assert (TaskID prep = TaskID task).
    { unfold prep, success_prep. simpl. now destruct (FinishTime task =? 0). }
    destruct Hfr as [->| ->]; simpl; auto. }
  assert (Hst : st' = task_Update (Update e task2) task2 st).
  { unfold persist in Hper. inversion Hper. reflexivity. }
  repeat split.
  - intros Hr. rewrite Hp. rewrite <- Hqp in Hr. specialize (Hq Hr).
    rewrite (actualQuota_same e e task prep taskResult Hb (same_rates_refl e)) in Hq.
    destruct (is_empty (ti_Progress taskResult)); rewrite Hq; reflexivity.
  - rewrite Hp. destruct Hb1 as (? & ? & ?).
    destruct (is_empty (ti_Progress taskResult)); simpl; auto.
  - rewrite Hp. destruct Hb1 as (? & ? & ?).
    destruct (is_empty (ti_Progress taskResult)); simpl; auto.
  - rewrite Hp. destruct Hb1 as (? & ? & ?).
    destruct (is_empty (ti_Progress taskResult)); simpl; auto.
  - rewrite Hp. destruct (is_empty (ti_Progress taskResult)); simpl; auto.
  - rewrite Hp. destruct (is_empty (ti_Progress taskResult)); simpl; auto.
  - exact Hst.
  - rewrite ledger_filter_app. destruct (He 0) as [-> _]. apply app_nil_r.
  - intros u. rewrite charged_app. destruct (He u) as [_ ->]. lia.
Qed.

Lemma quotaDelta_same (e e' : Env) (t t' : Task) (taskResult : TaskInfo) :
  same_billing t t' -> same_rates e e' -> Quota t' = Quota t ->
  quotaDelta cfg e' t' taskResult = quotaDelta cfg e t taskResult.
Proof.
  intros Hb Hr Hq. unfold quotaDelta.
  now rewrite (actualQuota_same e e' t t' taskResult Hb Hr), Hq.
Qed.

Lemma supplement_log_fields (e : Env) (task : Task) (taskResult : TaskInfo) :
  let log := supplement_log cfg e task taskResult in
  cl_Quota log = quotaDelta cfg e task taskResult /\
  cl_CompletionTokens log = ti_TotalTokens taskResult /\
  cl_PromptTokens log = 0 /\
  In ("adjustment_type", OString "supplement") (cl_Other log).
Proof. unfold supplement_log. simpl. auto 10. Qed.

Lemma charged_no_ledger (u : Z) (evs : list Event) :
  List.filter is_ledger_event evs = [] -> charged u evs = 0.
Proof.
  induction evs as [|ev evs IH]; simpl; [reflexivity|].
  destruct ev; simpl; try discriminate; exact IH.
Qed.

Lemma neutral_neutral (r : float) : neutral (neutral r) = neutral r.
Proof.
  unfold neutral. destruct (PrimFloat.eqb r 0) eqn:E; [reflexivity|].
  now rewrite E.
Qed.

(** C1: on a Success result with usage, the actual quota is the
    integer part of the float64 product tokens * completionRate * modelRate *
    groupRate (the fraction is cut off, not rounded), replaced by 1 when it
    is not positive while the model rate is positive; the stored quota
    becomes the actual quota; delta is actual minus reserved; and for a
    positive delta whose debit succeeds the user is charged exactly delta
    through one debit, one consumption entry tagged "supplement" for delta
    and the usage tokens, and the two usage counters. *)
Theorem C1_settlement_truncates (e : Env) (taskId : string) (task : Task)
    (taskResult : TaskInfo) (st : gmap string Task) :
  ti_Status taskResult = TaskStatusSuccess ->
  0 < ti_TotalTokens taskResult ->
  Int64.in_range (Quota task) ->
  let r := apply_result cfg e taskId task taskResult st in
  let a := actualQuota cfg e task taskResult in
  let delta := quotaDelta cfg e task taskResult in
  let u := UserId task in
  (forall z,
     Float64.integer_part (usage_product cfg e task taskResult) = Some z ->
     Int64.in_range z ->
     a = if (z <=? 0) && PrimFloat.ltb 0 (modelRatio e (modelName cfg task taskResult))
         then 1 else z) /\
  Quota (out_task r) = a /\
  (Int64.in_range (a - Quota task) -> delta = a - Quota task) /\
  (0 < delta -> DecreaseUserQuota e u delta = true ->
     charged u (out_events r) = delta /\
     exists log,
       List.filter is_ledger_event (out_events r) =
         [EvDecreaseUserQuota u delta true;
          EvRecordConsumeLog u log;
          EvUpdateUserUsedQuotaAndRequestCount u delta;
          EvUpdateChannelUsedQuota (ChannelId task) delta] /\
       cl_Quota log = delta /\
       cl_CompletionTokens log = ti_TotalTokens taskResult /\
       In ("adjustment_type", OString "supplement") (cl_Other log)).
Proof.
  intros Hs Ht Hq r a delta u.
  destruct (apply_result_success e taskId task taskResult st Hs Ht)
    as (_ & HQ & _ & _ & _ & _ & Hf & Hc).
  fold r in HQ, Hf, Hc.
  split; [|split; [|split]].
  - intros z Hz Hr. subst a. unfold actualQuota, Float64.to_int.
    fold (usage_product cfg e task taskResult). rewrite Hz.
    apply in_rangeb_spec in Hr. now rewrite Hr.
  - apply HQ, Hq.
  - intros Hr. subst delta. unfold quotaDelta, Int64.sub. now apply wrap64_id.
  - intros Hd Hok.
    set (prep := success_prep e (set_Status TaskStatusSuccess task) taskResult) in *.
    assert (Hb : same_billing task prep).
    { eapply same_billing_trans; [apply status_billing|apply success_prep_billing]. }
    assert (Hqp : Quota prep = Quota task).
    { unfold prep. now rewrite success_prep_quota. }
    assert (Hup : UserId prep = u).
    { unfold prep. now rewrite success_prep_user. }
    assert (Hcp : ChannelId prep = ChannelId task).
    { unfold prep, success_prep. simpl. now destruct (FinishTime task =? 0). }
    assert (Hdp : quotaDelta cfg e prep taskResult = delta).
    { apply quotaDelta_same; [exact Hb|apply same_rates_refl|exact Hqp]. }
    destruct (settle_events e prep taskResult) as (_ & Hpos & _).
    rewrite Hdp, Hup, Hcp in Hpos. destruct (Hpos Hd Hok) as [Hl Hch].
    split; [now rewrite Hc|].
    exists (supplement_log cfg e prep taskResult).
    destruct (supplement_log_fields e prep taskResult) as (L1 & L2 & _ & L4).
    rewrite Hf, Hl, L1, Hdp. auto.
Qed.

(** A second run on the settled record, under the same rate tables, finds
    nothing to settle. *)
Lemma second_run_quiet (e1 e2 : Env) (taskId : string) (task : Task)
    (taskResult : TaskInfo) (st : gmap string Task) :
  ti_Status taskResult = TaskStatusSuccess ->
  0 < ti_TotalTokens taskResult ->
  Int64.in_range (Quota task) ->
  same_rates e1 e2 ->
  let r1 := apply_result cfg e1 taskId task taskResult st in
  let r2 := apply_result cfg e2 taskId (out_task r1) taskResult (out_store r1) in
  Quota (out_task r1) = actualQuota cfg e1 task taskResult /\
  quotaDelta cfg e2 (out_task r1) taskResult = 0 /\
  List.filter is_ledger_event (out_events r2) = [] /\
  (forall u, charged u (out_events r2) = 0) /\
  Quota (out_task r2) = Quota (out_task r1).
Proof.
  intros Hs Ht Hq Hr r1 r2.
  destruct (apply_result_success e1 taskId task taskResult st Hs Ht)
    as (_ & HQ1 & Hb1 & _ & _ & _ & _ & _).
  fold r1 in HQ1, Hb1. specialize (HQ1 Hq).
  assert (Hq1 : Int64.in_range (Quota (out_task r1))).
  { rewrite HQ1. apply actualQuota_range. }
  assert (Ha : actualQuota cfg e2 (out_task r1) taskResult = Quota (out_task r1)).
  { rewrite HQ1. now apply actualQuota_same. }
  assert (Hd : quotaDelta cfg e2 (out_task r1) taskResult = 0).
  { unfold quotaDelta. rewrite Ha. apply sub_diag. }
  destruct (apply_result_success e2 taskId (out_task r1) taskResult (out_store r1) Hs Ht)
    as (_ & HQ2 & _ & _ & _ & _ & Hf & Hc).
  fold r2 in HQ2, Hf, Hc.
  set (prep := success_prep e2 (set_Status TaskStatusSuccess (out_task r1)) taskResult) in *.
  assert (Hdp : quotaDelta cfg e2 prep taskResult = 0).
  { rewrite <- Hd. apply quotaDelta_same.
    - eapply same_billing_trans; [apply status_billing|apply success_prep_billing].
    - apply same_rates_refl.
    - unfold prep. now rewrite success_prep_quota. }
  destruct (settle_events e2 prep taskResult) as (Hz & _ & _).
  destruct (Hz Hdp) as [Hl _].
  split; [exact HQ1|]. split; [exact Hd|].
  split; [now rewrite Hf|].
  split.
  - intros u. apply charged_no_ledger. now rewrite Hf.
  - rewrite (HQ2 Hq1). exact Ha.
Qed.

(** C5: a settlement leaves the stored quota equal to the actual quota, so a
    second run on the resulting record with the same usage and the same rate
    tables computes a zero delta, makes no ledger call (no debit, no credit,
    no consumption or system entry) and leaves the quota as it is. *)
Theorem C5_settlement_idempotent (e1 e2 : Env) (taskId : string) (task : Task)
    (taskResult : TaskInfo) (st : gmap string Task) :
  ti_Status taskResult = TaskStatusSuccess ->
  0 < ti_TotalTokens taskResult ->
  Int64.in_range (Quota task) ->
  same_rates e1 e2 ->
  let r1 := apply_result cfg e1 taskId task taskResult st in
  let r2 := apply_result cfg e2 taskId (out_task r1) taskResult (out_store r1) in
  Quota (out_task r1) = actualQuota cfg e1 task taskResult /\
  quotaDelta cfg e2 (out_task r1) taskResult = 0 /\
  List.filter is_ledger_event (out_events r2) = [] /\
  (forall u, charged u (out_events r2) = 0) /\
  Quota (out_task r2) = Quota (out_task r1).
Proof.
  intros Hs Ht Hq Hr. now apply second_run_quiet.
Qed.

(** C10: in a supplement settlement (positive delta) whose debit fails,
    nothing is charged and no consumption entry is written, yet the stored
    quota is rewritten to the actual quota and persisted when the store write
    succeeds; a later run with the same usage and rate tables then computes a
    zero delta and makes no ledger call, so the shortfall is not collected. *)
Theorem C10_failed_debit_still_rewrites_quota (e1 e2 : Env) (taskId : string)
    (task : Task) (taskResult : TaskInfo) (st : gmap string Task) :
  ti_Status taskResult = TaskStatusSuccess ->
  0 < ti_TotalTokens taskResult ->
  Int64.in_range (Quota task) ->
  0 < quotaDelta cfg e1 task taskResult ->
  DecreaseUserQuota e1 (UserId task) (quotaDelta cfg e1 task taskResult) = false ->
  same_rates e1 e2 ->
  let r1 := apply_result cfg e1 taskId task taskResult st in
  let r2 := apply_result cfg e2 taskId (out_task r1) taskResult (out_store r1) in
  Quota (out_task r1) = actualQuota cfg e1 task taskResult /\
  Quota (out_task r1) <> Quota task /\
  List.filter is_ledger_event (out_events r1) =
    [EvDecreaseUserQuota (UserId task) (quotaDelta cfg e1 task taskResult) false] /\
  charged (UserId task) (out_events r1) = 0 /\
  (Update e1 (out_task r1) = true ->
   out_store r1 !! TaskID task = Some (out_task r1)) /\
  quotaDelta cfg e2 (out_task r1) taskResult = 0 /\
  List.filter is_ledger_event (out_events r2) = [] /\
  charged (UserId task) (out_events r2) = 0.
Proof.
  intros Hs Ht Hq Hd Hfail Hr r1 r2.
  destruct (second_run_quiet e1 e2 taskId task taskResult st Hs Ht Hq Hr)
    as (HQ & Hz & Hl & Hc & _).
  fold r1 in HQ, Hz, Hl, Hc. fold r2 in Hl, Hc.
  destruct (apply_result_success e1 taskId task taskResult st Hs Ht)
    as (_ & _ & _ & _ & Hid & Hst & Hf & Hch).
  fold r1 in Hid, Hst, Hf, Hch.
  set (prep := success_prep e1 (set_Status TaskStatusSuccess task) taskResult) in *.
  assert (Hdp : quotaDelta cfg e1 prep taskResult = quotaDelta cfg e1 task taskResult).
  { apply quotaDelta_same.
    - eapply same_billing_trans; [apply status_billing|apply success_prep_billing].
    - apply same_rates_refl.
    - unfold prep. now rewrite success_prep_quota. }
  assert (Hup : UserId prep = UserId task).
  { unfold prep. now rewrite success_prep_user. }
  destruct (settle_events e1 prep taskResult) as (_ & _ & Hneg).
  rewrite Hdp, Hup in Hneg. destruct (Hneg Hd Hfail) as [Hl1 Hc1].
  split; [exact HQ|]. split.
  { rewrite HQ. intros Heq. unfold quotaDelta in Hd. rewrite Heq, sub_diag in Hd. lia. }
  split; [now rewrite Hf|]. split; [now rewrite Hch|]. split.
  { intros Hu. rewrite Hst, Hu. unfold task_Update. rewrite Hid.
    apply lookup_insert_eq. }
  split; [exact Hz|]. split; [exact Hl|apply Hc].
Qed.

(** C2: a model rate or completion rate that resolves to zero
    is read as 1.0, so replacing such a lookup by 1.0 leaves the actual quota
    unchanged; the group rate is multiplied in as looked up (under the name
    "default" when the task has no group), zero included. *)
Theorem C2_zero_model_and_completion_rates_neutral (e e' : Env) (task : Task)
    (taskResult : TaskInfo) :
  (forall n, GetModelRatio e' n = neutral (GetModelRatio e n)) ->
  (forall n, GetCompletionRatio e' n = neutral (GetCompletionRatio e n)) ->
  (forall g, GetGroupRatio e' g = GetGroupRatio e g) ->
  let name := modelName cfg task taskResult in
  modelRatio e name = neutral (GetModelRatio e name) /\
  completionRatio e name = neutral (GetCompletionRatio e name) /\
  groupRatio e task =
    GetGroupRatio e (if is_empty (Group task) then "default" else Group task) /\
  actualQuota cfg e' task taskResult = actualQuota cfg e task taskResult.
Proof.
  intros Hm Hc Hg name.
  split; [reflexivity|]. split; [reflexivity|]. split; [reflexivity|].
  unfold actualQuota. fold name.
  assert (Em : modelRatio e' name = modelRatio e name).
  { unfold modelRatio. rewrite Hm. apply neutral_neutral. }
  assert (Ec : completionRatio e' name = completionRatio e name).
  { unfold completionRatio. rewrite Hc. apply neutral_neutral. }
  assert (Eg : groupRatio e' task = groupRatio e task).
  { unfold groupRatio. apply Hg. }
  now rewrite Em, Ec, Eg.
Qed.

(** *** The shape of a pass that returns no error *)

Lemma apply_result_shape (e : Env) (taskId : string) (task : Task)
    (taskResult : TaskInfo) (st : gmap string Task) :
  out_err (apply_result cfg e taskId task taskResult st) = None ->
  exists task1 evs,
    ti_Status taskResult <> "" /\
    transition cfg e (set_Status (ti_Status taskResult) task) taskResult
      = Some (task1, evs) /\
    let task2 :=
      if is_empty (ti_Progress taskResult) then task1
      else set_Progress (ti_Progress taskResult) task1 in
    apply_result cfg e taskId task taskResult st =
      (task2, task_Update (Update e task2) task2 st,
       (evs ++ EvTaskUpdate task2 (Update e task2)
            :: (if Update e task2 then [] else [EvSysLog MsgUpdateError]))%list,
       None).
Proof.
  unfold apply_result.
  destruct (is_empty (ti_Status taskResult)) eqn:E; [discriminate|].
  apply is_empty_false in E.
  destruct (transition cfg e _ taskResult) as [[task1 evs]|] eqn:T; [|discriminate].
  intros _. exists task1, evs. split; [exact E|]. split; [reflexivity|].
  unfold persist. destruct (is_empty (ti_Progress taskResult)); reflexivity.
Qed.

Lemma settle_frame (e : Env) (task : Task) (taskResult : TaskInfo) :
  exists q, fst (settle cfg e task taskResult) = set_Quota q task.
Proof.
  unfold settle.
  destruct (negb (quotaDelta cfg e task taskResult =? 0)); simpl.
  - eexists. reflexivity.
  - exists (Quota task). symmetry. apply set_Quota_same.
Qed.

Lemma on_success_frame (e : Env) (task : Task) (taskResult : TaskInfo) :
  exists q,
    fst (on_success cfg e task taskResult) =
      set_Quota q (success_prep e task taskResult).
Proof.
  unfold on_success. fold (success_prep e task taskResult).
  destruct (0 <? ti_TotalTokens taskResult).
  - apply settle_frame.
  - exists (Quota (success_prep e task taskResult)). symmetry. apply set_Quota_same.
Qed.

Lemma settle_no_update (e : Env) (task : Task) (taskResult : TaskInfo) :
  List.filter is_task_update (snd (settle cfg e task taskResult)) = [].
Proof.
  unfold settle.
  repeat match goal with
  | |- context [if ?b then _ else _] => destruct b
  end; reflexivity.
Qed.

Lemma on_success_no_update (e : Env) (task : Task) (taskResult : TaskInfo) :
  List.filter is_task_update (snd (on_success cfg e task taskResult)) = [].
Proof.
  unfold on_success. destruct (0 <? ti_TotalTokens taskResult); [|reflexivity].
  apply settle_no_update.
Qed.

Lemma on_failure_no_update (e : Env) (task : Task) (taskResult : TaskInfo) :
  List.filter is_task_update (snd (on_failure e task taskResult)) = [].
Proof.
  unfold on_failure. simpl.
  repeat match goal with
  | |- context [if ?b then _ else _] => destruct b
  end; reflexivity.
Qed.

Lemma transition_no_update (e : Env) (task task1 : Task) (taskResult : TaskInfo)
    (evs : list Event) :
  transition cfg e task taskResult = Some (task1, evs) ->
  List.filter is_task_update evs = [].
Proof.
  unfold transition.
  repeat match goal with
  | |- context [String.eqb ?a ?b] => destruct (String.eqb a b)
  end; intros H; inversion H as [H']; subst; try reflexivity.
  - change evs with (snd (task1, evs)). rewrite <- H'. apply on_success_no_update.
  - apply on_failure_no_update.
Qed.

(** The record and the timestamps after a pass that returns no error. *)
Lemma apply_result_times (e : Env) (taskId : string) (task : Task)
    (taskResult : TaskInfo) (st : gmap string Task) :
  let r := apply_result cfg e taskId task taskResult st in
  out_err r = None ->
  Status (out_task r) = ti_Status taskResult /\
  TaskID (out_task r) = TaskID task /\
  FinishTime (out_task r) =
    (if is_terminal (ti_Status taskResult) && (FinishTime task =? 0)
     then now e else FinishTime task) /\
  StartTime (out_task r) =
    (if String.eqb (ti_Status taskResult) TaskStatusInProgress && (StartTime task =? 0)
     then now e else StartTime task).
Proof.
  intros r Hr. subst r.
  destruct (apply_result_shape e taskId task taskResult st Hr)
    as (task1 & evs & Hne & Ht & Heq).
  rewrite Heq. simpl. clear Heq Hr.
  assert (H1 : Status task1 = ti_Status taskResult /\
               TaskID task1 = TaskID task /\
               FinishTime task1 =
                 (if is_terminal (ti_Status taskResult) && (FinishTime task =? 0)
                  then now e else FinishTime task) /\
               StartTime task1 =
                 (if String.eqb (ti_Status taskResult) TaskStatusInProgress
                     && (StartTime task =? 0)
                  then now e else StartTime task)).
  { unfold transition in Ht. unfold is_terminal.
    destruct (String.eqb (ti_Status taskResult) TaskStatusSubmitted) eqn:E1.
    { string_cases. inversion Ht; subst. rewrite E1. simpl. auto. }
    destruct (String.eqb (ti_Status taskResult) TaskStatusQueued) eqn:E2.
    { string_cases. inversion Ht; subst. rewrite E2. simpl. auto. }
    destruct (String.eqb (ti_Status taskResult) TaskStatusInProgress) eqn:E3.
    { inversion Ht; subst. apply String.eqb_eq in E3. rewrite E3. simpl.
      destruct (StartTime task =? 0); simpl; auto. }
    destruct (String.eqb (ti_Status taskResult) TaskStatusSuccess) eqn:E4.
    { inversion Ht as [Hs]. clear Ht.
      destruct (on_success_frame e (set_Status (ti_Status taskResult) task) taskResult)
        as [q Hq].
      rewrite Hs in Hq. simpl in Hq. subst task1.
      unfold success_prep. simpl.
      destruct (FinishTime task =? 0); simpl; auto. }
    destruct (String.eqb (ti_Status taskResult) TaskStatusFailure) eqn:E5; [|discriminate].
    inversion Ht; subst. apply String.eqb_eq in E5. rewrite E5. simpl.
    destruct (FinishTime task =? 0); simpl; auto. }
  destruct (is_empty (ti_Progress taskResult)); simpl; exact H1.
Qed.

(** C4: on a Failure result the record gets status FAILURE,
    progress 100% (or the result's own progress string when it has one), the
    finish time if it was unset, and the result's reason as fail reason; its
    quota is left as it is. When that quota is not zero the user is credited
    exactly that quota by one call and one system log entry is written (also
    when the credit call fails); when it is zero there is neither a credit nor
    a log entry. *)
Theorem C4_failure_refunds_current_quota (e : Env) (taskId : string) (task : Task)
    (taskResult : TaskInfo) (st : gmap string Task) :
  ti_Status taskResult = TaskStatusFailure ->
  let r := apply_result cfg e taskId task taskResult st in
  let u := UserId task in
  let q := Quota task in
  out_err r = None /\
  Status (out_task r) = TaskStatusFailure /\
  Progress (out_task r) =
    (if is_empty (ti_Progress taskResult) then "100%" else ti_Progress taskResult) /\
  FinishTime (out_task r) =
    (if FinishTime task =? 0 then now e else FinishTime task) /\
  FailReason (out_task r) = ti_Reason taskResult /\
  Quota (out_task r) = q /\
  (q <> 0 ->
     List.filter is_ledger_event (out_events r) =
       [EvIncreaseUserQuota u q (IncreaseUserQuota e u q);
        EvRecordLog u LogTypeSystem (ContentFailRefund (TaskID task) q)] /\
     (IncreaseUserQuota e u q = true -> charged u (out_events r) = - q)) /\
  (q = 0 -> List.filter is_ledger_event (out_events r) = []).
Proof.
  intros Hs r u q. subst r.
  rewrite apply_result_unfold by (rewrite Hs; discriminate).
  rewrite transition_failure by exact Hs.
  unfold on_failure, persist. simpl. fold u. fold q.
  repeat split.
  - destruct (is_empty (ti_Progress taskResult)); simpl;
      destruct (FinishTime task =? 0); reflexivity.
  - destruct (is_empty (ti_Progress taskResult)); simpl;
      destruct (FinishTime task =? 0); reflexivity.
  - destruct (is_empty (ti_Progress taskResult)); simpl;
      destruct (FinishTime task =? 0); reflexivity.
  - destruct (is_empty (ti_Progress taskResult)); simpl;
      destruct (FinishTime task =? 0); reflexivity.
  - destruct (is_empty (ti_Progress taskResult)); simpl;
      destruct (FinishTime task =? 0); reflexivity.
  - destruct (FinishTime task =? 0); simpl; fold u; fold q;
      (assert (Hq : (q =? 0) = false) by (apply Z.eqb_neq; assumption));
      rewrite Hq; simpl;
      destruct (IncreaseUserQuota e u q); simpl;
      match goal with |- context [Update e ?t] => destruct (Update e t) end;
      reflexivity.
  - intros Hok.
    destruct (FinishTime task =? 0); simpl; fold u; fold q;
      (assert (Hq : (q =? 0) = false) by (apply Z.eqb_neq; assumption));
      rewrite Hq, Hok; simpl; rewrite Z.eqb_refl;
      match goal with |- context [Update e ?t] => destruct (Update e t) end;
      simpl; lia.
  - intros Hq.
    destruct (FinishTime task =? 0); simpl; fold q; rewrite Hq; simpl;
      match goal with |- context [Update e ?t] => destruct (Update e t) end;
      reflexivity.
Qed.

Lemma explicit_progress_persisted (e : Env) (taskId : string) (task : Task)
    (taskResult : TaskInfo) (st : gmap string Task) :
  let r := apply_result cfg e taskId task taskResult st in
  out_err r = None ->
  ti_Progress taskResult <> "" ->
  Progress (out_task r) = ti_Progress taskResult /\
  In (EvTaskUpdate (out_task r) (Update e (out_task r))) (out_events r) /\
  (Update e (out_task r) = true ->
   out_store r !! TaskID task = Some (out_task r)).
Proof.
  intros r Hr Hp. subst r.
  destruct (apply_result_times e taskId task taskResult st Hr) as (_ & Hid & _).
  destruct (apply_result_shape e taskId task taskResult st Hr)
    as (task1 & evs & _ & _ & Heq).
  rewrite Heq in Hid |- *. simpl in Hid |- *.
  apply is_empty_false in Hp. rewrite Hp in Hid |- *. simpl.
  split; [reflexivity|]. split.
  - apply in_or_app. right. left. reflexivity.
  - intros Hu. rewrite Hu. unfold task_Update. rewrite <- Hid.
    apply lookup_insert_eq.
Qed.

Lemma running_result_persisted (e : Env) (taskId : string) (task : Task)
    (st : gmap string Task) (unicode_lower : string -> string)
    (marshal : list (string * VolcVideo.JsonValue) -> option string)
    (fr : VolcVideo.fetchResponse) :
  VolcVideo.fr_ErrorCode fr = "" ->
  VolcVideo.lower_bytes (VolcVideo.fr_Status fr) = "running" ->
  let taskResult := VolcVideo.parse_fetch unicode_lower marshal fr in
  let r := apply_result cfg e taskId task taskResult st in
  ti_Status taskResult = TaskStatusInProgress /\
  ti_Progress taskResult = "60%" /\
  out_err r = None /\
  Status (out_task r) = TaskStatusInProgress /\
  Progress (out_task r) = "60%" /\
  Progress (out_task r) <> "30%" /\
  (Update e (out_task r) = true ->
   out_store r !! TaskID task = Some (out_task r)).
Proof.
  intros Hc Hl taskResult r.
  destruct (parse_fetch_running unicode_lower marshal fr Hc Hl) as [S1 S2].
  fold taskResult in S1, S2.
  assert (Hr : out_err r = None).
  { subst r. rewrite apply_result_unfold by (rewrite S1; discriminate).
    rewrite transition_in_progress by exact S1.
    unfold persist. reflexivity. }
  destruct (explicit_progress_persisted e taskId task taskResult st Hr) as (P1 & _ & P3).
  { rewrite S2. discriminate. }
  destruct (apply_result_times e taskId task taskResult st Hr) as (T1 & _).
  fold r in P1, P3, T1.
  repeat split; auto.
  - now rewrite T1.
  - now rewrite P1.
  - rewrite P1, S2. discriminate.
Qed.

(** C7: when a pass returns no error and the normalized result carries a
    non-empty progress string, that string is the progress of the record
    written to the store, whatever percentage the status case set; so a
    vendor status "running" (any letter case), which the adaptor parses to
    InProgress with 60%, is persisted with progress 60% and not the 30% of
    the InProgress case, also through [updateVideoSingleTask] with the Volc
    Ark adaptor when the response is not the gateway's own envelope. *)
Theorem C7_explicit_progress_wins (e : Env) (taskId : string) (task : Task)
    (st : gmap string Task) :
  (forall taskResult,
     let r := apply_result cfg e taskId task taskResult st in
     out_err r = None ->
     ti_Progress taskResult <> "" ->
     Progress (out_task r) = ti_Progress taskResult /\
     In (EvTaskUpdate (out_task r) (Update e (out_task r))) (out_events r) /\
     (Update e (out_task r) = true ->
      out_store r !! TaskID task = Some (out_task r))) /\
  (forall unicode_lower marshal fr,
     VolcVideo.fr_ErrorCode fr = "" ->
     VolcVideo.lower_bytes (VolcVideo.fr_Status fr) = "running" ->
     let taskResult := VolcVideo.parse_fetch unicode_lower marshal fr in
     let r := apply_result cfg e taskId task taskResult st in
     ti_Status taskResult = TaskStatusInProgress /\
     ti_Progress taskResult = "60%" /\
     out_err r = None /\
     Status (out_task r) = TaskStatusInProgress /\
     Progress (out_task r) = "60%" /\
     Progress (out_task r) <> "30%" /\
     (Update e (out_task r) = true ->
      out_store r !! TaskID task = Some (out_task r))) /\
  (forall unicode_lower unmarshal_fetch marshal channel w body fr,
     taskM w !! taskId = Some task ->
     (forall baseURL key action,
        FetchTask e baseURL key taskId action = ResponseBody body) ->
     decode_envelope cfg body = None ->
     unmarshal_fetch body = Some fr ->
     VolcVideo.fr_ErrorCode fr = "" ->
     VolcVideo.lower_bytes (VolcVideo.fr_Status fr) = "running" ->
     (forall t, Update e t = true) ->
     let '(w', _, err) :=
       updateVideoSingleTask cfg
         (adaptor := volcvideo_adaptor unicode_lower unmarshal_fetch marshal)
         e channel taskId w in
     err = None /\
     exists t',
       store w' !! TaskID task = Some t' /\ taskM w' !! taskId = Some t' /\
       Status t' = TaskStatusInProgress /\ Progress t' = "60%").
Proof.
  split; [intros taskResult; apply explicit_progress_persisted|].
  split; [intros ul ma fr; apply running_result_persisted|].
  intros ul um ma channel w body fr Hl Hf Hd Hu Hc Hrun Hup.
  unfold updateVideoSingleTask. rewrite Hl, Hf.
  unfold normalize. rewrite Hd.
  unfold volcvideo_adaptor, adaptor_ParseTaskResult, VolcVideo.ParseTaskResult.
  rewrite Hu.
  destruct (running_result_persisted e taskId (set_Data body task) (store w) ul ma fr
              Hc Hrun) as (_ & _ & Hr & Hs & Hp & _ & Hst).
  specialize (Hst (Hup _)).
  destruct (apply_result cfg e taskId (set_Data body task)
              (VolcVideo.parse_fetch ul ma fr) (store w))
    as [[[task2 st'] evs] err].
  simpl in Hr, Hs, Hp, Hst. cbn [store taskM].
  split; [exact Hr|].
  exists task2. split; [exact Hst|]. split; [apply lookup_insert_eq|auto].
Qed.

(** A result whose status is Unknown, like one whose status
    is outside the six states, makes the pass return an error; nothing is
    written to the store, no call is made (no refund, no settlement) and the
    timestamps and the quota of the record in memory stay as they were, only
    its status field taking the reported value when that is not empty. *)
Lemma unhandled_status_errors (e : Env) (taskId : string) (task : Task)
    (taskResult : TaskInfo) (st : gmap string Task) :
  ti_Status taskResult = TaskStatusUnknown \/ ~ In (ti_Status taskResult) six_states ->
  let r := apply_result cfg e taskId task taskResult st in
  out_err r <> None /\
  out_store r = st /\
  out_events r = [] /\
  FinishTime (out_task r) = FinishTime task /\
  StartTime (out_task r) = StartTime task /\
  Quota (out_task r) = Quota task /\
  (ti_Status taskResult <> "" ->
   out_err r = Some (ErrUnknownStatus (ti_Status taskResult) taskId) /\
   out_task r = set_Status (ti_Status taskResult) task).
Proof.
  intros H r. subst r.
  destruct (is_empty (ti_Status taskResult)) eqn:E.
  { unfold apply_result. rewrite E. simpl. apply is_empty_true in E.
    split; [discriminate|]. do 5 (split; [reflexivity|]).
    intros Hne. now elim Hne. }
  apply is_empty_false in E.
  rewrite apply_result_unfold by exact E.
  rewrite transition_unhandled.
  - simpl. split; [discriminate|]. do 5 (split; [reflexivity|]). auto.
  - destruct H as [H|H].
    + rewrite H. simpl. intros [C|[C|[C|[C|[C|[]]]]]]; discriminate.
    + intros Hin. apply H. unfold six_states.
      simpl in Hin |- *. intuition.
Qed.

End Transition.

(** ** The batch *)

Section Batch.
Variable cfg : Static.

Lemma single_task_keeps_keys {adaptor : TaskAdaptor} (e : Env) (channel : Channel)
    (taskId k : string) (w : World) :
  let '(w', _, _) := updateVideoSingleTask cfg e channel taskId w in
  is_Some (taskM w !! k) -> is_Some (taskM w' !! k).
Proof.
  unfold updateVideoSingleTask.
  destruct (taskM w !! taskId) as [task|] eqn:Hl; [|auto].
  destruct (FetchTask e _ _ taskId (Action task)); auto.
  destruct (normalize cfg task responseBody) as [[task1 taskResult]|]; auto.
  destruct (apply_result cfg e taskId task1 taskResult (store w))
    as [[[task2 st'] evs] err].
  simpl. intros Hk. apply lookup_insert_is_Some'. auto.
Qed.

Lemma single_task_fetches {adaptor : TaskAdaptor} (e : Env) (channel : Channel)
    (taskId : string) (w : World) :
  let '(_, evs, _) := updateVideoSingleTask cfg e channel taskId w in
  is_Some (taskM w !! taskId) ->
  exists baseURL key action, In (EvFetchTask baseURL key taskId action) evs.
Proof.
  unfold updateVideoSingleTask.
  destruct (taskM w !! taskId) as [task|] eqn:Hl.
  2:{ intros [x Hx]. discriminate. }
  set (baseURL := if negb (is_empty (ch_BaseURL channel)) then _ else _).
  destruct (FetchTask e baseURL _ taskId (Action task)).
  1,2: (intros _; exists baseURL, (ch_Key channel), (Action task); left; reflexivity).
  destruct (normalize cfg task responseBody) as [[task1 taskResult]|].
  2:{ intros _. exists baseURL, (ch_Key channel), (Action task). left. reflexivity. }
  destruct (apply_result cfg e taskId task1 taskResult (store w))
    as [[[task2 st'] evs] err].
  intros _. exists baseURL, (ch_Key channel), (Action task). left. reflexivity.
Qed.

(** Every listed task that is in [taskM] is fetched, whatever happened to
    the tasks before it. *)
Lemma update_each_fetches {adaptor : TaskAdaptor} (env : nat -> Env) (channel : Channel)
    (taskIds : list string) :
  forall (i : nat) (w : World) (taskId : string),
    In taskId taskIds ->
    is_Some (taskM w !! taskId) ->
    exists baseURL key action,
      In (EvFetchTask baseURL key taskId action)
         (snd (update_each cfg env i channel taskIds w)).
Proof.
  induction taskIds as [|x rest IH]; intros i w taskId Hin Hk; [destruct Hin|].
  simpl.
  pose proof (single_task_keeps_keys (env i) channel x taskId w) as Hkeys.
  pose proof (single_task_fetches (env i) channel x w) as Hf.
  destruct (updateVideoSingleTask cfg (env i) channel x w) as [[w1 evs] err].
  specialize (IH (S i) w1 taskId).
  destruct (update_each cfg env (S i) channel rest w1) as [w2 evs_rest].
  simpl in *.
  destruct Hin as [->|Hin].
  - destruct (Hf Hk) as (b & k & a & Hev). exists b, k, a.
    apply in_or_app. now left.
  - destruct (IH Hin (Hkeys Hk)) as (b & k & a & Hev). exists b, k, a.
    apply in_or_app. right. apply in_or_app. now right.
Qed.

(** *** The bulk update *)

Lemma bulk_update_lookup (f : Task -> Task) (ids : list string)
    (m : gmap string Task) (k : string) :
  (forall t, f (f t) = f t) ->
  (In k ids -> foldr (fun id acc => alter f id acc) m ids !! k = f <$> m !! k) /\
  (~ In k ids -> foldr (fun id acc => alter f id acc) m ids !! k = m !! k).
Proof.
  intros Hidem. induction ids as [|x ids [IH1 IH2]]; simpl.
  - split; [tauto|reflexivity].
  - split.
    + intros Hin. destruct (decide (x = k)) as [->|Hne].
      * rewrite lookup_alter_eq.
        destruct (in_dec string_dec k ids) as [Hi|Hn].
        -- rewrite (IH1 Hi). destruct (m !! k); simpl; [now rewrite Hidem|reflexivity].
        -- now rewrite (IH2 Hn).
      * rewrite lookup_alter_ne by exact Hne. apply IH1. destruct Hin; congruence.
    + intros Hn. rewrite lookup_alter_ne by (intros ->; apply Hn; now left).
      apply IH2. intros Hi. apply Hn. now right.
Qed.

Lemma channel_failure_columns (channelId : Z) (t : Task) :
  foldl update_column t (channel_failure_fields channelId) =
    set_Progress "100%"
      (set_Status "FAILURE"
         (set_FailReason
            ("Failed to get channel info, channel ID: " +:+ pretty channelId) t)).
Proof. reflexivity. Qed.

(** C9: when the channel cannot be resolved, the run returns the lookup
    error after one bulk update that names exactly the columns fail_reason,
    status and progress: every stored record of the batch gets status
    FAILURE, progress 100% and the diagnostic reason and keeps every other
    field (finish time, start time and quota among them); records outside the
    batch and the tasks in memory are untouched, and no ledger call is made,
    so nothing is refunded. *)
Theorem C9_channel_failure_touches_three_fields (b : BatchEnv) (platform : string)
    (channelId : Z) (taskIds : list string) (w : World) :
  taskIds <> [] ->
  CacheGetChannel b channelId = None ->
  TaskBulkUpdate_ok b = true ->
  let '(w', evs, err) := updateVideoTaskAll cfg b platform channelId taskIds w in
  let reason := "Failed to get channel info, channel ID: " +:+ pretty channelId in
  err = Some ErrCacheGetChannel /\
  taskM w' = taskM w /\
  List.filter is_ledger_event evs = [] /\
  (forall u, charged u evs = 0) /\
  List.filter is_task_update evs = [] /\
  In (EvTaskBulkUpdate taskIds
        [("fail_reason", reason); ("status", "FAILURE"); ("progress", "100%")] true)
     evs /\
  (forall taskId t,
     In taskId taskIds -> store w !! taskId = Some t ->
     exists t',
       store w' !! taskId = Some t' /\
       Status t' = "FAILURE" /\ Progress t' = "100%" /\ FailReason t' = reason /\
       FinishTime t' = FinishTime t /\ StartTime t' = StartTime t /\
       Quota t' = Quota t /\
       t' = set_Progress "100%" (set_Status "FAILURE" (set_FailReason reason t))) /\
  (forall taskId, ~ In taskId taskIds -> store w' !! taskId = store w !! taskId).
Proof.
  intros Hne Hc Hok. unfold updateVideoTaskAll.
  destruct taskIds as [|x rest]; [congruence|].
  rewrite Hc, Hok. cbv zeta.
  split; [reflexivity|]. split; [reflexivity|]. split; [reflexivity|].
  split; [intros u; reflexivity|]. split; [reflexivity|].
  split; [right; left; reflexivity|].
  assert (Hidem : forall t,
            foldl update_column (foldl update_column t (channel_failure_fields channelId))
              (channel_failure_fields channelId)
            = foldl update_column t (channel_failure_fields channelId)).
  { intros t. now rewrite !channel_failure_columns. }
  split.
  - intros taskId t Hin Hl.
    destruct (bulk_update_lookup
                (fun t => foldl update_column t (channel_failure_fields channelId))
                (x :: rest) (store w) taskId Hidem) as [H1 _].
    exists (foldl update_column t (channel_failure_fields channelId)). split.
    + unfold TaskBulkUpdate. cbn [store]. rewrite (H1 Hin), Hl. reflexivity.
    + rewrite channel_failure_columns. simpl. auto 10.
  - intros taskId Hn.
    destruct (bulk_update_lookup
                (fun t => foldl update_column t (channel_failure_fields channelId))
                (x :: rest) (store w) taskId Hidem) as [_ H2].
    unfold TaskBulkUpdate. cbn [store]. exact (H2 Hn).
Qed.

(** *** One pass over one record *)

Lemma terminal_transition_filter (evs : list Event) :
  terminal_transition evs = terminal_transition (List.filter is_task_update evs).
Proof.
  unfold terminal_transition. induction evs as [|ev evs IH]; [reflexivity|].
  destruct ev; simpl; try exact IH. now rewrite IH.
Qed.

Lemma in_progress_transition_filter (evs : list Event) :
  in_progress_transition evs = in_progress_transition (List.filter is_task_update evs).
Proof.
  unfold in_progress_transition. induction evs as [|ev evs IH]; [reflexivity|].
  destruct ev; simpl; try exact IH. now rewrite IH.
Qed.

Lemma apply_result_error (e : Env) (taskId : string) (task : Task)
    (taskResult : TaskInfo) (st : gmap string Task) (err : Err) :
  out_err (apply_result cfg e taskId task taskResult st) = Some err ->
  out_events (apply_result cfg e taskId task taskResult st) = [] /\
  out_store (apply_result cfg e taskId task taskResult st) = st.
Proof.
  unfold apply_result.
  destruct (is_empty (ti_Status taskResult)); [simpl; auto|].
  destruct (transition cfg e _ taskResult) as [[task1 evs]|]; [|simpl; auto].
  destruct (persist e task1 taskResult st) as [[task2 st'] evs']. discriminate.
Qed.

Lemma normalize_times {adaptor : TaskAdaptor} (task task1 : Task) (body : string)
    (taskResult : TaskInfo) :
  normalize cfg task body = Some (task1, taskResult) ->
  TaskID task1 = TaskID task /\ FinishTime task1 = FinishTime task /\
  StartTime task1 = StartTime task.
Proof.
  unfold normalize. destruct (decode_envelope cfg body).
  - intros H. inversion H; subst. auto.
  - destruct (adaptor_ParseTaskResult body); [|discriminate].
    intros H. inversion H; subst. simpl. auto.
Qed.

Lemma single_task_outcome {adaptor : TaskAdaptor} (e : Env) (channel : Channel)
    (t : Task) :
  let id := TaskID t in
  let w := {| taskM := {[ id := t ]}; store := {[ id := t ]} |} in
  let '(w', evs, _) := updateVideoSingleTask cfg e channel id w in
  pass_outcome (now e) t (default t (store w' !! id)) evs.
Proof.
  intros id w. unfold updateVideoSingleTask. cbn [taskM store w].
  rewrite lookup_singleton_eq.
  assert (Hsame : forall evs, List.filter is_task_update evs = [] ->
            pass_outcome (now e) t (default t (store w !! id)) evs).
  { intros evs Hf. left. cbn [store w]. rewrite lookup_singleton_eq. simpl. auto. }
  destruct (FetchTask e _ _ id (Action t)); try (apply Hsame; reflexivity).
  destruct (normalize cfg t responseBody) as [[task1 taskResult]|] eqn:Hn;
    [|apply Hsame; reflexivity].
  destruct (normalize_times _ _ _ _ Hn) as (Hid & Hfin & Hsta).
  destruct (out_err (apply_result cfg e id task1 taskResult {[ id := t ]})) as [err|] eqn:Herr.
  - destruct (apply_result_error e id task1 taskResult _ err Herr) as [Hev Hst].
    destruct (apply_result cfg e id task1 taskResult {[ id := t ]})
      as [[[task2 st'] evs] err'].
    simpl in Hev, Hst. subst evs st'. cbn [store].
    left. rewrite lookup_singleton_eq. simpl. auto.
  - destruct (apply_result_times cfg e id task1 taskResult {[ id := t ]} Herr)
      as (T1 & T2 & T3 & T4).
    destruct (apply_result_shape cfg e id task1 taskResult {[ id := t ]} Herr)
      as (t1 & evs1 & _ & Htr & Heq).
    apply transition_no_update in Htr.
    rewrite Heq in T1, T2, T3, T4 |- *. cbn [out_task] in T1, T2, T3, T4.
    set (task2 := if is_empty (ti_Progress taskResult) then t1
                  else set_Progress (ti_Progress taskResult) t1) in *.
    cbn [store]. unfold task_Update.
    assert (Hid2 : TaskID task2 = id) by (rewrite T2; exact Hid).
    destruct (Update e task2).
    + right. rewrite Hid2, lookup_insert_eq. simpl.
      rewrite List.filter_app, Htr. simpl.
      rewrite T1, T3, T4, Hfin, Hsta. auto.
    + left. rewrite lookup_singleton_eq. simpl.
      rewrite List.filter_app, Htr. simpl. split; [right; eauto|auto].
Qed.

Lemma pass_outcome_more (nowv : Z) (t t' : Task) (evs pre post : list Event) :
  List.filter is_task_update pre = [] ->
  List.filter is_task_update post = [] ->
  pass_outcome nowv t t' evs ->
  pass_outcome nowv t t' (pre ++ evs ++ post).
Proof.
  intros Hpre Hpost H. unfold pass_outcome in *.
  rewrite !List.filter_app, Hpre, Hpost, app_nil_r. exact H.
Qed.

Lemma run_pass_outcome (p : Pass) (t : Task) :
  pass_outcome (now (poll_env (pass_env p) 0)) t
    (fst (run_pass cfg p t)) (snd (run_pass cfg p t)).
Proof.
  unfold run_pass, updateVideoTaskAll.
  destruct (CacheGetChannel (pass_env p) (pass_channel p)) as [ch|].
  - destruct (GetTaskAdaptor (pass_env p) (pass_platform p)) as [ad|].
    + cbn [update_each].
      pose proof (@single_task_outcome ad (poll_env (pass_env p) 0) ch t) as H.
      cbv zeta in H.
      destruct (updateVideoSingleTask cfg (poll_env (pass_env p) 0) ch (TaskID t) _)
        as [[w1 evs] err].
      cbn [fst snd].
      apply (pass_outcome_more _ _ _ evs [EvLogInfo (MsgPending (pass_channel p) 1)]
               (match err with
                | Some er => [EvLogError (MsgSingleTaskFailed (TaskID t) er)]
                | None => []
                end ++ [])) in H; [exact H|reflexivity|].
      destruct err; reflexivity.
    + cbn [fst snd store]. left. rewrite lookup_singleton_eq. simpl. auto.
  - cbn [fst snd store taskM]. left. unfold TaskBulkUpdate.
    destruct (TaskBulkUpdate_ok (pass_env p)).
    + simpl foldr. rewrite lookup_alter_eq, lookup_singleton_eq.
      simpl. auto.
    + rewrite lookup_singleton_eq. simpl. auto.
Qed.

End Batch.

(** ** Timestamps over a sequence of passes *)

Section SetOnce.
Variable time : Task -> Z.
Variable trans : list Event -> bool.
Variable final : Task -> bool.

Lemma stable_once_set (t : Task) (h : list (Task * list Event * Task)) :
  chained t h -> Forall (sets_once time trans final) h -> time t <> 0 ->
  Forall (fun x => time (record_before x) = time t /\ time (record_after x) = time t) h.
Proof.
  intros Hc. induction Hc as [t|t t' evs h Hc IH]; intros Hok Hne; [constructor|].
  inversion Hok as [|x l Hx Hrest]; subst.
  simpl in Hx. destruct Hx as (H1 & _ & _).
  specialize (H1 Hne). constructor; [simpl; auto|].
  rewrite <- H1. apply IH; [exact Hrest|congruence].
Qed.

Lemma changed_at_most_once (t : Task) (h : list (Task * list Event * Task)) :
  chained t h -> Forall (sets_once time trans final) h ->
  (length (List.filter (changed time) h) <= 1)%nat /\
  (time t <> 0 -> List.filter (changed time) h = []).
Proof.
  intros Hc. induction Hc as [t|t t' evs h Hc IH]; intros Hok.
  - simpl. split; [lia|reflexivity].
  - inversion Hok as [|x l Hx Hrest]; subst.
    simpl in Hx. destruct Hx as (H1 & H2 & H3).
    destruct (IH Hrest) as [IHa IHb]. simpl.
    destruct (time t' =? time t) eqn:E; simpl.
    + apply Z.eqb_eq in E. split; [exact IHa|].
      intros Hne. apply IHb. congruence.
    + apply Z.eqb_neq in E. destruct (H2 E) as (Hz & Htr & _).
      rewrite (IHb (H3 Htr)). simpl. split; [lia|]. intros Hne. contradiction.
Qed.

Lemma changed_at_first_transition (t : Task) (h : list (Task * list Event * Task)) :
  chained t h -> Forall (sets_once time trans final) h ->
  forall h1 x h2, h = (h1 ++ x :: h2)%list -> changed time x = true ->
    time (record_before x) = 0 /\ trans (events_of x) = true /\
    final (record_after x) = true /\
    Forall (fun y => trans (events_of y) = false) h1.
Proof.
  intros Hc. induction Hc as [t|t t' evs h Hc IH]; intros Hok h1 x h2 Heq Hch.
  - destruct h1; discriminate.
  - inversion Hok as [|x0 l Hx Hrest]; subst.
    simpl in Hx. destruct Hx as (H1 & H2 & H3).
    destruct h1 as [|y h1]; simpl in Heq; inversion Heq; subst.
    + simpl in Hch. apply negb_true_iff, Z.eqb_neq in Hch.
      destruct (H2 Hch) as (Hz & Htr & Hf). simpl. auto.
    + pose proof (IH Hrest h1 x h2 eq_refl Hch) as (Hz & Htr & Hf & Hall).
      repeat split; try assumption. constructor; [|exact Hall].
      simpl. destruct (trans evs) eqn:E; [|reflexivity]. exfalso.
      specialize (H3 eq_refl).
      pose proof (stable_once_set t' _ Hc Hrest H3) as Hst.
      rewrite List.Forall_forall in Hst.
      destruct (Hst x) as [Hb _]; [apply in_or_app; right; now left|].
      congruence.
Qed.

Lemma never_overwritten (h : list (Task * list Event * Task)) :
  Forall (sets_once time trans final) h ->
  forall x, In x h ->
    time (record_before x) <> 0 -> time (record_after x) = time (record_before x).
Proof.
  intros Hok x Hin. rewrite List.Forall_forall in Hok.
  specialize (Hok x Hin). destruct x as [[b evs] a]. simpl in *. tauto.
Qed.

Lemma set_by_transition (h : list (Task * list Event * Task)) :
  Forall (sets_once time trans final) h ->
  forall x, In x h ->
    trans (events_of x) = true -> time (record_after x) <> 0.
Proof.
  intros Hok x Hin. rewrite List.Forall_forall in Hok.
  specialize (Hok x Hin). destruct x as [[b evs] a]. simpl in *. tauto.
Qed.

End SetOnce.

Section Histories.
Variable cfg : Static.

Lemma history_chained (ps : list Pass) : forall t, chained t (history cfg t ps).
Proof.
  induction ps as [|p ps IH]; intros t; simpl; [constructor|].
  destruct (run_pass cfg p t) as [t' evs]. constructor. apply IH.
Qed.

Lemma run_pass_finish (p : Pass) (t : Task) :
  clock_set p ->
  sets_once FinishTime terminal_transition (fun a => is_terminal (Status a))
    (t, snd (run_pass cfg p t), fst (run_pass cfg p t)).
Proof.
  intros Hclock. pose proof (run_pass_outcome cfg p t) as H.
  specialize (Hclock 0%nat).
  set (nowv := now (poll_env (pass_env p) 0)) in *.
  destruct (run_pass cfg p t) as [t' evs]. simpl in *.
  rewrite (terminal_transition_filter evs).
  destruct H as [([Hf|[t2 Hf]] & Hfin & _)|(Hf & Hfin & _)]; rewrite Hf; simpl.
  - repeat split; try congruence; discriminate.
  - repeat split; try congruence; discriminate.
  - rewrite orb_false_r.
    destruct (is_terminal (Status t')) eqn:Et; simpl in Hfin;
      [destruct (FinishTime t =? 0) eqn:Ez; simpl in Hfin|].
    + apply Z.eqb_eq in Ez. repeat split; try congruence.
    + apply Z.eqb_neq in Ez. repeat split; try congruence.
    + repeat split; try congruence; discriminate.
Qed.

Lemma run_pass_start (p : Pass) (t : Task) :
  clock_set p ->
  sets_once StartTime in_progress_transition
    (fun a => String.eqb (Status a) TaskStatusInProgress)
    (t, snd (run_pass cfg p t), fst (run_pass cfg p t)).
Proof.
  intros Hclock. pose proof (run_pass_outcome cfg p t) as H.
  specialize (Hclock 0%nat).
  set (nowv := now (poll_env (pass_env p) 0)) in *.
  destruct (run_pass cfg p t) as [t' evs]. simpl in *.
  rewrite (in_progress_transition_filter evs).
  destruct H as [([Hf|[t2 Hf]] & _ & Hsta)|(Hf & _ & Hsta)]; rewrite Hf; simpl.
  - repeat split; try congruence; discriminate.
  - repeat split; try congruence; discriminate.
  - rewrite orb_false_r.
    destruct (String.eqb (Status t') TaskStatusInProgress) eqn:Et; simpl in Hsta;
      [destruct (StartTime t =? 0) eqn:Ez; simpl in Hsta|].
    + apply Z.eqb_eq in Ez. repeat split; try congruence.
    + apply Z.eqb_neq in Ez. repeat split; try congruence.
    + repeat split; try congruence; discriminate.
Qed.

Lemma history_sets_once (time : Task -> Z) (trans : list Event -> bool)
    (final : Task -> bool) :
  (forall p t, clock_set p ->
     sets_once time trans final (t, snd (run_pass cfg p t), fst (run_pass cfg p t))) ->
  forall ps t, Forall clock_set ps ->
    Forall (sets_once time trans final) (history cfg t ps).
Proof.
  intros Hstep ps. induction ps as [|p ps IH]; intros t Hc; simpl; [constructor|].
  inversion Hc; subst. specialize (Hstep p t ltac:(assumption)).
  destruct (run_pass cfg p t) as [t' evs]. constructor; [exact Hstep|].
  now apply IH.
Qed.

(** C8: over any sequence of passes on a task whose polls read a nonzero
    clock, the stored finish time changes in at most one pass and the stored
    start time in at most one pass, and a pass that finds either timestamp
    set leaves it as it is. The finish time is set only by a pass that finds
    it unset and writes the record through the Success or Failure case of the
    per-task switch, and that pass is the first of the sequence to do so; the
    channel-failure bulk update marks the record FAILURE without setting it,
    so the record may already hold a terminal status. The start time is set
    only by a pass that finds it unset and writes the record through the
    InProgress case, the first of the sequence to do so; the Success and
    Failure cases do not set it, so the record may already have held a later
    status. Every pass that writes the record through the Success or Failure
    case leaves the finish time set, and every pass that writes it through
    the InProgress case leaves the start time set. *)
Theorem C8_timestamps_assigned_once (t : Task) (ps : list Pass) :
  Forall clock_set ps ->
  let h := history cfg t ps in
  (length (List.filter finish_changed h) <= 1)%nat /\
  (length (List.filter start_changed h) <= 1)%nat /\
  (forall h1 x h2, h = (h1 ++ x :: h2)%list -> finish_changed x = true ->
     FinishTime (record_before x) = 0 /\
     terminal_transition (events_of x) = true /\
     is_terminal (Status (record_after x)) = true /\
     Forall (fun y => terminal_transition (events_of y) = false) h1) /\
  (forall h1 x h2, h = (h1 ++ x :: h2)%list -> start_changed x = true ->
     StartTime (record_before x) = 0 /\
     in_progress_transition (events_of x) = true /\
     Status (record_after x) = TaskStatusInProgress /\
     Forall (fun y => in_progress_transition (events_of y) = false) h1) /\
  (forall x, In x h ->
     (FinishTime (record_before x) <> 0 ->
      FinishTime (record_after x) = FinishTime (record_before x)) /\
     (StartTime (record_before x) <> 0 ->
      StartTime (record_after x) = StartTime (record_before x))) /\
  (forall x, In x h ->
     (terminal_transition (events_of x) = true -> FinishTime (record_after x) <> 0) /\
     (in_progress_transition (events_of x) = true -> StartTime (record_after x) <> 0)).
Proof.
  intros Hclock h.
  pose proof (history_chained ps t) as Hch. fold h in Hch.
  pose proof (history_sets_once _ _ _ run_pass_finish ps t Hclock) as Hfin.
  pose proof (history_sets_once _ _ _ run_pass_start ps t Hclock) as Hsta.
  fold h in Hfin, Hsta.
  split; [exact (proj1 (changed_at_most_once _ _ _ t h Hch Hfin))|].
  split; [exact (proj1 (changed_at_most_once _ _ _ t h Hch Hsta))|].
  split.
  { intros h1 x h2 Heq Hx.
    exact (changed_at_first_transition _ _ _ t h Hch Hfin h1 x h2 Heq Hx). }
  split.
  { intros h1 x h2 Heq Hx.
    destruct (changed_at_first_transition _ _ _ t h Hch Hsta h1 x h2 Heq Hx)
      as (A & B & C & D).
    apply String.eqb_eq in C. auto. }
  split.
  { intros x Hin. split.
    - exact (never_overwritten _ _ _ h Hfin x Hin).
    - exact (never_overwritten _ _ _ h Hsta x Hin). }
  intros x Hin. split.
  - exact (set_by_transition _ _ _ h Hfin x Hin).
  - exact (set_by_transition _ _ _ h Hsta x Hin).
Qed.

End Histories.

(** ** Unhandled statuses and the rest of the batch *)



(** C6: a result whose status is Unknown makes the pass return
    an error exactly as a status outside the six states does: nothing is
    written to the store, no call is made (no refund, no settlement), and the
    timestamps and quota of the record stay, only the status field in memory
    taking the reported value; and the batch goes on: with the channel and
    the adaptor resolved, the run returns no error and every listed task that
    is in the task map is fetched, whatever the tasks before it returned. *)
Theorem C6_unknown_is_error_and_batch_continues (cfg : Static) :
  (forall (e : Env) (taskId : string) (task : Task) (taskResult : TaskInfo)
          (st : gmap string Task),
     ti_Status taskResult = TaskStatusUnknown \/
     ~ In (ti_Status taskResult) six_states ->
     let r := apply_result cfg e taskId task taskResult st in
     out_err r <> None /\
     out_store r = st /\
     out_events r = [] /\
     FinishTime (out_task r) = FinishTime task /\
     StartTime (out_task r) = StartTime task /\
     Quota (out_task r) = Quota task /\
     (ti_Status taskResult <> "" ->
      out_err r = Some (ErrUnknownStatus (ti_Status taskResult) taskId) /\
      out_task r = set_Status (ti_Status taskResult) task)) /\
  (forall (b : BatchEnv) (platform : string) (channelId : Z) (ch : Channel)
          (ad : TaskAdaptor) (taskIds : list string) (w : World),
     CacheGetChannel b channelId = Some ch ->
     GetTaskAdaptor b platform = Some ad ->
     let '(_, evs, err) := updateVideoTaskAll cfg b platform channelId taskIds w in
     err = None /\
     forall taskId, In taskId taskIds -> is_Some (taskM w !! taskId) ->
       exists baseURL key action, In (EvFetchTask baseURL key taskId action) evs).
Proof.
  split.
  - intros e taskId task taskResult st H.
    exact (unhandled_status_errors cfg e taskId task taskResult st H).
  - intros b platform channelId ch ad taskIds w Hc Ha.
    unfold updateVideoTaskAll. destruct taskIds as [|x rest].
    { split; [reflexivity|]. intros taskId []. }
    rewrite Hc, Ha.
    pose proof (@update_each_fetches cfg ad (poll_env b) ch (x :: rest) 0%nat w) as H.
    destruct (update_each cfg (poll_env b) 0 ch (x :: rest) w) as [w' evs].
    split; [reflexivity|].
    intros taskId Hin Hk. destruct (H taskId Hin Hk) as (u & k & a & Hev).
    exists u, k, a. right. exact Hev.
Qed.

(** ** Inputs on which the specification and the code differ *)

(** C1: with 7 usage tokens, completion rate 0.25 and the other rates 1.0 the
    product is 1.75; rounding gives 2, the code charges 1. *)
Lemma C1_counterexample_rounding :
  let e := Sample.env 1 0.25 1 true true "body" in
  let task := Sample.task 50 in
  let taskResult := Sample.result TaskStatusSuccess 7 in
  spec_actualQuota Sample.cfg e task taskResult = Some 2 /\
  actualQuota Sample.cfg e task taskResult = 1 /\
  Some (actualQuota Sample.cfg e task taskResult)
    <> spec_actualQuota Sample.cfg e task taskResult.
Proof. vm_compute. split; [reflexivity|split; [reflexivity|discriminate]]. Qed.

(** C2: a group rate of zero is not read as 1.0: with 80 tokens and the other
    rates 1.0 the actual quota is 1 (the zero product raised to the minimum),
    not the 80 a neutral rate gives. *)
Lemma C2_counterexample_zero_group_rate :
  let zero := Sample.env 1 1 0 true true "body" in
  let one := Sample.env 1 1 1 true true "body" in
  let task := Sample.task 50 in
  let taskResult := Sample.result TaskStatusSuccess 80 in
  PrimFloat.eqb (GetGroupRatio zero "default") 0 = true /\
  groupRatio zero task <> neutral (GetGroupRatio zero "default") /\
  actualQuota Sample.cfg zero task taskResult = 1 /\
  actualQuota Sample.cfg one task taskResult = 80.
Proof.
  vm_compute. split; [reflexivity|]. split; [|split; reflexivity].
  intros H. apply (f_equal (fun f => PrimFloat.eqb f 0)) in H.
  vm_compute in H. discriminate.
Qed.

(** C3: for the status "paused" the reason is not the English text
    "unrecognized status: paused". *)
Lemma C3_counterexample_reason_literal :
  ti_Reason
    (VolcVideo.parse_fetch (fun s => s) Sample.marshal (Sample.payload "paused" ""))
  <> "unrecognized status: paused".
Proof. vm_compute. discriminate. Qed.

(** C4: a task whose quota is zero fails without any system log entry. *)
Lemma C4_counterexample_zero_quota_no_log :
  let r :=
    apply_result Sample.cfg (Sample.env 1 1 1 true true "body") "cgt-1"
      (Sample.task 0) (Sample.result TaskStatusFailure 0) ∅ in
  out_err r = None /\
  List.filter is_system_log (out_events r) = [] /\
  length (List.filter is_system_log (out_events r)) <> 1%nat.
Proof. vm_compute. split; [reflexivity|split; [reflexivity|discriminate]]. Qed.

(** C8: a task whose channel could not be resolved is marked FAILURE by the
    bulk update without a finish time; when a later pass reports it
    succeeded, the finish time is set on a record that already held a
    terminal status. And a task reported succeeded and then in progress gets
    its start time only in the second pass, after it already held a later
    status. The clock reads 2000 in every poll. *)
Lemma C8_counterexample_later_transitions :
  let failed_then_succeeded :=
    history Sample.cfg (Sample.task 100)
      [Sample.pass None (Sample.result TaskStatusSuccess 0);
       Sample.pass (Some Sample.channel) (Sample.result TaskStatusSuccess 0)] in
  let succeeded_then_running :=
    history Sample.cfg (Sample.task 100)
      [Sample.pass (Some Sample.channel) (Sample.result TaskStatusSuccess 0);
       Sample.pass (Some Sample.channel) (Sample.result TaskStatusInProgress 0)] in
  map (fun x => (Status (record_before x), FinishTime (record_before x),
                 Status (record_after x), FinishTime (record_after x)))
      failed_then_succeeded
    = [("SUBMITTED", 0, "FAILURE", 0); ("FAILURE", 0, "SUCCESS", 2000)] /\
  existsb (fun x => finish_changed x && is_terminal (Status (record_before x)))
    failed_then_succeeded = true /\
  map (fun x => (Status (record_before x), StartTime (record_before x),
                 Status (record_after x), StartTime (record_after x)))
      succeeded_then_running
    = [("SUBMITTED", 0, "SUCCESS", 0); ("SUCCESS", 0, "IN_PROGRESS", 2000)] /\
  existsb (fun x => start_changed x && is_terminal (Status (record_before x)))
    succeeded_then_running = true.
Proof. vm_compute. repeat split; reflexivity. Qed.

(** C6: an Unknown result makes the pass return an error. *)
Lemma C6_counterexample_unknown_errors :
  out_err
    (apply_result Sample.cfg (Sample.env 1 1 1 true true "body") "cgt-1"
       (Sample.task 100) (Sample.result TaskStatusUnknown 0) ∅)
  = Some (ErrUnknownStatus "UNKNOWN" "cgt-1") /\
  out_err
    (apply_result Sample.cfg (Sample.env 1 1 1 true true "body") "cgt-1"
       (Sample.task 100) (Sample.result TaskStatusUnknown 0) ∅)
  <> None.
Proof. vm_compute. split; [reflexivity|discriminate]. Qed.

(** ** Scenarios *)

(** The scenario of the specification: reserved 50, 80 usage tokens, all
    rates 1.0: actual quota 80, delta 30, the user charged 30 with a
    supplement entry, the stored quota 80. *)
Lemma C1_witness_scenario :
  let e := Sample.env 1 1 1 true true "body" in
  let task := Sample.task 50 in
  let taskResult := Sample.result TaskStatusSuccess 80 in
  let r := apply_result Sample.cfg e "cgt-1" task taskResult ∅ in
  (ti_Status taskResult = TaskStatusSuccess /\ 0 < ti_TotalTokens taskResult /\
   Int64.in_range (Quota task)) /\
  actualQuota Sample.cfg e task taskResult = 80 /\
  quotaDelta Sample.cfg e task taskResult = 30 /\
  Quota (out_task r) = 80 /\
  charged 7 (out_events r) = 30 /\
  exists log,
    In (EvRecordConsumeLog 7 log) (List.filter is_ledger_event (out_events r)) /\
    cl_Quota log = 30 /\
    In ("adjustment_type", OString "supplement") (cl_Other log).
Proof.
  intros e task taskResult r.
  assert (H1 : ti_Status taskResult = TaskStatusSuccess) by reflexivity.
  assert (H2 : 0 < ti_TotalTokens taskResult) by reflexivity.
  assert (H3 : Int64.in_range (Quota task)) by (vm_compute; split; discriminate).
  assert (Ha : actualQuota Sample.cfg e task taskResult = 80) by (vm_compute; reflexivity).
  assert (Hd : quotaDelta Sample.cfg e task taskResult = 30) by (vm_compute; reflexivity).
  destruct (C1_settlement_truncates Sample.cfg e "cgt-1" task taskResult ∅ H1 H2 H3)
    as (_ & HQ & _ & Hpos).
  fold r in HQ, Hpos. rewrite Ha in HQ. rewrite Hd in Hpos.
  destruct Hpos as (Hc & log & Hf & L1 & _ & L3); [reflexivity|reflexivity|].
  split; [auto|]. split; [exact Ha|]. split; [exact Hd|]. split; [exact HQ|].
  split; [exact Hc|].
  exists log. split; [|split; [exact L1|exact L3]].
  rewrite Hf. right. left. reflexivity.
Defined.

(** Model and completion rates that resolve to zero bill like rates of 1.0. *)
Lemma C2_witness_zero_rates :
  let e := Sample.env 0 0 2 true true "body" in
  let e' := Sample.env 1 1 2 true true "body" in
  let task := Sample.task 50 in
  let taskResult := Sample.result TaskStatusSuccess 80 in
  ((forall n, GetModelRatio e' n = neutral (GetModelRatio e n)) /\
   (forall n, GetCompletionRatio e' n = neutral (GetCompletionRatio e n)) /\
   (forall g, GetGroupRatio e' g = GetGroupRatio e g)) /\
  actualQuota Sample.cfg e' task taskResult = actualQuota Sample.cfg e task taskResult /\
  actualQuota Sample.cfg e task taskResult = 160.
Proof.
  intros e e' task taskResult.
  assert (Hm : forall n, GetModelRatio e' n = neutral (GetModelRatio e n))
    by (intros n; reflexivity).
  assert (Hc : forall n, GetCompletionRatio e' n = neutral (GetCompletionRatio e n))
    by (intros n; reflexivity).
  assert (Hg : forall g, GetGroupRatio e' g = GetGroupRatio e g)
    by (intros g; reflexivity).
  destruct (C2_zero_model_and_completion_rates_neutral Sample.cfg e e' task taskResult
              Hm Hc Hg) as (_ & _ & _ & Heq).
  split; [auto|]. split; [exact Heq|]. vm_compute. reflexivity.
Defined.

(** A payload with status "RUNNING", and one with an error code next to a
    status. *)
Lemma C3_witness_payloads :
  let running := Sample.payload "RUNNING" "" in
  let limited := Sample.payload "queued" "rate_limited" in
  let res1 := VolcVideo.parse_fetch (fun s => s) Sample.marshal running in
  let res2 := VolcVideo.parse_fetch (fun s => s) Sample.marshal limited in
  (VolcVideo.fr_ErrorCode running = "" /\ VolcVideo.fr_Status running <> "" /\
   VolcVideo.ToLower (fun s => s) (VolcVideo.fr_Status running) = "running") /\
  (ti_Status res1 = TaskStatusInProgress /\ ti_Progress res1 = "60%") /\
  VolcVideo.fr_ErrorCode limited <> "" /\
  (ti_Status res2 = TaskStatusFailure /\ ti_Progress res2 = "100%" /\
   ti_Reason res2 = "rate_limited: slow down").
Proof.
  intros running limited res1 res2.
  assert (A1 : VolcVideo.fr_ErrorCode running = "") by reflexivity.
  assert (A2 : VolcVideo.fr_Status running <> "") by discriminate.
  assert (A3 : VolcVideo.ToLower (fun s => s) (VolcVideo.fr_Status running) = "running")
    by reflexivity.
  assert (B1 : VolcVideo.fr_ErrorCode limited <> "") by discriminate.
  destruct (C3_parse_priority (fun s => s) Sample.marshal running)
    as (_ & _ & _ & Hmap & _).
  destruct (Hmap A1 A2) as (_ & Hrun & _).
  destruct (C3_parse_priority (fun s => s) Sample.marshal limited)
    as (_ & Herr & _).
  split; [auto|]. split; [exact (Hrun A3)|]. split; [exact B1|].
  exact (Herr B1).
Defined.

(** The scenario of the specification: reserved 100, the task fails: 100 is
    credited, one system log entry is written, the quota stays 100. *)
Lemma C4_witness_refund :
  let e := Sample.env 1 1 1 true true "body" in
  let task := Sample.task 100 in
  let taskResult := Sample.result TaskStatusFailure 0 in
  let r := apply_result Sample.cfg e "cgt-1" task taskResult ∅ in
  (ti_Status taskResult = TaskStatusFailure /\ Quota task <> 0 /\
   IncreaseUserQuota e 7 100 = true) /\
  Quota (out_task r) = 100 /\
  charged 7 (out_events r) = - 100 /\
  List.filter is_ledger_event (out_events r) =
    [EvIncreaseUserQuota 7 100 true;
     EvRecordLog 7 LogTypeSystem (ContentFailRefund "cgt-1" 100)].
Proof.
  intros e task taskResult r.
  assert (H1 : ti_Status taskResult = TaskStatusFailure) by reflexivity.
  assert (H2 : Quota task <> 0) by discriminate.
  assert (H3 : IncreaseUserQuota e 7 100 = true) by reflexivity.
  destruct (C4_failure_refunds_current_quota Sample.cfg e "cgt-1" task taskResult ∅ H1)
    as (_ & _ & _ & _ & _ & HQ & Hpos & _).
  fold r in HQ, Hpos. destruct (Hpos H2) as [Hf Hc].
  split; [auto|]. split; [exact HQ|]. split; [exact (Hc H3)|exact Hf].
Defined.

(** Settling reserved 50 against 80 tokens twice: the second run is quiet. *)
Lemma C5_witness_second_run :
  let e := Sample.env 1 1 1 true true "body" in
  let task := Sample.task 50 in
  let taskResult := Sample.result TaskStatusSuccess 80 in
  let r1 := apply_result Sample.cfg e "cgt-1" task taskResult ∅ in
  let r2 := apply_result Sample.cfg e "cgt-1" (out_task r1) taskResult (out_store r1) in
  (ti_Status taskResult = TaskStatusSuccess /\ 0 < ti_TotalTokens taskResult /\
   Int64.in_range (Quota task) /\ same_rates e e) /\
  quotaDelta Sample.cfg e (out_task r1) taskResult = 0 /\
  List.filter is_ledger_event (out_events r2) = [] /\
  Quota (out_task r2) = Quota (out_task r1).
Proof.
  intros e task taskResult r1 r2.
  assert (H1 : ti_Status taskResult = TaskStatusSuccess) by reflexivity.
  assert (H2 : 0 < ti_TotalTokens taskResult) by reflexivity.
  assert (H3 : Int64.in_range (Quota task)) by (vm_compute; split; discriminate).
  assert (H4 : same_rates e e) by (repeat split; reflexivity).
  destruct (C5_settlement_idempotent Sample.cfg e e "cgt-1" task taskResult ∅ H1 H2 H3 H4)
    as (_ & Hz & Hl & _ & HQ).
  split; [auto|]. split; [exact Hz|]. split; [exact Hl|exact HQ].
Defined.

(** An Unknown result, and a batch of two tasks whose results are Unknown:
    the second task is fetched all the same. *)
Lemma C6_witness_unknown_batch :
  let e := Sample.env 1 1 1 true true "body" in
  let unknown := Sample.result TaskStatusUnknown 0 in
  let r := apply_result Sample.cfg e "cgt-1" (Sample.task 100) unknown ∅ in
  let b := Sample.batch (Some Sample.channel) unknown in
  let w := {| taskM := <["cgt-2" := Sample.task 100]> {["cgt-1" := Sample.task 100]};
              store := ∅ |} in
  (ti_Status unknown = TaskStatusUnknown \/ ~ In (ti_Status unknown) six_states) /\
  (out_err r <> None /\ out_events r = [] /\ out_store r = ∅) /\
  (CacheGetChannel b 3 = Some Sample.channel /\
   GetTaskAdaptor b "volcvideo" = Some (Sample.fixed_adaptor unknown) /\
   In "cgt-2" ["cgt-1"; "cgt-2"] /\ is_Some (taskM w !! "cgt-2")) /\
  let '(_, evs, err) :=
    updateVideoTaskAll Sample.cfg b "volcvideo" 3 ["cgt-1"; "cgt-2"] w in
  err = None /\
  exists baseURL key action, In (EvFetchTask baseURL key "cgt-2" action) evs.
Proof.
  intros e unknown r b w.
  assert (H1 : ti_Status unknown = TaskStatusUnknown \/
               ~ In (ti_Status unknown) six_states) by (left; reflexivity).
  assert (H2 : CacheGetChannel b 3 = Some Sample.channel) by reflexivity.
  assert (H3 : GetTaskAdaptor b "volcvideo" = Some (Sample.fixed_adaptor unknown))
    by reflexivity.
  assert (H4 : In "cgt-2" ["cgt-1"; "cgt-2"]) by (right; left; reflexivity).
  assert (H5 : is_Some (taskM w !! "cgt-2")).
  { exists (Sample.task 100). apply lookup_insert_eq. }
  destruct (C6_unknown_is_error_and_batch_continues Sample.cfg) as [HA HB].
  destruct (HA e "cgt-1" (Sample.task 100) unknown ∅ H1) as (A1 & A2 & A3 & _).
  specialize (HB b "volcvideo" 3 Sample.channel (Sample.fixed_adaptor unknown)
                ["cgt-1"; "cgt-2"] w H2 H3).
  split; [exact H1|]. split; [auto|]. split; [auto|].
  destruct (updateVideoTaskAll Sample.cfg b "volcvideo" 3 ["cgt-1"; "cgt-2"] w)
    as [[w' evs] err].
  destruct HB as [E1 E2]. split; [exact E1|]. exact (E2 "cgt-2" H4 H5).
Defined.

(** A vendor status "Running" ends as progress 60% in the store. *)
Lemma C7_witness_running :
  let e := Sample.env 1 1 1 true true "Running" in
  let task := Sample.task 100 in
  let fr := Sample.payload "Running" "" in
  let taskResult := VolcVideo.parse_fetch (fun s => s) Sample.marshal fr in
  let r := apply_result Sample.cfg e "cgt-1" task taskResult ∅ in
  let w := {| taskM := {["cgt-1" := task]}; store := {["cgt-1" := task]} |} in
  (VolcVideo.fr_ErrorCode fr = "" /\
   VolcVideo.lower_bytes (VolcVideo.fr_Status fr) = "running" /\
   Update e (out_task r) = true) /\
  (out_err r = None /\ ti_Progress taskResult <> "") /\
  Status (out_task r) = TaskStatusInProgress /\
  Progress (out_task r) = "60%" /\
  out_store r !! "cgt-1" = Some (out_task r) /\
  Progress (out_task r) = ti_Progress taskResult /\
  (taskM w !! "cgt-1" = Some task /\
   decode_envelope Sample.cfg "Running" = None /\
   Sample.unmarshal "Running" = Some fr) /\
  let '(w', _, err) :=
    updateVideoSingleTask Sample.cfg
      (adaptor := volcvideo_adaptor (fun s => s) Sample.unmarshal Sample.marshal)
      e Sample.channel "cgt-1" w in
  err = None /\
  exists t', store w' !! "cgt-1" = Some t' /\ Progress t' = "60%".
Proof.
  intros e task fr taskResult r w.
  assert (H1 : VolcVideo.fr_ErrorCode fr = "") by reflexivity.
  assert (H2 : VolcVideo.lower_bytes (VolcVideo.fr_Status fr) = "running")
    by reflexivity.
  assert (H3 : Update e (out_task r) = true) by reflexivity.
  assert (H5 : taskM w !! "cgt-1" = Some task) by apply lookup_singleton_eq.
  assert (H6 : decode_envelope Sample.cfg "Running" = None) by reflexivity.
  assert (H7 : Sample.unmarshal "Running" = Some fr) by reflexivity.
  destruct (C7_explicit_progress_wins Sample.cfg e "cgt-1" task ∅) as (G1 & G2 & G3).
  destruct (G2 (fun s => s) Sample.marshal fr H1 H2)
    as (_ & S2 & Hr & Hs & Hp & _ & Hst).
  fold taskResult in S2, Hr, Hs, Hp, Hst. fold r in Hr, Hs, Hp, Hst.
  assert (H4 : ti_Progress taskResult <> "") by (rewrite S2; discriminate).
  destruct (G1 taskResult Hr H4) as (P1 & _ & _). fold r in P1.
  specialize (G3 (fun s => s) Sample.unmarshal Sample.marshal Sample.channel w
                "Running" fr H5 (fun _ _ _ => eq_refl) H6 H7 H1 H2 (fun _ => eq_refl)).
  split; [auto|]. split; [auto|]. split; [exact Hs|]. split; [exact Hp|].
  split; [exact (Hst H3)|]. split; [exact P1|]. split; [auto|].
  destruct (updateVideoSingleTask Sample.cfg
              (adaptor := volcvideo_adaptor (fun s => s) Sample.unmarshal Sample.marshal)
              e Sample.channel "cgt-1" w) as [[w' evs] err].
  destruct G3 as (E1 & t' & T1 & _ & _ & T4).
  split; [exact E1|]. exists t'. auto.
Defined.

(** A task polled as in progress, then hit by a channel failure, then
    reported succeeded, then reported failed. *)
Lemma C8_witness_four_passes :
  let ps :=
    [Sample.pass (Some Sample.channel) (Sample.result TaskStatusInProgress 0);
     Sample.pass None (Sample.result TaskStatusInProgress 0);
     Sample.pass (Some Sample.channel) (Sample.result TaskStatusSuccess 0);
     Sample.pass (Some Sample.channel) (Sample.result TaskStatusFailure 0)] in
  let h := history Sample.cfg (Sample.task 100) ps in
  Forall clock_set ps /\
  (length (List.filter finish_changed h) <= 1)%nat /\
  (length (List.filter start_changed h) <= 1)%nat /\
  (forall x, In x h ->
     FinishTime (record_before x) <> 0 ->
     FinishTime (record_after x) = FinishTime (record_before x)).
Proof.
  intros ps h.
  assert (Hc : Forall clock_set ps).
  { repeat constructor; intros i; discriminate. }
  destruct (C8_timestamps_assigned_once Sample.cfg (Sample.task 100) ps Hc)
    as (F1 & F2 & _ & _ & F5 & _).
  fold h in F1, F2, F5.
  split; [exact Hc|]. split; [exact F1|]. split; [exact F2|].
  intros x Hin. exact (proj1 (F5 x Hin)).
Defined.

(** A batch of one stored task whose channel cannot be resolved. *)
Lemma C9_witness_channel_down :
  let b := Sample.batch None (Sample.result TaskStatusSuccess 0) in
  let w := {| taskM := {["cgt-1" := Sample.task 100]};
              store := {["cgt-1" := Sample.task 100]} |} in
  (["cgt-1"] <> [] /\ CacheGetChannel b 3 = None /\ TaskBulkUpdate_ok b = true /\
   In "cgt-1" ["cgt-1"] /\ store w !! "cgt-1" = Some (Sample.task 100)) /\
  let '(w', evs, err) := updateVideoTaskAll Sample.cfg b "volcvideo" 3 ["cgt-1"] w in
  err = Some ErrCacheGetChannel /\
  List.filter is_ledger_event evs = [] /\
  exists t',
    store w' !! "cgt-1" = Some t' /\ Status t' = "FAILURE" /\ Progress t' = "100%" /\
    FinishTime t' = 0 /\ Quota t' = 100.
Proof.
  intros b w.
  assert (H1 : ["cgt-1"] <> ([] : list string)) by discriminate.
  assert (H2 : CacheGetChannel b 3 = None) by reflexivity.
  assert (H3 : TaskBulkUpdate_ok b = true) by reflexivity.
  assert (H4 : In "cgt-1" ["cgt-1"]) by (left; reflexivity).
  assert (H5 : store w !! "cgt-1" = Some (Sample.task 100))
    by apply lookup_singleton_eq.
  pose proof (C9_channel_failure_touches_three_fields Sample.cfg b "volcvideo" 3
                ["cgt-1"] w H1 H2 H3) as H.
  split; [auto 10|].
  destruct (updateVideoTaskAll Sample.cfg b "volcvideo" 3 ["cgt-1"] w)
    as [[w' evs] err].
  destruct H as (E1 & _ & E3 & _ & _ & _ & E7 & _).
  split; [exact E1|]. split; [exact E3|].
  destruct (E7 "cgt-1" (Sample.task 100) H4 H5)
    as (t' & L & S1 & S2 & _ & S4 & _ & S6 & _).
  exists t'. auto.
Defined.

(** Reserved 50 against 80 tokens with a ledger that refuses the debit, then
    a second run with a working ledger. *)
Lemma C10_witness_refused_debit :
  let e1 := Sample.env 1 1 1 false true "body" in
  let e2 := Sample.env 1 1 1 true true "body" in
  let task := Sample.task 50 in
  let taskResult := Sample.result TaskStatusSuccess 80 in
  let r1 := apply_result Sample.cfg e1 "cgt-1" task taskResult ∅ in
  let r2 := apply_result Sample.cfg e2 "cgt-1" (out_task r1) taskResult (out_store r1) in
  (ti_Status taskResult = TaskStatusSuccess /\ 0 < ti_TotalTokens taskResult /\
   Int64.in_range (Quota task) /\ 0 < quotaDelta Sample.cfg e1 task taskResult /\
   DecreaseUserQuota e1 (UserId task) (quotaDelta Sample.cfg e1 task taskResult) = false /\
   same_rates e1 e2) /\
  Quota (out_task r1) = 80 /\
  charged 7 (out_events r1) = 0 /\
  List.filter is_ledger_event (out_events r2) = [] /\
  charged 7 (out_events r2) = 0.
Proof.
  intros e1 e2 task taskResult r1 r2.
  assert (H1 : ti_Status taskResult = TaskStatusSuccess) by reflexivity.
  assert (H2 : 0 < ti_TotalTokens taskResult) by reflexivity.
  assert (H3 : Int64.in_range (Quota task)) by (vm_compute; split; discriminate).
  assert (H4 : 0 < quotaDelta Sample.cfg e1 task taskResult) by (vm_compute; reflexivity).
  assert (H5 : DecreaseUserQuota e1 (UserId task)
                 (quotaDelta Sample.cfg e1 task taskResult) = false) by reflexivity.
  assert (H6 : same_rates e1 e2) by (repeat split; reflexivity).
  assert (Ha : actualQuota Sample.cfg e1 task taskResult = 80) by (vm_compute; reflexivity).
  destruct (C10_failed_debit_still_rewrites_quota Sample.cfg e1 e2 "cgt-1" task
              taskResult ∅ H1 H2 H3 H4 H5 H6)
    as (HQ & _ & _ & Hc1 & _ & _ & Hl & Hc2).
  fold r1 in HQ, Hc1, Hl, Hc2. fold r2 in Hl, Hc2. rewrite Ha in HQ.
  split; [auto 10|]. split; [exact HQ|]. split; [exact Hc1|]. split; [exact Hl|exact Hc2].
Defined.

(** * Further properties of the reconciler *)

Section PassFacts.
Variable cfg : Static.

Lemma apply_result_error_task (e : Env) (taskId : string) (task : Task)
    (taskResult : TaskInfo) (st : gmap string Task) (err : Err) :
  out_err (apply_result cfg e taskId task taskResult st) = Some err ->
  out_task (apply_result cfg e taskId task taskResult st) = task \/
  out_task (apply_result cfg e taskId task taskResult st)
    = set_Status (ti_Status taskResult) task.
Proof.
  unfold apply_result.
  destruct (is_empty (ti_Status taskResult)); [simpl; auto|].
  destruct (transition cfg e _ taskResult) as [[task1 evs]|]; [|simpl; auto].
  destruct (persist e task1 taskResult st) as [[task2 st'] evs']. discriminate.
Qed.

Lemma settle_no_usage_fields (e : Env) (task : Task) (taskResult : TaskInfo) :
  TaskID (fst (settle cfg e task taskResult)) = TaskID task /\
  Data (fst (settle cfg e task taskResult)) = Data task /\
  UserId (fst (settle cfg e task taskResult)) = UserId task.
Proof.
  destruct (settle_frame cfg e task taskResult) as [q ->]. simpl. auto.
Qed.

(** What every case of the switch keeps, and what it keeps when the result
    reports no usage. *)
Lemma transition_fields (e : Env) (task task1 : Task) (taskResult : TaskInfo)
    (evs : list Event) :
  transition cfg e task taskResult = Some (task1, evs) ->
  TaskID task1 = TaskID task /\ Data task1 = Data task /\
  UserId task1 = UserId task /\
  (ti_TotalTokens taskResult <= 0 ->
   Quota task1 = Quota task /\ List.filter is_debit_event evs = []).
Proof.
  unfold transition.
  destruct (String.eqb (ti_Status taskResult) TaskStatusSubmitted).
  { intros H. inversion H; subst. simpl. auto. }
  destruct (String.eqb (ti_Status taskResult) TaskStatusQueued).
  { intros H. inversion H; subst. simpl. auto. }
  destruct (String.eqb (ti_Status taskResult) TaskStatusInProgress).
  { intros H. inversion H; subst. destruct (StartTime _ =? 0); simpl; auto. }
  destruct (String.eqb (ti_Status taskResult) TaskStatusSuccess).
  { intros H. inversion H as [Hs]. clear H.
    unfold on_success in Hs. fold (success_prep e task taskResult) in Hs.
    assert (Hp : TaskID (success_prep e task taskResult) = TaskID task /\
                 Data (success_prep e task taskResult) = Data task /\
                 UserId (success_prep e task taskResult) = UserId task /\
                 Quota (success_prep e task taskResult) = Quota task).
    { unfold success_prep. simpl. destruct (FinishTime task =? 0); simpl; auto. }
    destruct Hp as (P1 & P2 & P3 & P4).
    destruct (0 <? ti_TotalTokens taskResult) eqn:Ht.
    - destruct (settle_no_usage_fields e (success_prep e task taskResult) taskResult)
        as (F1 & F2 & F3).
      rewrite Hs in F1, F2, F3. simpl in F1, F2, F3.
      rewrite F1, F2, F3. repeat split; try assumption;
        apply Z.ltb_lt in Ht; lia.
    - inversion Hs; subst. repeat split; assumption || reflexivity. }
  destruct (String.eqb (ti_Status taskResult) TaskStatusFailure); [|discriminate].
  intros H. inversion H; subst. clear H. simpl.
  repeat split; try (destruct (FinishTime task =? 0); reflexivity).
  repeat match goal with
  | |- context [if ?b then _ else _] => destruct b
  end; reflexivity.
Qed.

(** The fields no pass writes, and the fields a pass without usage keeps. *)
Lemma apply_result_fields (e : Env) (taskId : string) (task : Task)
    (taskResult : TaskInfo) (st : gmap string Task) :
  let r := apply_result cfg e taskId task taskResult st in
  TaskID (out_task r) = TaskID task /\
  Data (out_task r) = Data task /\
  UserId (out_task r) = UserId task /\
  (ti_TotalTokens taskResult <= 0 ->
   Quota (out_task r) = Quota task /\
   List.filter is_debit_event (out_events r) = []).
Proof.
  intros r. subst r.
  destruct (out_err (apply_result cfg e taskId task taskResult st)) as [err|] eqn:Herr.
  - destruct (apply_result_error_task e taskId task taskResult st err Herr) as [-> | ->];
      destruct (apply_result_error cfg e taskId task taskResult st err Herr) as [-> _];
      simpl; auto.
  - destruct (apply_result_shape cfg e taskId task taskResult st Herr)
      as (task1 & evs & _ & Htr & Heq).
    rewrite Heq. cbn [out_task out_events].
    destruct (transition_fields e _ task1 taskResult evs Htr) as (F1 & F2 & F3 & F4).
    simpl in F1, F2, F3, F4.
    assert (G : forall t2, t2 = (if is_empty (ti_Progress taskResult) then task1
                                 else set_Progress (ti_Progress taskResult) task1) ->
                TaskID t2 = TaskID task1 /\ Data t2 = Data task1 /\
                UserId t2 = UserId task1 /\ Quota t2 = Quota task1).
    { intros t2 ->. destruct (is_empty (ti_Progress taskResult)); simpl; auto. }
    destruct (G _ eq_refl) as (G1 & G2 & G3 & G4).
    rewrite G1, G2, G3, G4. repeat split; try assumption.
    + apply F4. assumption.
    + rewrite List.filter_app. destruct (F4 H) as [_ ->]. simpl.
      destruct (Update e _); reflexivity.
Qed.

(** X1: whenever [updateVideoSingleTask] returns an error, the store is as it
    was, no record was written and no ledger call was made; the tasks in
    memory keep their quota, timestamps and progress (only the status and the
    payload of the polled task may have been overwritten). *)
Theorem X1_error_leaves_store_and_ledger {adaptor : TaskAdaptor} (e : Env)
    (channel : Channel) (taskId : string) (w : World) :
  let '(w', evs, err) := updateVideoSingleTask cfg e channel taskId w in
  err <> None ->
  store w' = store w /\
  List.filter is_ledger_event evs = [] /\
  List.filter is_task_update evs = [] /\
  forall k t, taskM w !! k = Some t ->
    exists t', taskM w' !! k = Some t' /\
      Quota t' = Quota t /\ FinishTime t' = FinishTime t /\
      StartTime t' = StartTime t /\ Progress t' = Progress t /\
      TaskID t' = TaskID t.
Proof.
  unfold updateVideoSingleTask.
  assert (Hsame : forall k t, taskM w !! k = Some t ->
            exists t', taskM w !! k = Some t' /\
              Quota t' = Quota t /\ FinishTime t' = FinishTime t /\
              StartTime t' = StartTime t /\ Progress t' = Progress t /\
              TaskID t' = TaskID t).
  { intros k t Hk. exists t. auto 10. }
  destruct (taskM w !! taskId) as [task|] eqn:Hl; [|intros _; auto].
  destruct (FetchTask e _ _ taskId (Action task)); try (intros _; auto).
  destruct (normalize cfg task responseBody) as [[task1 taskResult]|] eqn:Hn;
    [|intros _; auto].
  assert (Hn1 : Quota task1 = Quota task /\ FinishTime task1 = FinishTime task /\
                StartTime task1 = StartTime task /\ Progress task1 = Progress task /\
                TaskID task1 = TaskID task).
  { unfold normalize in Hn. destruct (decode_envelope cfg responseBody).
    - inversion Hn; subst. auto.
    - destruct (adaptor_ParseTaskResult responseBody); [|discriminate].
      inversion Hn; subst. simpl. auto. }
  pose proof (apply_result_error cfg e taskId task1 taskResult (store w)) as He.
  pose proof (apply_result_error_task e taskId task1 taskResult (store w)) as Ht.
  destruct (apply_result cfg e taskId task1 taskResult (store w))
    as [[[task2 st'] evs] err].
  simpl in He, Ht. intros Herr.
  destruct err as [err|]; [|congruence].
  destruct (He err eq_refl) as [-> ->]. specialize (Ht err eq_refl).
  cbn [store taskM]. repeat split; try reflexivity.
  intros k t Hk. destruct (decide (taskId = k)) as [<-|Hne].
  - rewrite lookup_insert_eq. exists task2. split; [reflexivity|].
    rewrite Hl in Hk. inversion Hk; subst t.
    destruct Hn1 as (N1 & N2 & N3 & N4 & N5).
    destruct Ht as [-> | ->]; simpl; auto.
  - rewrite lookup_insert_ne by exact Hne. exists t. auto 10.
Qed.

(** X2: a poll of one task touches no other task in memory and no stored
    record other than the polled task's own, keeps the key set of the task
    map, and does nothing at all when the task is not in the map. *)
Theorem X2_single_task_frame {adaptor : TaskAdaptor} (e : Env) (channel : Channel)
    (taskId : string) (w : World) :
  let '(w', evs, err) := updateVideoSingleTask cfg e channel taskId w in
  (forall k, k <> taskId -> taskM w' !! k = taskM w !! k) /\
  dom (taskM w') = dom (taskM w) /\
  (forall task k, taskM w !! taskId = Some task -> k <> TaskID task ->
     store w' !! k = store w !! k) /\
  (forall task t', taskM w !! taskId = Some task -> taskM w' !! taskId = Some t' ->
     TaskID t' = TaskID task /\ UserId t' = UserId task) /\
  (taskM w !! taskId = None ->
   w' = w /\ evs = [EvLogError (MsgTaskNotFound taskId)] /\
   err = Some (ErrTaskNotFound taskId)).
Proof.
  unfold updateVideoSingleTask.
  destruct (taskM w !! taskId) as [task|] eqn:Hl.
  2:{ repeat split; auto; intros; discriminate. }
  assert (Hinj : forall a b : Task, Some a = Some b -> a = b) by congruence.
  destruct (FetchTask e _ _ taskId (Action task)).
  1,2: (repeat split; auto; intros; try discriminate;
        repeat match goal with
        | H : Some _ = Some _ |- _ => apply Hinj in H; subst
        end; congruence).
  destruct (normalize cfg task responseBody) as [[task1 taskResult]|] eqn:Hn.
  2:{ repeat split; auto; intros; try discriminate;
      repeat match goal with
      | H : Some _ = Some _ |- _ => apply Hinj in H; subst
      end; congruence. }
  assert (Hn1 : TaskID task1 = TaskID task /\ UserId task1 = UserId task).
  { unfold normalize in Hn. destruct (decode_envelope cfg responseBody).
    - inversion Hn; subst. auto.
    - destruct (adaptor_ParseTaskResult responseBody); [|discriminate].
      inversion Hn; subst. simpl. auto. }
  destruct Hn1 as [N1 N2].
  destruct (apply_result_fields e taskId task1 taskResult (store w)) as (F1 & _ & F3 & _).
  pose proof (apply_result_error cfg e taskId task1 taskResult (store w)) as He.
  pose proof (apply_result_shape cfg e taskId task1 taskResult (store w)) as Hs.
  destruct (apply_result cfg e taskId task1 taskResult (store w))
    as [[[task2 st'] evs] err] eqn:Har.
  simpl in F1, F3, He, Hs. cbn [taskM store].
  split; [intros k Hk; apply lookup_insert_ne; congruence|].
  split.
  { apply set_eq. intros k. rewrite !elem_of_dom.
    destruct (decide (taskId = k)) as [<-|Hne].
    - rewrite lookup_insert_eq, Hl. split; eauto.
    - now rewrite lookup_insert_ne. }
  split.
  { intros task0 k H0 Hk. inversion H0; subst task0.
    destruct err as [err|].
    - destruct (He err eq_refl) as [_ ->]. reflexivity.
    - destruct (Hs eq_refl) as (t1 & evs1 & _ & _ & Heq).
      inversion Heq; subst. unfold task_Update.
      destruct (Update e _); [|reflexivity].
      apply lookup_insert_ne. rewrite F1, N1. congruence. }
  split.
  { intros task0 t' H0 H1. inversion H0; subst task0.
    rewrite lookup_insert_eq in H1. inversion H1; subst t'.
    rewrite F1, F3, N1, N2. auto. }
  intros H; discriminate.
Qed.

Lemma debit_filter_through (evs : list Event) :
  List.filter is_debit_event evs =
    List.filter is_debit_event (List.filter is_ledger_event evs).
Proof.
  induction evs as [|ev evs IH]; [reflexivity|].
  destruct ev; simpl; rewrite <- ?IH; reflexivity.
Qed.

Lemma settle_refund_events (e : Env) (task : Task) (taskResult : TaskInfo) :
  let delta := quotaDelta cfg e task taskResult in
  let u := UserId task in
  let evs := snd (settle cfg e task taskResult) in
  delta < 0 -> IncreaseUserQuota e u (Int64.neg delta) = true ->
  List.filter is_ledger_event evs =
    [EvIncreaseUserQuota u (Int64.neg delta) true;
     EvRecordLog u LogTypeSystem
       (ContentTokenRefund (TaskID task) (Int64.neg delta)
          (ti_TotalTokens taskResult) (modelName cfg task taskResult))] /\
  charged u evs = - Int64.neg delta.
Proof.
  intros delta u evs Hd Hok. subst evs. unfold settle. fold delta. fold u.
  set (evs_name := if is_empty (modelName_of cfg task taskResult) then _ else _).
  assert (Hn : List.filter is_ledger_event evs_name = [] /\ charged u evs_name = 0).
  { subst evs_name. destruct (is_empty _); simpl; auto. }
  destruct Hn as [Hn1 Hn2].
  assert (E1 : (delta =? 0) = false) by (apply Z.eqb_neq; lia).
  assert (E2 : (0 <? delta) = false) by (apply Z.ltb_ge; lia).
  rewrite E1, E2, Hok. simpl.
  rewrite ledger_filter_app, charged_app, Hn1, Hn2. simpl.
  rewrite Z.eqb_refl. split; [reflexivity|lia].
Qed.

Lemma neg_exact (z : Z) : Int64.min_int < z -> Int64.in_range z -> Int64.neg z = - z.
Proof.
  intros Hm Hr. unfold Int64.neg. apply wrap64_id.
  unfold Int64.in_range, Int64.min_int, Int64.max_int in *. lia.
Qed.

(** With a ledger that accepts every call and no 64-bit overflow, what a
    settlement charges is the change of the stored quota. *)
Lemma settlement_charge (e : Env) (taskId : string) (task : Task)
    (taskResult : TaskInfo) (st : gmap string Task) :
  ti_Status taskResult = TaskStatusSuccess ->
  0 < ti_TotalTokens taskResult ->
  Int64.in_range (Quota task) ->
  ledger_accepts e ->
  let a := actualQuota cfg e task taskResult in
  Int64.in_range (a - Quota task) -> Int64.min_int < a - Quota task ->
  let r := apply_result cfg e taskId task taskResult st in
  Quota (out_task r) = a /\
  UserId (out_task r) = UserId task /\
  charged (UserId task) (out_events r) = a - Quota task.
Proof.
  intros Hs Ht Hq [Hdec Hinc] a Hr Hm r.
  destruct (apply_result_success cfg e taskId task taskResult st Hs Ht)
    as (_ & HQ & _ & Hu & _ & _ & _ & Hc).
  fold r in HQ, Hu, Hc.
  split; [exact (HQ Hq)|]. split; [exact Hu|]. rewrite Hc.
  set (prep := success_prep e (set_Status TaskStatusSuccess task) taskResult).
  assert (Hb : same_billing task prep).
  { eapply same_billing_trans; [apply status_billing|apply success_prep_billing]. }
  assert (Hqp : Quota prep = Quota task).
  { unfold prep. now rewrite success_prep_quota. }
  assert (Hup : UserId prep = UserId task).
  { unfold prep. now rewrite success_prep_user. }
  assert (Hdp : quotaDelta cfg e prep taskResult = a - Quota task).
  { rewrite (quotaDelta_same cfg e e task prep taskResult Hb (same_rates_refl e) Hqp).
    unfold quotaDelta, Int64.sub. now apply wrap64_id. }
  destruct (settle_events cfg e prep taskResult) as (Hz & Hpos & _).
  pose proof (settle_refund_events e prep taskResult) as Hneg.
  cbv zeta in Hneg. rewrite Hdp, Hup in *.
  destruct (Z.lt_trichotomy (a - Quota task) 0) as [Hlt|[Heq|Hgt]].
  - destruct (Hneg Hlt (Hinc _ _)) as [_ ->]. rewrite neg_exact by assumption. lia.
  - destruct (Hz Heq) as [_ ->]. lia.
  - destruct (Hpos Hgt (Hdec _ _)) as [_ ->]. reflexivity.
Qed.

(** What a Failure result credits when the credit call succeeds. *)
Lemma failure_charge (e : Env) (taskId : string) (task : Task)
    (taskResult : TaskInfo) (st : gmap string Task) :
  ti_Status taskResult = TaskStatusFailure ->
  IncreaseUserQuota e (UserId task) (Quota task) = true ->
  let r := apply_result cfg e taskId task taskResult st in
  out_err r = None /\
  Quota (out_task r) = Quota task /\
  UserId (out_task r) = UserId task /\
  charged (UserId task) (out_events r) = - Quota task.
Proof.
  intros Hs Hok r. subst r.
  rewrite apply_result_unfold by (rewrite Hs; discriminate).
  rewrite transition_failure by exact Hs.
  unfold on_failure, persist. simpl.
  split; [reflexivity|].
  split; [destruct (is_empty (ti_Progress taskResult)); simpl;
          destruct (FinishTime task =? 0); reflexivity|].
  split; [destruct (is_empty (ti_Progress taskResult)); simpl;
          destruct (FinishTime task =? 0); reflexivity|].
  destruct (FinishTime task =? 0); simpl;
    (destruct (Quota task =? 0) eqn:Eq; simpl;
     [apply Z.eqb_eq in Eq;
      match goal with |- context [Update e ?t] => destruct (Update e t) end;
      simpl; lia
     |rewrite Hok; simpl; rewrite Z.eqb_refl;
      match goal with |- context [Update e ?t] => destruct (Update e t) end;
      simpl; lia]).
Qed.

Lemma success_no_usage_quiet (e : Env) (taskId : string) (task : Task)
    (taskResult : TaskInfo) (st : gmap string Task) :
  ti_Status taskResult = TaskStatusSuccess ->
  ti_TotalTokens taskResult <= 0 ->
  Quota (out_task (apply_result cfg e taskId task taskResult st)) = Quota task /\
  List.filter is_ledger_event (out_events (apply_result cfg e taskId task taskResult st))
    = [].
Proof.
  intros Hs Ht.
  rewrite apply_result_unfold by (rewrite Hs; discriminate).
  rewrite transition_success by exact Hs.
  unfold on_success.
  assert (E : (0 <? ti_TotalTokens taskResult) = false) by (apply Z.ltb_ge; lia).
  rewrite E. unfold persist. simpl.
  destruct (is_empty (ti_Progress taskResult)); simpl;
    destruct (FinishTime task =? 0); simpl;
    match goal with |- context [Update e ?t] => destruct (Update e t) end;
    simpl; auto.
Qed.

(** X3: a Success result whose usage is not positive makes no ledger call at
    all; the record keeps its quota and payload, takes status SUCCESS and the
    finish time if unset, and its fail-reason slot is overwritten with the
    result URL. *)
Theorem X3_success_without_usage (e : Env) (taskId : string) (task : Task)
    (taskResult : TaskInfo) (st : gmap string Task) :
  ti_Status taskResult = TaskStatusSuccess ->
  ti_TotalTokens taskResult <= 0 ->
  let r := apply_result cfg e taskId task taskResult st in
  out_err r = None /\
  List.filter is_ledger_event (out_events r) = [] /\
  out_task r =
    (let t := success_prep e (set_Status TaskStatusSuccess task) taskResult in
     if is_empty (ti_Progress taskResult) then t
     else set_Progress (ti_Progress taskResult) t) /\
  Quota (out_task r) = Quota task /\
  FailReason (out_task r) = ti_Url taskResult /\
  FinishTime (out_task r) = (if FinishTime task =? 0 then now e else FinishTime task).
Proof.
  intros Hs Ht r. subst r.
  rewrite apply_result_unfold by (rewrite Hs; discriminate).
  rewrite transition_success by exact Hs.
  unfold on_success. fold (success_prep e (set_Status (ti_Status taskResult) task) taskResult).
  assert (E : (0 <? ti_TotalTokens taskResult) = false) by (apply Z.ltb_ge; lia).
  rewrite E, Hs. unfold persist, success_prep. simpl.
  destruct (is_empty (ti_Progress taskResult)); simpl;
    destruct (FinishTime task =? 0); simpl;
    match goal with |- context [Update e ?t] => destruct (Update e t) end;
    simpl; auto 10.
Qed.

(** X4: a settlement whose actual quota is below the reserved quota credits
    the user the difference by one call, writes one system log entry and no
    consumption entry, updates no usage counter, and lowers the stored quota
    to the actual quota. *)
Theorem X4_refund_settlement (e : Env) (taskId : string) (task : Task)
    (taskResult : TaskInfo) (st : gmap string Task) :
  ti_Status taskResult = TaskStatusSuccess ->
  0 < ti_TotalTokens taskResult ->
  Int64.in_range (Quota task) ->
  let a := actualQuota cfg e task taskResult in
  let u := UserId task in
  Int64.in_range (a - Quota task) -> Int64.min_int < a - Quota task ->
  a < Quota task ->
  IncreaseUserQuota e u (Quota task - a) = true ->
  let r := apply_result cfg e taskId task taskResult st in
  Quota (out_task r) = a /\
  charged u (out_events r) = - (Quota task - a) /\
  List.filter is_debit_event (out_events r) = [] /\
  List.filter is_ledger_event (out_events r) =
    [EvIncreaseUserQuota u (Quota task - a) true;
     EvRecordLog u LogTypeSystem
       (ContentTokenRefund (TaskID task) (Quota task - a)
          (ti_TotalTokens taskResult) (modelName cfg task taskResult))].
Proof.
  intros Hs Ht Hq a u Hr Hm Hlt Hok r.
  destruct (apply_result_success cfg e taskId task taskResult st Hs Ht)
    as (_ & HQ & _ & _ & _ & _ & Hf & Hc).
  fold r in HQ, Hf, Hc.
  set (prep := success_prep e (set_Status TaskStatusSuccess task) taskResult) in *.
  assert (Hb : same_billing task prep).
  { eapply same_billing_trans; [apply status_billing|apply success_prep_billing]. }
  assert (Hqp : Quota prep = Quota task).
  { unfold prep. now rewrite success_prep_quota. }
  assert (Hup : UserId prep = u).
  { unfold prep. now rewrite success_prep_user. }
  assert (Hid : TaskID prep = TaskID task).
  { unfold prep, success_prep. simpl. now destruct (FinishTime task =? 0). }
  assert (Hdp : quotaDelta cfg e prep taskResult = a - Quota task).
  { rewrite (quotaDelta_same cfg e e task prep taskResult Hb (same_rates_refl e) Hqp).
    unfold quotaDelta, Int64.sub. now apply wrap64_id. }
  assert (Hn : Int64.neg (a - Quota task) = Quota task - a).
  { rewrite neg_exact by assumption. lia. }
  pose proof (settle_refund_events e prep taskResult) as Hneg.
  cbv zeta in Hneg. rewrite Hdp, Hup, Hid, Hn in Hneg.
  rewrite <- (modelName_same cfg task prep taskResult Hb) in Hneg.
  destruct (Hneg ltac:(lia) Hok) as [Hl Hch].
  split; [exact (HQ Hq)|]. split; [now rewrite Hc|].
  split.
  - rewrite debit_filter_through, Hf, Hl. reflexivity.
  - now rewrite Hf.
Qed.

(** A result that is neither Success nor Failure makes no ledger call and
    keeps the quota. *)
Lemma quiet_statuses (e : Env) (taskId : string) (task : Task)
    (taskResult : TaskInfo) (st : gmap string Task) :
  ti_Status taskResult <> TaskStatusSuccess ->
  ti_Status taskResult <> TaskStatusFailure ->
  let r := apply_result cfg e taskId task taskResult st in
  Quota (out_task r) = Quota task /\
  List.filter is_ledger_event (out_events r) = [].
Proof.
  intros H1 H2 r. subst r.
  destruct (out_err (apply_result cfg e taskId task taskResult st)) as [err|] eqn:Herr.
  - destruct (apply_result_error_task e taskId task taskResult st err Herr) as [-> | ->];
      destruct (apply_result_error cfg e taskId task taskResult st err Herr) as [-> _];
      simpl; auto.
  - destruct (apply_result_shape cfg e taskId task taskResult st Herr)
      as (task1 & evs & _ & Htr & Heq).
    rewrite Heq. cbn [out_task out_events].
    apply String.eqb_neq in H1, H2. unfold transition in Htr.
    rewrite H1, H2 in Htr.
    assert (Q : Quota task1 = Quota task /\ evs = []).
    { destruct (String.eqb (ti_Status taskResult) TaskStatusSubmitted).
      { inversion Htr; subst; simpl; auto. }
      destruct (String.eqb (ti_Status taskResult) TaskStatusQueued).
      { inversion Htr; subst; simpl; auto. }
      destruct (String.eqb (ti_Status taskResult) TaskStatusInProgress); [|discriminate].
      inversion Htr; subst. destruct (StartTime _ =? 0); simpl; auto. }
    destruct Q as [Q1 ->]. simpl.
    split; [destruct (is_empty (ti_Progress taskResult)); simpl; exact Q1|].
    destruct (Update e _); reflexivity.
Qed.

(** X5: on every result other than Failure, with a ledger that accepts every
    call and no 64-bit overflow in actual minus reserved, what the pass
    charges the user is exactly the change of the record's quota (both zero
    unless the result is a Success with usage and a quota that differs). *)
Theorem X5_charge_equals_quota_change (e : Env) (taskId : string) (task : Task)
    (taskResult : TaskInfo) (st : gmap string Task) :
  ti_Status taskResult <> TaskStatusFailure ->
  Int64.in_range (Quota task) ->
  ledger_accepts e ->
  Int64.in_range (actualQuota cfg e task taskResult - Quota task) ->
  Int64.min_int < actualQuota cfg e task taskResult - Quota task ->
  let r := apply_result cfg e taskId task taskResult st in
  charged (UserId task) (out_events r) = Quota (out_task r) - Quota task.
Proof.
  intros Hf Hq Hl Hr Hm r.
  destruct (String.eqb (ti_Status taskResult) TaskStatusSuccess) eqn:Es.
  - apply String.eqb_eq in Es.
    destruct (Z.lt_ge_cases 0 (ti_TotalTokens taskResult)) as [Ht|Ht].
    + destruct (settlement_charge e taskId task taskResult st Es Ht Hq Hl Hr Hm)
        as (HQ & _ & Hc).
      fold r in HQ, Hc. rewrite HQ, Hc. reflexivity.
    + destruct (success_no_usage_quiet e taskId task taskResult st Es Ht) as [HQ Hl0].
      fold r in Hl0, HQ. rewrite HQ, (charged_no_ledger _ _ Hl0). lia.
  - apply String.eqb_neq in Es.
    destruct (quiet_statuses e taskId task taskResult st Es Hf) as [HQ Hl0].
    fold r in HQ, Hl0. rewrite HQ, (charged_no_ledger _ _ Hl0). lia.
Qed.

(** X6: a settlement followed by a Failure result on the settled record
    returns to the user exactly the quota reserved at submission: the
    supplement or refund of the settlement and the refund of the rewritten
    quota add up to minus the original reservation. *)
Theorem X6_success_then_failure_refunds_reservation (e1 e2 : Env) (taskId : string)
    (task : Task) (success failure : TaskInfo) (st : gmap string Task) :
  ti_Status success = TaskStatusSuccess ->
  0 < ti_TotalTokens success ->
  ti_Status failure = TaskStatusFailure ->
  Int64.in_range (Quota task) ->
  ledger_accepts e1 -> ledger_accepts e2 ->
  Int64.in_range (actualQuota cfg e1 task success - Quota task) ->
  Int64.min_int < actualQuota cfg e1 task success - Quota task ->
  let r1 := apply_result cfg e1 taskId task success st in
  let r2 := apply_result cfg e2 taskId (out_task r1) failure (out_store r1) in
  charged (UserId task) (out_events r1 ++ out_events r2) = - Quota task /\
  Quota (out_task r2) = actualQuota cfg e1 task success.
Proof.
  intros Hs Ht Hf Hq Hl1 Hl2 Hr Hm r1 r2.
  destruct (settlement_charge e1 taskId task success st Hs Ht Hq Hl1 Hr Hm)
    as (HQ & Hu & Hc).
  fold r1 in HQ, Hu, Hc.
  destruct (failure_charge e2 taskId (out_task r1) failure (out_store r1) Hf)
    as (_ & HQ2 & _ & Hc2).
  { apply Hl2. }
  fold r2 in HQ2, Hc2. rewrite Hu, HQ in Hc2.
  rewrite charged_app, Hc, Hc2. split; [lia|]. now rewrite HQ2.
Qed.

(** X7: the Failure transition is not idempotent: the quota stays on the
    record, so a second Failure result on it credits the user the same
    amount again. *)
Theorem X7_failure_twice_refunds_twice (e1 e2 : Env) (taskId : string) (task : Task)
    (f1 f2 : TaskInfo) (st : gmap string Task) :
  ti_Status f1 = TaskStatusFailure ->
  ti_Status f2 = TaskStatusFailure ->
  IncreaseUserQuota e1 (UserId task) (Quota task) = true ->
  IncreaseUserQuota e2 (UserId task) (Quota task) = true ->
  let r1 := apply_result cfg e1 taskId task f1 st in
  let r2 := apply_result cfg e2 taskId (out_task r1) f2 (out_store r1) in
  charged (UserId task) (out_events r1) = - Quota task /\
  charged (UserId task) (out_events r2) = - Quota task /\
  charged (UserId task) (out_events r1 ++ out_events r2) = - (2 * Quota task) /\
  Quota (out_task r2) = Quota task.
Proof.
  intros H1 H2 Hk1 Hk2 r1 r2.
  destruct (failure_charge e1 taskId task f1 st H1 Hk1) as (_ & HQ & Hu & Hc).
  fold r1 in HQ, Hu, Hc.
  destruct (failure_charge e2 taskId (out_task r1) f2 (out_store r1) H2)
    as (_ & HQ2 & _ & Hc2).
  { now rewrite Hu, HQ. }
  fold r2 in HQ2, Hc2. rewrite Hu, HQ in Hc2. rewrite HQ in HQ2.
  rewrite charged_app, Hc, Hc2. repeat split; try assumption; lia.
Qed.

(** X8: when the store write of a supplement settlement fails, the user has
    been charged but the stored record still holds the old quota, so the
    next pass, which starts from the stored record, charges the same
    supplement again. *)
Theorem X8_failed_store_write_charges_again (e1 e2 : Env) (taskId : string)
    (task : Task) (taskResult : TaskInfo) (st : gmap string Task) :
  ti_Status taskResult = TaskStatusSuccess ->
  0 < ti_TotalTokens taskResult ->
  Int64.in_range (Quota task) ->
  ledger_accepts e1 -> ledger_accepts e2 -> same_rates e1 e2 ->
  Int64.in_range (actualQuota cfg e1 task taskResult - Quota task) ->
  0 < actualQuota cfg e1 task taskResult - Quota task ->
  (forall t, Update e1 t = false) ->
  let r1 := apply_result cfg e1 taskId task taskResult st in
  let r2 := apply_result cfg e2 taskId task taskResult (out_store r1) in
  out_err r1 = None /\
  out_store r1 = st /\
  charged (UserId task) (out_events r1) = actualQuota cfg e1 task taskResult - Quota task /\
  charged (UserId task) (out_events r1 ++ out_events r2)
    = 2 * (actualQuota cfg e1 task taskResult - Quota task).
Proof.
  intros Hs Ht Hq Hl1 Hl2 Hrates Hr Hpos Hup r1 r2.
  assert (Hm : Int64.min_int < actualQuota cfg e1 task taskResult - Quota task).
  { unfold Int64.min_int. lia. }
  destruct (settlement_charge e1 taskId task taskResult st Hs Ht Hq Hl1 Hr Hm)
    as (_ & _ & Hc).
  fold r1 in Hc.
  destruct (apply_result_success cfg e1 taskId task taskResult st Hs Ht)
    as (Herr & _ & _ & _ & _ & Hst & _).
  fold r1 in Herr, Hst. rewrite Hup in Hst. unfold task_Update in Hst.
  assert (Ha : actualQuota cfg e2 task taskResult = actualQuota cfg e1 task taskResult).
  { apply actualQuota_same; [unfold same_billing; auto|exact Hrates]. }
  destruct (settlement_charge e2 taskId task taskResult (out_store r1) Hs Ht Hq Hl2)
    as (_ & _ & Hc2).
  { now rewrite Ha. }
  { now rewrite Ha. }
  fold r2 in Hc2. rewrite Ha in Hc2.
  split; [exact Herr|]. split; [exact Hst|]. split; [exact Hc|].
  rewrite charged_app, Hc, Hc2. lia.
Qed.

(** X9: a Submitted or Queued result changes nothing of the record but its
    status and its progress (10% or 20%, or the result's own progress string),
    and makes no call but the store write. *)
Theorem X9_waiting_statuses_frame (e : Env) (taskId : string) (task : Task)
    (taskResult : TaskInfo) (st : gmap string Task) :
  ti_Status taskResult = TaskStatusSubmitted \/ ti_Status taskResult = TaskStatusQueued ->
  let r := apply_result cfg e taskId task taskResult st in
  let default :=
    if String.eqb (ti_Status taskResult) TaskStatusSubmitted then "10%" else "20%" in
  let progress :=
    if is_empty (ti_Progress taskResult) then default else ti_Progress taskResult in
  out_err r = None /\
  out_task r = set_Progress progress (set_Status (ti_Status taskResult) task) /\
  List.filter (fun ev => negb (is_task_update ev)) (out_events r)
    = (if Update e (out_task r) then [] else [EvSysLog MsgUpdateError]) /\
  List.filter is_task_update (out_events r)
    = [EvTaskUpdate (out_task r) (Update e (out_task r))].
Proof.
  intros H r default progress. subst r default progress.
  assert (Hne : ti_Status taskResult <> "") by (destruct H as [-> | ->]; discriminate).
  rewrite apply_result_unfold by exact Hne.
  unfold transition, persist.
  destruct H as [-> | ->]; simpl;
    destruct (is_empty (ti_Progress taskResult)); simpl;
    match goal with |- context [Update e ?t] => destruct (Update e t) end;
    simpl; auto.
Qed.

(** What [ParseTaskResult] never leaves empty, and the usage it reports. *)
Lemma parse_fetch_range (unicode_lower : string -> string)
    (marshal : list (string * VolcVideo.JsonValue) -> option string)
    (fr : VolcVideo.fetchResponse) :
  let res := VolcVideo.parse_fetch unicode_lower marshal fr in
  ti_TotalTokens res = 0 /\ ti_Status res <> "" /\
  In (ti_Progress res) ["0%"; "20%"; "60%"; "100%"].
Proof.
  unfold VolcVideo.parse_fetch.
  repeat match goal with
  | |- context [if ?b then _ else _] => destruct b
  end; simpl; repeat split; try discriminate; auto 10.
Qed.

(** X10: when the response decodes as the gateway's own envelope the adaptor
    is not consulted (any two adaptors give the same outcome), the task's
    payload and quota are left alone and nothing is debited; a pass that
    returns no error leaves the envelope's status on the task and, when the
    envelope carries one, its progress. *)
Theorem X10_envelope_bypasses_adaptor (a1 a2 : TaskAdaptor) (e : Env)
    (channel : Channel) (taskId : string) (w : World) (task t : Task) (body : string) :
  taskM w !! taskId = Some task ->
  (forall baseURL key action, FetchTask e baseURL key taskId action = ResponseBody body) ->
  decode_envelope cfg body = Some t ->
  updateVideoSingleTask cfg (adaptor := a1) e channel taskId w
    = updateVideoSingleTask cfg (adaptor := a2) e channel taskId w /\
  let '(w', evs, err) := updateVideoSingleTask cfg (adaptor := a1) e channel taskId w in
  List.filter is_debit_event evs = [] /\
  exists t',
    taskM w' !! taskId = Some t' /\ Data t' = Data task /\ Quota t' = Quota task /\
    (err = None ->
     Status t' = Status t /\ (Progress t <> "" -> Progress t' = Progress t)).
Proof.
  intros Hl Hf Hd. unfold updateVideoSingleTask. rewrite Hl, !Hf.
  unfold normalize. rewrite Hd. split; [reflexivity|].
  set (taskResult := {| ti_TaskID := TaskID t; ti_Status := Status t;
                        ti_Progress := Progress t; ti_Url := FailReason t;
                        ti_Reason := FailReason t; ti_TotalTokens := 0 |}).
  destruct (apply_result_fields e taskId task taskResult (store w))
    as (_ & F2 & _ & F4).
  destruct F4 as [F4 F5]; [simpl; lia|].
  pose proof (apply_result_times cfg e taskId task taskResult (store w)) as Ht.
  pose proof (explicit_progress_persisted cfg e taskId task taskResult (store w)) as Hp.
  destruct (apply_result cfg e taskId task taskResult (store w))
    as [[[task2 st'] evs] err].
  simpl in F2, F4, F5, Ht, Hp. cbn [taskM].
  split; [simpl; exact F5|].
  exists task2. split; [apply lookup_insert_eq|]. split; [exact F2|].
  split; [exact F4|].
  intros ->. destruct (Ht eq_refl) as (T1 & _). split; [exact T1|].
  intros Hne. exact (proj1 (Hp eq_refl Hne)).
Qed.

(** X11: through the Volc Ark adaptor a poll never settles: whatever the
    vendor reports (its payload's usage is not copied into the result),
    nothing is debited and the quota stays; the payload is kept as the
    task's data; the pass never fails for an empty status; and a pass that
    returns no error leaves the adaptor's progress on the task, never the
    reconciler's own 10% or 30%. *)
Theorem X11_volc_adaptor_never_settles (unicode_lower : string -> string)
    (unmarshal_fetch : string -> option VolcVideo.fetchResponse)
    (marshal : list (string * VolcVideo.JsonValue) -> option string)
    (e : Env) (channel : Channel) (taskId : string) (w : World) (task : Task)
    (body : string) :
  taskM w !! taskId = Some task ->
  (forall baseURL key action, FetchTask e baseURL key taskId action = ResponseBody body) ->
  decode_envelope cfg body = None ->
  let '(w', evs, err) :=
    updateVideoSingleTask cfg
      (adaptor := volcvideo_adaptor unicode_lower unmarshal_fetch marshal)
      e channel taskId w in
  List.filter is_debit_event evs = [] /\
  err <> Some (ErrStatusEmpty taskId) /\
  (unmarshal_fetch body = None -> err = Some (ErrParseTaskResult taskId) /\ w' = w) /\
  (forall fr, unmarshal_fetch body = Some fr ->
     exists t',
       taskM w' !! taskId = Some t' /\ Data t' = body /\ Quota t' = Quota task /\
       (err = None ->
        Progress t' = ti_Progress (VolcVideo.parse_fetch unicode_lower marshal fr) /\
        Progress t' <> "10%" /\ Progress t' <> "30%")).
Proof.
  intros Hl Hf Hd. unfold updateVideoSingleTask. rewrite Hl, !Hf.
  unfold normalize. rewrite Hd.
  unfold volcvideo_adaptor, adaptor_ParseTaskResult, VolcVideo.ParseTaskResult.
  destruct (unmarshal_fetch body) as [fr|].
  2:{ split; [reflexivity|]. split; [discriminate|]. split; [auto|]. discriminate. }
  set (taskResult := VolcVideo.parse_fetch unicode_lower marshal fr).
  destruct (parse_fetch_range unicode_lower marshal fr) as (P1 & P2 & P3).
  fold taskResult in P1, P2, P3.
  destruct (apply_result_fields e taskId (set_Data body task) taskResult (store w))
    as (_ & F2 & _ & F4).
  destruct F4 as [F4 F5]; [lia|].
  pose proof (apply_result_unfold cfg e taskId (set_Data body task) taskResult (store w) P2)
    as Hun.
  pose proof (explicit_progress_persisted cfg e taskId (set_Data body task) taskResult
                (store w)) as Hp.
  destruct (apply_result cfg e taskId (set_Data body task) taskResult (store w))
    as [[[task2 st'] evs] err].
  simpl in F2, F4, F5, Hp. cbn [taskM].
  split; [simpl; exact F5|].
  split.
  { destruct (transition cfg e _ taskResult) as [[t1 evs1]|].
    - destruct (persist e t1 taskResult (store w)) as [[t2 st2] evs2].
      inversion Hun. discriminate.
    - inversion Hun. discriminate. }
  split; [discriminate|].
  intros fr' Hfr. inversion Hfr; subst fr'.
  exists task2. split; [apply lookup_insert_eq|]. split; [exact F2|].
  split; [exact F4|].
  intros ->.
  assert (Hne : ti_Progress taskResult <> "").
  { intros E. rewrite E in P3. simpl in P3. intuition discriminate. }
  destruct (Hp eq_refl Hne) as (Q1 & _). split; [exact Q1|].
  rewrite Q1. simpl in P3.
  split; intros E; rewrite E in P3; intuition discriminate.
Qed.

(** X12: the loop over a batch is sequential: polling the tasks of
    [l1 ++ l2] is polling those of [l1] and then those of [l2] in the world
    the first part left, with the calls of the two parts in that order. *)
Theorem X12_batch_splits {adaptor : TaskAdaptor} (env : nat -> Env) (channel : Channel)
    (l1 l2 : list string) :
  forall (i : nat) (w : World),
    update_each cfg env i channel (l1 ++ l2) w =
      (let '(w1, evs1) := update_each cfg env i channel l1 w in
       let '(w2, evs2) := update_each cfg env (i + length l1) channel l2 w1 in
       (w2, (evs1 ++ evs2)%list)).
Proof.
  induction l1 as [|x l1 IH]; intros i w.
  - simpl. rewrite Nat.add_0_r.
    destruct (update_each cfg env i channel l2 w) as [w2 evs2]. reflexivity.
  - simpl. destruct (updateVideoSingleTask cfg (env i) channel x w) as [[w1 evs] err].
    rewrite IH.
    destruct (update_each cfg env (S i) channel l1 w1) as [w1' evs1].
    replace (i + S (length l1))%nat with (S i + length l1)%nat by lia.
    destruct (update_each cfg env (S i + length l1) channel l2 w1') as [w2 evs2].
    now rewrite <- !app_assoc.
Qed.

Lemma update_each_keeps_keys {adaptor : TaskAdaptor} (env : nat -> Env)
    (channel : Channel) (taskIds : list string) (k : string) :
  forall (i : nat) (w : World),
    is_Some (taskM w !! k) ->
    is_Some (taskM (fst (update_each cfg env i channel taskIds w)) !! k).
Proof.
  induction taskIds as [|x rest IH]; intros i w Hk; [exact Hk|].
  simpl.
  pose proof (single_task_keeps_keys cfg (env i) channel x k w) as H1.
  destruct (updateVideoSingleTask cfg (env i) channel x w) as [[w1 evs] err].
  specialize (IH (S i) w1 (H1 Hk)).
  destruct (update_each cfg env (S i) channel rest w1) as [w2 evs_rest]. exact IH.
Qed.

Lemma batch_keeps_keys (b : BatchEnv) (platform : string) (channelId : Z)
    (taskIds : list string) (w : World) (k : string) :
  is_Some (taskM w !! k) ->
  let '(w', _, _) := updateVideoTaskAll cfg b platform channelId taskIds w in
  is_Some (taskM w' !! k).
Proof.
  intros Hk. unfold updateVideoTaskAll.
  destruct taskIds as [|x rest]; [exact Hk|].
  destruct (CacheGetChannel b channelId) as [ch|]; [|exact Hk].
  destruct (GetTaskAdaptor b platform) as [ad|]; [|exact Hk].
  pose proof (@update_each_keeps_keys ad (poll_env b) ch (x :: rest) k 0%nat w Hk) as H.
  destruct (update_each cfg (poll_env b) 0 ch (x :: rest) w) as [w' evs]. exact H.
Qed.

(** X13: channels are isolated in [UpdateVideoTaskAll]: whatever the channels
    visited before did (lookup failure, missing adaptor, task errors), every
    task of a visited channel whose channel and adaptor resolve, and that is
    in the task map, is fetched; and a visited channel with tasks whose
    lookup fails is reported as failed. *)
Theorem X13_channels_are_isolated (benv : Z -> BatchEnv) (platform : string)
    (visits : list (Z * list string)) :
  forall (w : World) (channelId : Z) (taskIds : list string),
    In (channelId, taskIds) visits ->
    (forall ch ad taskId,
       CacheGetChannel (benv channelId) channelId = Some ch ->
       GetTaskAdaptor (benv channelId) platform = Some ad ->
       In taskId taskIds -> is_Some (taskM w !! taskId) ->
       exists baseURL key action,
         In (InChannel channelId (EvFetchTask baseURL key taskId action))
            (snd (UpdateVideoTaskAll cfg benv platform visits w))) /\
    (taskIds <> [] -> CacheGetChannel (benv channelId) channelId = None ->
     In (ChannelFailed channelId ErrCacheGetChannel)
        (snd (UpdateVideoTaskAll cfg benv platform visits w))).
Proof.
  induction visits as [|[c ids] rest IH]; intros w channelId taskIds Hin; [destruct Hin|].
  simpl.
  pose proof (batch_keeps_keys (benv c) platform c ids w) as Hkeys.
  destruct Hin as [Heq|Hin].
  - inversion Heq; subst c ids. clear Heq. split.
    + intros ch ad taskId Hc Ha Ht Hk.
      unfold updateVideoTaskAll.
      destruct taskIds as [|x l]; [destruct Ht|].
      rewrite Hc, Ha.
      destruct (@update_each_fetches cfg ad (poll_env (benv channelId)) ch (x :: l)
                  0%nat w taskId Ht Hk) as (u & k & a & Hev).
      destruct (update_each cfg (poll_env (benv channelId)) 0 ch (x :: l) w) as [w1 evs].
      destruct (UpdateVideoTaskAll cfg benv platform rest w1) as [w2 evs_rest].
      exists u, k, a. simpl. right. apply in_or_app. left.
      apply in_map. exact Hev.
    + intros Hne Hc. unfold updateVideoTaskAll.
      destruct taskIds as [|x l]; [congruence|]. rewrite Hc.
      destruct (UpdateVideoTaskAll cfg benv platform rest _) as [w2 evs_rest].
      simpl. right. right. apply in_or_app. right. left. reflexivity.
  - destruct (updateVideoTaskAll cfg (benv c) platform c ids w) as [[w1 evs] err].
    destruct (IH w1 channelId taskIds Hin) as [IH1 IH2].
    destruct (UpdateVideoTaskAll cfg benv platform rest w1) as [w2 evs_rest].
    simpl in *. split.
    + intros ch ad taskId Hc Ha Ht Hk.
      destruct (IH1 ch ad taskId Hc Ha Ht (Hkeys taskId Hk)) as (u & k & a & Hev).
      exists u, k, a. apply in_or_app. right. apply in_or_app. now right.
    + intros Hne Hc. apply in_or_app. right. apply in_or_app. right. now apply IH2.
Qed.

End PassFacts.

(** * Further properties of the Volc Ark adaptor *)

Lemma append_assoc (a b c : string) : (a +:+ b) +:+ c = a +:+ (b +:+ c).
Proof.
  induction a as [|x a IH]; [reflexivity|].
  change (String x ((a +:+ b) +:+ c) = String x (a +:+ (b +:+ c))).
  now rewrite IH.
Qed.

(** X14: whatever the payload, [ParseTaskResult] reports no usage, a status
    among Queued, InProgress, Success, Failure and Unknown (never Submitted,
    never empty), progress 100% exactly for the two terminal statuses, a
    result URL only for Success, and Success only without an error code. *)
Theorem X14_parse_result_shape (unicode_lower : string -> string)
    (marshal : list (string * VolcVideo.JsonValue) -> option string)
    (fr : VolcVideo.fetchResponse) :
  let res := VolcVideo.parse_fetch unicode_lower marshal fr in
  ti_TotalTokens res = 0 /\
  In (ti_Status res)
     [TaskStatusQueued; TaskStatusInProgress; TaskStatusSuccess; TaskStatusFailure;
      TaskStatusUnknown] /\
  (ti_Progress res = "100%" <-> is_terminal (ti_Status res) = true) /\
  (ti_Url res <> "" ->
   ti_Status res = TaskStatusSuccess /\ ti_Url res = VolcVideo.fr_VideoURL fr) /\
  (ti_Status res = TaskStatusSuccess -> VolcVideo.fr_ErrorCode fr = "").
Proof.
  unfold VolcVideo.parse_fetch.
  assert (Hcode : is_empty (VolcVideo.fr_ErrorCode fr) = true ->
                  VolcVideo.fr_ErrorCode fr = "") by apply is_empty_true.
  destruct (is_empty (VolcVideo.fr_ErrorCode fr)); simpl;
    [destruct (is_empty (VolcVideo.fr_Status fr)); simpl;
     [|repeat match goal with
       | |- context [String.eqb ?a ?b] => destruct (String.eqb a b)
       end; simpl]|];
    (split; [reflexivity|]);
    (split; [auto 10|]);
    (split;
     [split; intros H; try reflexivity; try discriminate H;
      vm_compute in H; discriminate H|]);
    (split;
     [intros H; first [now elim H | split; reflexivity]
     |intros H; first [discriminate H | now apply Hcode]]).
Qed.

Section VolcFacts.
Variable TrimSpace : string -> string.
Variable Sprint_other : VolcRequest.Any -> string.
Variable TaskActionGenerate : string.
Variable marshal_request : VolcRequest.submitRequest -> option string.
Variable unmarshal_submit : string -> option string.
Variable url_accepted : string -> bool.

(** X15: a request that passes [ValidateRequestAndSetAction] is stored
    unchanged and always builds a body with a non-empty model (the upstream
    model name when the routing layer gave one, else the caller's) and at
    least one content item, so [BuildRequestBody] can only fail in the
    marshaller. Trimming the empty string gives the empty string. *)
Theorem X15_validated_request_builds (decoded : option VolcRequest.TaskSubmitReq)
    (info info' : VolcRequest.RelayInfo) (req : VolcRequest.TaskSubmitReq) :
  TrimSpace "" = "" ->
  VolcRequest.ValidateRequestAndSetAction TrimSpace TaskActionGenerate decoded info
    = (info', inr req) ->
  decoded = Some req /\
  VolcRequest.ri_Action info' = TaskActionGenerate /\
  VolcRequest.ri_UpstreamModelName info' = VolcRequest.ri_UpstreamModelName info /\
  let body := VolcRequest.build_body TrimSpace Sprint_other req info' in
  VolcRequest.sr_Model body <> "" /\
  VolcRequest.sr_Model body =
    (if is_empty (VolcRequest.ri_UpstreamModelName info) then VolcRequest.req_Model req
     else VolcRequest.ri_UpstreamModelName info) /\
  VolcRequest.sr_Content body <> [] /\
  VolcRequest.BuildRequestBody TrimSpace Sprint_other marshal_request (Some req) info'
    <> VolcRequest.BuildNoRequest.
Proof.
  intros Htrim. unfold VolcRequest.ValidateRequestAndSetAction.
  destruct decoded as [r|]; [|discriminate].
  destruct (is_empty (TrimSpace (VolcRequest.req_Model r))) eqn:Em; [discriminate|].
  destruct (is_empty (TrimSpace (VolcRequest.req_Prompt r))
            && is_empty (VolcRequest.req_Image r)) eqn:Ep; [discriminate|].
  intros H. inversion H; subst. clear H.
  split; [reflexivity|]. split; [reflexivity|]. split; [reflexivity|].
  unfold VolcRequest.build_body. simpl.
  assert (Hmodel : VolcRequest.req_Model req <> "").
  { intros E. rewrite E, Htrim in Em. discriminate. }
  split.
  { destruct (is_empty (VolcRequest.ri_UpstreamModelName info)) eqn:Eu; simpl;
      [exact Hmodel|now apply is_empty_false]. }
  split.
  { destruct (is_empty (VolcRequest.ri_UpstreamModelName info)); reflexivity. }
  split.
  { apply andb_false_iff in Ep. destruct Ep as [Ep|Ep]; rewrite Ep; simpl.
    - discriminate.
    - destruct (negb (is_empty (TrimSpace (VolcRequest.req_Prompt req)))); discriminate. }
  unfold VolcRequest.BuildRequestBody.
  destruct (marshal_request _); discriminate.
Qed.

Lemma image_item_shape (it : VolcRequest.Any) (x : VolcRequest.contentItem) :
  In x (VolcRequest.image_item Sprint_other it) ->
  VolcRequest.ci_Type x = "image_url" /\ VolcRequest.ci_Text x = "" /\
  exists u, VolcRequest.ci_ImageURL x = Some u /\ u <> "".
Proof.
  unfold VolcRequest.image_item.
  set (m := match it with VolcRequest.AMap m => m | _ => [] end).
  destruct (is_empty (VolcRequest.Sprint Sprint_other (VolcRequest.map_get m "url"))) eqn:E;
    [intros []|].
  intros [<-|[]]. simpl. repeat split. eexists. split; [reflexivity|].
  now apply is_empty_false.
Qed.

(** X16: the content of a built body is the prompt as one text item, when the
    prompt is not blank, followed only by image items; every image item
    carries a non-empty URL and no text, and the text item carries the prompt
    as given (untrimmed), no URL and no role. *)
Theorem X16_body_content_shape (req : VolcRequest.TaskSubmitReq)
    (info : VolcRequest.RelayInfo) :
  let body := VolcRequest.build_body TrimSpace Sprint_other req info in
  let text :=
    if is_empty (TrimSpace (VolcRequest.req_Prompt req)) then []
    else [{| VolcRequest.ci_Type := "text";
             VolcRequest.ci_Text := VolcRequest.req_Prompt req;
             VolcRequest.ci_ImageURL := None; VolcRequest.ci_Role := "" |}] in
  exists images,
    VolcRequest.sr_Content body = (text ++ images)%list /\
    (forall x, In x images ->
       VolcRequest.ci_Type x = "image_url" /\ VolcRequest.ci_Text x = "" /\
       exists u, VolcRequest.ci_ImageURL x = Some u /\ u <> "") /\
    (VolcRequest.req_Image req <> "" ->
     exists role rest,
       images =
         {| VolcRequest.ci_Type := "image_url"; VolcRequest.ci_Text := "";
            VolcRequest.ci_ImageURL := Some (VolcRequest.req_Image req);
            VolcRequest.ci_Role := role |} :: rest /\
       role <> "").
Proof.
  intros body text. subst body text. unfold VolcRequest.build_body. simpl.
  eexists. split.
  { destruct (is_empty (TrimSpace (VolcRequest.req_Prompt req))); simpl; reflexivity. }
  split.
  - intros x Hx. apply in_app_or in Hx. destruct Hx as [Hx|Hx].
    + destruct (is_empty (VolcRequest.req_Image req)) eqn:Ei; simpl in Hx; [destruct Hx|].
      destruct Hx as [<-|[]]. simpl. repeat split. eexists. split; [reflexivity|].
      now apply is_empty_false.
    + destruct (VolcRequest.req_Metadata req !! "images") as [[| | | |imgs|]|];
        try destruct Hx.
      apply in_flat_map in Hx. destruct Hx as (it & _ & Hit).
      exact (image_item_shape it x Hit).
  - intros Hi. apply is_empty_false in Hi. rewrite Hi. simpl.
    eexists. eexists. split; [reflexivity|].
    destruct (VolcRequest.req_Metadata req !! "role") as [[|r| | | |]|];
      try discriminate.
    destruct (is_empty r) eqn:Er; simpl; [discriminate|now apply is_empty_false].
Qed.

(** X17: in the metadata image list only an entry whose url prints as the
    empty string is skipped: an entry that is not an object, or an object
    without a url key or with a null url, is not skipped but sent with the
    URL "<nil>"; an entry whose url is the empty string is skipped. *)
Theorem X17_image_entry_without_url (it : VolcRequest.Any) :
  ((forall m, it = VolcRequest.AMap m ->
      VolcRequest.map_get m "url" = None \/
      VolcRequest.map_get m "url" = Some VolcRequest.ANil) ->
   exists role,
     VolcRequest.image_item Sprint_other it =
       [{| VolcRequest.ci_Type := "image_url"; VolcRequest.ci_Text := "";
           VolcRequest.ci_ImageURL := Some "<nil>"; VolcRequest.ci_Role := role |}]) /\
  ((forall m, it <> VolcRequest.AMap m) ->
   VolcRequest.image_item Sprint_other it =
     [{| VolcRequest.ci_Type := "image_url"; VolcRequest.ci_Text := "";
         VolcRequest.ci_ImageURL := Some "<nil>"; VolcRequest.ci_Role := "<nil>" |}]) /\
  (forall m, it = VolcRequest.AMap m ->
     VolcRequest.map_get m "url" = Some (VolcRequest.AString "") ->
     VolcRequest.image_item Sprint_other it = []).
Proof.
  split; [|split].
  - intros H. unfold VolcRequest.image_item.
    destruct it as [| | | | |m]; try (eexists; reflexivity).
    destruct (H m eq_refl) as [-> | ->]; eexists; reflexivity.
  - intros H. destruct it as [| | | | |m]; try reflexivity. now elim (H m).
  - intros m -> Hu. unfold VolcRequest.image_item. now rewrite Hu.
Qed.

(** X18: every validation error carries the code invalid_request and status
    400; a request whose prompt trims to nothing and whose image is empty is
    rejected whatever its metadata holds (images listed there do not count),
    while a non-empty image, blank or not, passes with any prompt once the
    model is not blank. *)
Theorem X18_validation_rejections (decoded : option VolcRequest.TaskSubmitReq)
    (info : VolcRequest.RelayInfo) :
  let out := VolcRequest.ValidateRequestAndSetAction TrimSpace TaskActionGenerate
               decoded info in
  VolcRequest.ri_Action (fst out) = TaskActionGenerate /\
  (forall err, snd out = inl err ->
     VolcRequest.te_code err = "invalid_request" /\ VolcRequest.te_status err = 400 /\
     VolcRequest.te_local err = true) /\
  (forall req, decoded = Some req ->
     TrimSpace (VolcRequest.req_Prompt req) = "" -> VolcRequest.req_Image req = "" ->
     exists err, snd out = inl err) /\
  (forall req, decoded = Some req ->
     TrimSpace (VolcRequest.req_Model req) <> "" -> VolcRequest.req_Image req <> "" ->
     snd out = inr req).
Proof.
  intros out. subst out. unfold VolcRequest.ValidateRequestAndSetAction.
  destruct decoded as [r|]; simpl.
  2:{ split; [reflexivity|]. split; [intros err H; inversion H; auto|].
      split; discriminate. }
  destruct (is_empty (TrimSpace (VolcRequest.req_Model r))) eqn:Em; simpl.
  { split; [reflexivity|]. split.
    - intros err H. inversion H. auto.
    - split; [eauto|]. intros req H Hm. inversion H; subst.
      apply is_empty_false in Hm. congruence. }
  destruct (is_empty (TrimSpace (VolcRequest.req_Prompt r))
            && is_empty (VolcRequest.req_Image r)) eqn:Ep; simpl.
  { split; [reflexivity|]. split.
    - intros err H. inversion H. auto.
    - split; [eauto|]. intros req H _ Hi. inversion H; subst.
      apply is_empty_false in Hi. rewrite Hi, andb_false_r in Ep. discriminate. }
  split; [reflexivity|]. split; [discriminate|]. split.
  - intros req H Hp Hi. inversion H; subst.
    apply is_empty_true in Hp, Hi. rewrite Hp, Hi in Ep. discriminate.
  - intros req H _ _. inversion H. reflexivity.
Qed.

(** X19: [FetchTask] refuses, before any request is built, exactly the bodies
    whose task_id is missing, not a string, or empty; otherwise the request,
    when the URL is accepted, is a GET of the submission URL of the same base
    followed by "/" and the task id, with the bearer key. *)
Theorem X19_fetch_request (baseUrl key : string) (body : gmap string VolcRequest.Any) :
  let out := VolcRequest.FetchTask_request url_accepted baseUrl key body in
  (out = inl VolcRequest.InvalidTaskId <->
   forall id, body !! "task_id" = Some (VolcRequest.AString id) -> id = "") /\
  (forall rq, out = inr rq ->
     exists id,
       body !! "task_id" = Some (VolcRequest.AString id) /\ id <> "" /\
       VolcRequest.rq_Method rq = "GET" /\
       VolcRequest.rq_URL rq =
         VolcRequest.BuildRequestURL
           (VolcRequest.mkAdaptor 0 baseUrl key) +:+ "/" +:+ id /\
       VolcRequest.rq_Header rq !! "Authorization" = Some ("Bearer " +:+ key)).
Proof.
  intros out. subst out. unfold VolcRequest.FetchTask_request.
  destruct (body !! "task_id") as [[|s| | | |]|] eqn:Hb; simpl;
    try (split; [split; [intros _ id H; discriminate|reflexivity]|discriminate]).
  destruct (is_empty s) eqn:Es.
  - apply is_empty_true in Es. subst s. split; [|discriminate].
    split; [intros _ id H; now inversion H|reflexivity].
  - apply is_empty_false in Es. split.
    + split.
      * destruct (url_accepted _); discriminate.
      * intros H. elim Es. now apply H.
    + intros rq. destruct (url_accepted _); [|discriminate].
      intros H. inversion H; subst. clear H. exists s.
      split; [reflexivity|]. split; [exact Es|]. split; [reflexivity|]. split.
      * unfold VolcRequest.BuildRequestURL. simpl.
        now rewrite append_assoc.
      * simpl. apply lookup_insert_eq.
Qed.

(** X20: [DoResponse] answers the client only on success, and then with the
    task id it returns, which is never empty; the data it returns is the
    response body as read; and the id it returns is one [FetchTask] accepts:
    polling with it never fails for an invalid task id. *)
Theorem X20_submitted_id_can_be_polled (read : option string) (baseUrl key : string)
    (action : VolcRequest.Any) :
  let out := VolcRequest.DoResponse unmarshal_submit read in
  (forall err, fst out = inl err -> snd out = None) /\
  (forall id data, fst out = inr (id, data) ->
     id <> "" /\ read = Some data /\ unmarshal_submit data = Some id /\
     snd out = Some (200, [("task_id", id)]) /\
     VolcRequest.FetchTask_request url_accepted baseUrl key
       (<["task_id" := VolcRequest.AString id]> {["action" := action]})
     <> inl VolcRequest.InvalidTaskId).
Proof.
  intros out. subst out. unfold VolcRequest.DoResponse.
  destruct read as [responseBody|]; simpl; [|split; [auto|discriminate]].
  destruct (unmarshal_submit responseBody) as [id0|] eqn:Hu; simpl;
    [|split; [auto|discriminate]].
  destruct (is_empty id0) eqn:Ei; simpl; [split; [auto|discriminate]|].
  split; [discriminate|].
  intros id data H. inversion H; subst. clear H.
  split; [now apply is_empty_false|]. split; [reflexivity|]. split; [exact Hu|].
  split; [reflexivity|].
  unfold VolcRequest.FetchTask_request. rewrite lookup_insert_eq, Ei.
  destruct (url_accepted _); discriminate.
Qed.

(** X21: after [Init] the submission URL is the relay info's base URL
    followed by the tasks path, and [BuildRequestHeader] sets the three
    headers it names (the bearer being the relay info's API key) over
    whatever they held, leaves every other header alone, and is idempotent. *)
Theorem X21_init_url_and_headers (info : VolcRequest.RelayInfo)
    (header : gmap string string) :
  let a := VolcRequest.Init info in
  let h := VolcRequest.BuildRequestHeader a header in
  VolcRequest.BuildRequestURL a =
    VolcRequest.ri_ChannelBaseUrl info +:+ "/api/v3/contents/generations/tasks" /\
  h !! "Authorization" = Some ("Bearer " +:+ VolcRequest.ri_ApiKey info) /\
  h !! "Accept" = Some "application/json" /\
  h !! "Content-Type" = Some "application/json" /\
  (forall k, k <> "Authorization" -> k <> "Accept" -> k <> "Content-Type" ->
     h !! k = header !! k) /\
  VolcRequest.BuildRequestHeader a h = h.
Proof.
  intros a h. subst a h. unfold VolcRequest.BuildRequestHeader, VolcRequest.Init. simpl.
  split; [reflexivity|].
  split; [apply lookup_insert_eq|].
  split; [rewrite lookup_insert_ne by discriminate; apply lookup_insert_eq|].
  split; [rewrite !lookup_insert_ne by discriminate; apply lookup_insert_eq|].
  split.
  - intros k H1 H2 H3. rewrite !lookup_insert_ne by congruence. reflexivity.
  - apply map_eq. intros k.
    destruct (decide (k = "Authorization")) as [->|H1];
      [rewrite !lookup_insert_eq; reflexivity|].
    rewrite !(lookup_insert_ne _ "Authorization") by congruence.
    destruct (decide (k = "Accept")) as [->|H2];
      [rewrite !lookup_insert_eq; reflexivity|].
    rewrite !(lookup_insert_ne _ "Accept") by congruence.
    destruct (decide (k = "Content-Type")) as [->|H3];
      [rewrite !lookup_insert_eq; reflexivity|].
    rewrite !(lookup_insert_ne _ "Content-Type") by congruence.
    rewrite !(lookup_insert_ne _ "Authorization") by congruence.
    rewrite !(lookup_insert_ne _ "Accept") by congruence.
    rewrite !(lookup_insert_ne _ "Content-Type") by congruence.
    reflexivity.
Qed.

End VolcFacts.

(** * Scenarios for the further properties *)

(** An Unknown result: the pass errors and the store is as before. *)
Lemma X1_witness_unknown_result :
  let e := Sample.env 1 1 1 true true "body" in
  let ad := Sample.fixed_adaptor (Sample.result TaskStatusUnknown 0) in
  let out :=
    updateVideoSingleTask Sample.cfg (adaptor := ad) e Sample.channel "cgt-1"
      Sample2.world in
  snd out <> None /\
  store (fst (fst out)) = store Sample2.world /\
  List.filter is_ledger_event (snd (fst out)) = [].
Proof.
  intros e ad out.
  pose proof (X1_error_leaves_store_and_ledger Sample.cfg (adaptor := ad) e
                Sample.channel "cgt-1" Sample2.world) as H.
  fold out in H.
  assert (Herr : snd out <> None) by (vm_compute; discriminate).
  destruct out as [[w' evs] err]. simpl in *.
  destruct (H Herr) as (H1 & H2 & _). auto.
Defined.

(** Polling cgt-1 leaves cgt-2 alone, in memory and in the store. *)
Lemma X2_witness_other_task :
  let e := Sample.env 1 1 1 true true "body" in
  let ad := Sample.fixed_adaptor (Sample.result TaskStatusSuccess 80) in
  let out :=
    updateVideoSingleTask Sample.cfg (adaptor := ad) e Sample.channel "cgt-1"
      Sample2.world in
  ("cgt-2" <> "cgt-1" /\ taskM Sample2.world !! "cgt-1" = Some (Sample.task 100) /\
   "cgt-2" <> TaskID (Sample.task 100)) /\
  taskM (fst (fst out)) !! "cgt-2" = taskM Sample2.world !! "cgt-2" /\
  store (fst (fst out)) !! "cgt-2" = store Sample2.world !! "cgt-2".
Proof.
  intros e ad out.
  pose proof (X2_single_task_frame Sample.cfg (adaptor := ad) e Sample.channel "cgt-1"
                Sample2.world) as H.
  fold out in H.
  assert (A1 : "cgt-2" <> "cgt-1") by discriminate.
  assert (A2 : taskM Sample2.world !! "cgt-1" = Some (Sample.task 100)).
  { unfold Sample2.world. cbn [taskM]. rewrite lookup_insert_ne by discriminate.
    apply lookup_singleton_eq. }
  assert (A3 : "cgt-2" <> TaskID (Sample.task 100)) by discriminate.
  destruct out as [[w' evs] err]. simpl in *.
  destruct H as (H1 & _ & H3 & _).
  split; [auto|]. split; [exact (H1 "cgt-2" A1)|exact (H3 _ "cgt-2" A2 A3)].
Defined.

(** A succeeded task without usage: nothing is settled. *)
Lemma X3_witness_no_usage :
  let e := Sample.env 1 1 1 true true "body" in
  let taskResult := Sample.result TaskStatusSuccess 0 in
  let r := apply_result Sample.cfg e "cgt-1" (Sample.task 50) taskResult ∅ in
  (ti_Status taskResult = TaskStatusSuccess /\ ti_TotalTokens taskResult <= 0) /\
  List.filter is_ledger_event (out_events r) = [] /\
  Quota (out_task r) = 50 /\
  FailReason (out_task r) = "https://cdn/video.mp4".
Proof.
  intros e taskResult r.
  assert (H1 : ti_Status taskResult = TaskStatusSuccess) by reflexivity.
  assert (H2 : ti_TotalTokens taskResult <= 0) by discriminate.
  destruct (X3_success_without_usage Sample.cfg e "cgt-1" (Sample.task 50) taskResult ∅
              H1 H2) as (_ & A & _ & B & C & _).
  auto.
Defined.

(** Reserved 100 against 80 tokens at rates 1.0: 20 are credited back. *)
Lemma X4_witness_refund_twenty :
  let e := Sample.env 1 1 1 true true "body" in
  let task := Sample.task 100 in
  let taskResult := Sample.result TaskStatusSuccess 80 in
  let a := actualQuota Sample.cfg e task taskResult in
  let r := apply_result Sample.cfg e "cgt-1" task taskResult ∅ in
  (ti_Status taskResult = TaskStatusSuccess /\ 0 < ti_TotalTokens taskResult /\
   Int64.in_range (Quota task) /\ Int64.in_range (a - Quota task) /\
   Int64.min_int < a - Quota task /\ a < Quota task /\
   IncreaseUserQuota e (UserId task) (Quota task - a) = true) /\
  a = 80 /\
  Quota (out_task r) = 80 /\
  charged 7 (out_events r) = - 20 /\
  List.filter is_debit_event (out_events r) = [].
Proof.
  intros e task taskResult a r.
  assert (Ha : a = 80) by (vm_compute; reflexivity).
  assert (H1 : ti_Status taskResult = TaskStatusSuccess) by reflexivity.
  assert (H2 : 0 < ti_TotalTokens taskResult) by reflexivity.
  assert (H3 : Int64.in_range (Quota task)) by (vm_compute; split; discriminate).
  assert (H4 : Int64.in_range (a - Quota task)) by (vm_compute; split; discriminate).
  assert (H5 : Int64.min_int < a - Quota task) by (vm_compute; reflexivity).
  assert (H6 : a < Quota task) by (vm_compute; reflexivity).
  assert (H7 : IncreaseUserQuota e (UserId task) (Quota task - a) = true) by reflexivity.
  destruct (X4_refund_settlement Sample.cfg e "cgt-1" task taskResult ∅
              H1 H2 H3 H4 H5 H6 H7) as (B1 & B2 & B3 & _).
  fold a in B1, B2. fold r in B1, B2, B3. rewrite Ha in B1, B2.
  split; [auto 10|]. split; [exact Ha|]. split; [exact B1|]. split; [exact B2|exact B3].
Defined.

(** A supplement of 30: the charge is the change of the quota. *)
Lemma X5_witness_charge_is_change :
  let e := Sample.env 1 1 1 true true "body" in
  let task := Sample.task 50 in
  let taskResult := Sample.result TaskStatusSuccess 80 in
  let r := apply_result Sample.cfg e "cgt-1" task taskResult ∅ in
  (ti_Status taskResult <> TaskStatusFailure /\ Int64.in_range (Quota task) /\
   ledger_accepts e /\
   Int64.in_range (actualQuota Sample.cfg e task taskResult - Quota task) /\
   Int64.min_int < actualQuota Sample.cfg e task taskResult - Quota task) /\
  charged 7 (out_events r) = Quota (out_task r) - 50.
Proof.
  intros e task taskResult r.
  assert (H1 : ti_Status taskResult <> TaskStatusFailure) by discriminate.
  assert (H2 : Int64.in_range (Quota task)) by (vm_compute; split; discriminate).
  assert (H3 : ledger_accepts e) by (split; intros; reflexivity).
  assert (H4 : Int64.in_range (actualQuota Sample.cfg e task taskResult - Quota task))
    by (vm_compute; split; discriminate).
  assert (H5 : Int64.min_int < actualQuota Sample.cfg e task taskResult - Quota task)
    by (vm_compute; reflexivity).
  split; [auto 10|].
  exact (X5_charge_equals_quota_change Sample.cfg e "cgt-1" task taskResult ∅
           H1 H2 H3 H4 H5).
Defined.

(** Reserved 50, settled at 80, then failed: 50 in all go back. *)
Lemma X6_witness_settled_then_failed :
  let e := Sample.env 1 1 1 true true "body" in
  let task := Sample.task 50 in
  let success := Sample.result TaskStatusSuccess 80 in
  let failure := Sample.result TaskStatusFailure 0 in
  let r1 := apply_result Sample.cfg e "cgt-1" task success ∅ in
  let r2 := apply_result Sample.cfg e "cgt-1" (out_task r1) failure (out_store r1) in
  (ti_Status success = TaskStatusSuccess /\ 0 < ti_TotalTokens success /\
   ti_Status failure = TaskStatusFailure /\ Int64.in_range (Quota task) /\
   ledger_accepts e /\
   Int64.in_range (actualQuota Sample.cfg e task success - Quota task) /\
   Int64.min_int < actualQuota Sample.cfg e task success - Quota task) /\
  charged 7 (out_events r1 ++ out_events r2) = - 50.
Proof.
  intros e task success failure r1 r2.
  assert (H1 : ti_Status success = TaskStatusSuccess) by reflexivity.
  assert (H2 : 0 < ti_TotalTokens success) by reflexivity.
  assert (H3 : ti_Status failure = TaskStatusFailure) by reflexivity.
  assert (H4 : Int64.in_range (Quota task)) by (vm_compute; split; discriminate).
  assert (H5 : ledger_accepts e) by (split; intros; reflexivity).
  assert (H6 : Int64.in_range (actualQuota Sample.cfg e task success - Quota task))
    by (vm_compute; split; discriminate).
  assert (H7 : Int64.min_int < actualQuota Sample.cfg e task success - Quota task)
    by (vm_compute; reflexivity).
  split; [auto 10|].
  exact (proj1 (X6_success_then_failure_refunds_reservation Sample.cfg e e "cgt-1" task
                  success failure ∅ H1 H2 H3 H4 H5 H5 H6 H7)).
Defined.

(** A task of quota 100 reported failed twice: 200 are credited. *)
Lemma X7_witness_double_refund :
  let e := Sample.env 1 1 1 true true "body" in
  let task := Sample.task 100 in
  let failure := Sample.result TaskStatusFailure 0 in
  let r1 := apply_result Sample.cfg e "cgt-1" task failure ∅ in
  let r2 := apply_result Sample.cfg e "cgt-1" (out_task r1) failure (out_store r1) in
  (ti_Status failure = TaskStatusFailure /\
   IncreaseUserQuota e (UserId task) (Quota task) = true) /\
  charged 7 (out_events r1 ++ out_events r2) = - 200.
Proof.
  intros e task failure r1 r2.
  assert (H1 : ti_Status failure = TaskStatusFailure) by reflexivity.
  assert (H2 : IncreaseUserQuota e (UserId task) (Quota task) = true) by reflexivity.
  destruct (X7_failure_twice_refunds_twice Sample.cfg e e "cgt-1" task failure failure ∅
              H1 H1 H2 H2) as (_ & _ & H & _).
  split; [auto|exact H].
Defined.

(** A supplement of 30 whose store write fails is charged again by the next
    pass: 60 in all. *)
Lemma X8_witness_double_charge :
  let e1 := Sample2.env_store_down in
  let e2 := Sample.env 1 1 1 true true "body" in
  let task := Sample.task 50 in
  let taskResult := Sample.result TaskStatusSuccess 80 in
  let r1 := apply_result Sample.cfg e1 "cgt-1" task taskResult ∅ in
  let r2 := apply_result Sample.cfg e2 "cgt-1" task taskResult (out_store r1) in
  (ti_Status taskResult = TaskStatusSuccess /\ 0 < ti_TotalTokens taskResult /\
   Int64.in_range (Quota task) /\ ledger_accepts e1 /\ ledger_accepts e2 /\
   same_rates e1 e2 /\
   Int64.in_range (actualQuota Sample.cfg e1 task taskResult - Quota task) /\
   0 < actualQuota Sample.cfg e1 task taskResult - Quota task /\
   (forall t, Update e1 t = false)) /\
  out_store r1 = ∅ /\
  charged 7 (out_events r1 ++ out_events r2) = 60.
Proof.
  intros e1 e2 task taskResult r1 r2.
  assert (Ha : actualQuota Sample.cfg e1 task taskResult = 80) by (vm_compute; reflexivity).
  assert (H1 : ti_Status taskResult = TaskStatusSuccess) by reflexivity.
  assert (H2 : 0 < ti_TotalTokens taskResult) by reflexivity.
  assert (H3 : Int64.in_range (Quota task)) by (vm_compute; split; discriminate).
  assert (H4 : ledger_accepts e1) by (split; intros; reflexivity).
  assert (H5 : ledger_accepts e2) by (split; intros; reflexivity).
  assert (H6 : same_rates e1 e2) by (repeat split; reflexivity).
  assert (H7 : Int64.in_range (actualQuota Sample.cfg e1 task taskResult - Quota task))
    by (vm_compute; split; discriminate).
  assert (H8 : 0 < actualQuota Sample.cfg e1 task taskResult - Quota task)
    by (vm_compute; reflexivity).
  assert (H9 : forall t, Update e1 t = false) by (intros t; reflexivity).
  destruct (X8_failed_store_write_charges_again Sample.cfg e1 e2 "cgt-1" task taskResult ∅
              H1 H2 H3 H4 H5 H6 H7 H8 H9) as (_ & B1 & _ & B2).
  fold r1 in B1, B2. fold r2 in B2. rewrite Ha in B2.
  split; [auto 10|]. split; [exact B1|exact B2].
Defined.

(** A Submitted result on a fresh task. *)
Lemma X9_witness_submitted :
  let e := Sample.env 1 1 1 true true "body" in
  let task := Sample.task 50 in
  let taskResult := Sample.result TaskStatusSubmitted 0 in
  let r := apply_result Sample.cfg e "cgt-1" task taskResult ∅ in
  (ti_Status taskResult = TaskStatusSubmitted \/ ti_Status taskResult = TaskStatusQueued) /\
  out_task r = set_Progress "10%" (set_Status TaskStatusSubmitted task) /\
  List.filter is_task_update (out_events r) = [EvTaskUpdate (out_task r) true].
Proof.
  intros e task taskResult r.
  assert (H1 : ti_Status taskResult = TaskStatusSubmitted \/
               ti_Status taskResult = TaskStatusQueued) by (left; reflexivity).
  destruct (X9_waiting_statuses_frame Sample.cfg e "cgt-1" task taskResult ∅ H1)
    as (_ & B1 & _ & B2).
  split; [exact H1|]. split; [exact B1|exact B2].
Defined.

(** An envelope that reports the task queued at 45%: the same outcome with
    two different adaptors, and the envelope's progress on the task. *)
Lemma X10_witness_envelope :
  let e := Sample.env 1 1 1 true true "body" in
  let a1 := Sample.fixed_adaptor (Sample.result TaskStatusSuccess 80) in
  let a2 := Sample.fixed_adaptor (Sample.result TaskStatusFailure 0) in
  let out :=
    updateVideoSingleTask Sample2.cfg_envelope (adaptor := a1) e Sample.channel "cgt-1"
      Sample2.world in
  (taskM Sample2.world !! "cgt-1" = Some (Sample.task 100) /\
   decode_envelope Sample2.cfg_envelope "body" = Some Sample2.envelope_task) /\
  out = updateVideoSingleTask Sample2.cfg_envelope (adaptor := a2) e Sample.channel
          "cgt-1" Sample2.world /\
  List.filter is_debit_event (snd (fst out)) = [] /\
  exists t', taskM (fst (fst out)) !! "cgt-1" = Some t' /\
             Quota t' = 100 /\ Status t' = TaskStatusQueued /\ Progress t' = "45%".
Proof.
  intros e a1 a2 out.
  assert (A1 : taskM Sample2.world !! "cgt-1" = Some (Sample.task 100)).
  { unfold Sample2.world. cbn [taskM]. rewrite lookup_insert_ne by discriminate.
    apply lookup_singleton_eq. }
  assert (A2 : decode_envelope Sample2.cfg_envelope "body" = Some Sample2.envelope_task)
    by reflexivity.
  destruct (X10_envelope_bypasses_adaptor Sample2.cfg_envelope a1 a2 e Sample.channel
              "cgt-1" Sample2.world (Sample.task 100) Sample2.envelope_task "body"
              A1 (fun _ _ _ => eq_refl) A2) as [B1 B2].
  fold out in B1, B2.
  assert (Herr : snd out = None) by (vm_compute; reflexivity).
  split; [auto|]. split; [exact B1|].
  destruct out as [[w' evs] err]. simpl in *.
  destruct B2 as (C1 & t' & C2 & _ & C4 & C5).
  split; [exact C1|]. exists t'.
  destruct (C5 Herr) as [D1 D2].
  split; [exact C2|]. split; [exact C4|]. split; [exact D1|].
  apply D2. discriminate.
Defined.

(** A vendor payload "succeeded" polled through the Volc Ark adaptor:
    nothing is debited and the progress is the adaptor's. *)
Lemma X11_witness_volc_succeeded :
  let e := Sample.env 1 1 1 true true "succeeded" in
  let out :=
    updateVideoSingleTask Sample.cfg
      (adaptor := volcvideo_adaptor (fun s => s) Sample.unmarshal Sample.marshal)
      e Sample.channel "cgt-1" Sample2.world in
  (taskM Sample2.world !! "cgt-1" = Some (Sample.task 100) /\
   decode_envelope Sample.cfg "succeeded" = None /\
   Sample.unmarshal "succeeded" = Some (Sample.payload "succeeded" "")) /\
  List.filter is_debit_event (snd (fst out)) = [] /\
  exists t', taskM (fst (fst out)) !! "cgt-1" = Some t' /\
             Data t' = "succeeded" /\ Quota t' = 100 /\ Progress t' = "100%".
Proof.
  intros e out.
  assert (A1 : taskM Sample2.world !! "cgt-1" = Some (Sample.task 100)).
  { unfold Sample2.world. cbn [taskM]. rewrite lookup_insert_ne by discriminate.
    apply lookup_singleton_eq. }
  assert (A2 : decode_envelope Sample.cfg "succeeded" = None) by reflexivity.
  assert (A3 : Sample.unmarshal "succeeded" = Some (Sample.payload "succeeded" ""))
    by reflexivity.
  pose proof (X11_volc_adaptor_never_settles Sample.cfg (fun s => s) Sample.unmarshal
                Sample.marshal e Sample.channel "cgt-1" Sample2.world (Sample.task 100)
                "succeeded" A1 (fun _ _ _ => eq_refl) A2) as H.
  fold out in H.
  assert (Herr : snd out = None) by (vm_compute; reflexivity).
  split; [auto|].
  destruct out as [[w' evs] err]. simpl in *.
  destruct H as (B1 & _ & _ & B4).
  split; [exact B1|].
  destruct (B4 _ A3) as (t' & C1 & C2 & C3 & C4).
  exists t'. destruct (C4 Herr) as (D1 & _).
  split; [exact C1|]. split; [exact C2|]. split; [exact C3|]. exact D1.
Defined.

(** Channel 1 cannot be resolved and is visited first; the task of channel 3
    is fetched all the same and channel 1 is reported. *)
Lemma X13_witness_two_channels :
  let visits := [(1, ["cgt-2"]); (3, ["cgt-1"])] in
  let evs := snd (UpdateVideoTaskAll Sample.cfg Sample2.channels "volcvideo" visits
                    Sample2.world) in
  (In (3, ["cgt-1"]) visits /\ In (1, ["cgt-2"]) visits /\
   CacheGetChannel (Sample2.channels 3) 3 = Some Sample.channel /\
   CacheGetChannel (Sample2.channels 1) 1 = None /\
   is_Some (taskM Sample2.world !! "cgt-1")) /\
  (exists baseURL key action, In (InChannel 3 (EvFetchTask baseURL key "cgt-1" action)) evs) /\
  In (ChannelFailed 1 ErrCacheGetChannel) evs.
Proof.
  intros visits evs.
  assert (A1 : In (3, ["cgt-1"]) visits) by (right; left; reflexivity).
  assert (A2 : In (1, ["cgt-2"]) visits) by (left; reflexivity).
  assert (A3 : CacheGetChannel (Sample2.channels 3) 3 = Some Sample.channel)
    by reflexivity.
  assert (A4 : CacheGetChannel (Sample2.channels 1) 1 = None) by reflexivity.
  assert (A5 : is_Some (taskM Sample2.world !! "cgt-1")).
  { exists (Sample.task 100). unfold Sample2.world. cbn [taskM].
    rewrite lookup_insert_ne by discriminate. apply lookup_singleton_eq. }
  destruct (X13_channels_are_isolated Sample.cfg Sample2.channels "volcvideo" visits
              Sample2.world 3 ["cgt-1"] A1) as [B1 _].
  destruct (X13_channels_are_isolated Sample.cfg Sample2.channels "volcvideo" visits
              Sample2.world 1 ["cgt-2"] A2) as [_ B2].
  split; [auto 10|]. split.
  - exact (B1 Sample.channel _ "cgt-1" A3 eq_refl (or_introl eq_refl) A5).
  - apply B2; [discriminate|exact A4].
Defined.

(** A succeeded payload: a result URL, status Success, no error code. *)
Lemma X14_witness_succeeded :
  let fr := Sample.payload "succeeded" "" in
  let res := VolcVideo.parse_fetch (fun s => s) Sample.marshal fr in
  ti_Url res <> "" /\
  ti_Status res = TaskStatusSuccess /\
  ti_Url res = "https://cdn/video.mp4" /\
  VolcVideo.fr_ErrorCode fr = "" /\
  ti_TotalTokens res = 0.
Proof.
  intros fr res.
  assert (A1 : ti_Url res <> "") by (vm_compute; discriminate).
  destruct (X14_parse_result_shape (fun s => s) Sample.marshal fr)
    as (B1 & _ & _ & B4 & B5).
  fold res in B1, B4, B5. destruct (B4 A1) as [C1 C2].
  split; [exact A1|]. split; [exact C1|]. split; [exact C2|].
  split; [exact (B5 C1)|exact B1].
Defined.

(** The sample request passes validation and builds a body. *)
Lemma X15_witness_request :
  let out :=
    VolcRequest.ValidateRequestAndSetAction Sample2.trim_spaces "generate"
      (Some Sample2.request) Sample2.info in
  let body :=
    VolcRequest.build_body Sample2.trim_spaces Sample2.sprint_other Sample2.request
      (fst out) in
  (Sample2.trim_spaces "" = "" /\ out = (fst out, inr Sample2.request)) /\
  VolcRequest.ri_Action (fst out) = "generate" /\
  VolcRequest.sr_Model body = "doubao-seedance-pro-250528" /\
  VolcRequest.sr_Model body <> "" /\
  VolcRequest.sr_Content body <> [].
Proof.
  intros out body.
  assert (A1 : Sample2.trim_spaces "" = "") by reflexivity.
  assert (A2 : out = (fst out, inr Sample2.request)) by reflexivity.
  destruct (X15_validated_request_builds Sample2.trim_spaces Sample2.sprint_other
              "generate" Sample2.marshal_request (Some Sample2.request) Sample2.info
              (fst out) Sample2.request A1 A2) as (_ & B2 & _ & B4 & B5 & B6 & _).
  fold body in B4, B5, B6.
  split; [auto|]. split; [exact B2|]. split; [exact B5|]. split; [exact B4|exact B6].
Defined.

(** The sample request: one text item, then three image items. *)
Lemma X16_witness_content :
  let body :=
    VolcRequest.build_body Sample2.trim_spaces Sample2.sprint_other Sample2.request
      Sample2.info in
  VolcRequest.req_Image Sample2.request <> "" /\
  length (VolcRequest.sr_Content body) = 4%nat /\
  exists images,
    VolcRequest.sr_Content body =
      ({| VolcRequest.ci_Type := "text"; VolcRequest.ci_Text := "a cat";
          VolcRequest.ci_ImageURL := None; VolcRequest.ci_Role := "" |} :: images) /\
    forall x, In x images -> VolcRequest.ci_Type x = "image_url".
Proof.
  intros body.
  assert (A1 : VolcRequest.req_Image Sample2.request <> "") by discriminate.
  destruct (X16_body_content_shape Sample2.trim_spaces Sample2.sprint_other
              Sample2.request Sample2.info) as (images & B1 & B2 & B3).
  fold body in B1.
  split; [exact A1|]. split; [vm_compute; reflexivity|].
  exists images. split; [exact B1|].
  intros x Hx. exact (proj1 (B2 x Hx)).
Defined.

(** An image entry that is a number, and one whose url is empty. *)
Lemma X17_witness_entries :
  (forall m, VolcRequest.ANumber 1 <> VolcRequest.AMap m) /\
  VolcRequest.image_item Sample2.sprint_other (VolcRequest.ANumber 1) =
    [{| VolcRequest.ci_Type := "image_url"; VolcRequest.ci_Text := "";
        VolcRequest.ci_ImageURL := Some "<nil>"; VolcRequest.ci_Role := "<nil>" |}] /\
  VolcRequest.image_item Sample2.sprint_other
    (VolcRequest.AMap [("url", VolcRequest.AString "")]) = [].
Proof.
  assert (A1 : forall m, VolcRequest.ANumber 1 <> VolcRequest.AMap m)
    by (intros m; discriminate).
  destruct (X17_image_entry_without_url Sample2.sprint_other (VolcRequest.ANumber 1))
    as (_ & B2 & _).
  destruct (X17_image_entry_without_url Sample2.sprint_other
              (VolcRequest.AMap [("url", VolcRequest.AString "")])) as (_ & _ & B3).
  split; [exact A1|]. split; [exact (B2 A1)|].
  exact (B3 _ eq_refl eq_refl).
Defined.

(** A blank prompt with all images in the metadata is rejected. *)
Lemma X18_witness_metadata_only :
  let out :=
    VolcRequest.ValidateRequestAndSetAction Sample2.trim_spaces "generate"
      (Some Sample2.metadata_only) Sample2.info in
  (Sample2.trim_spaces (VolcRequest.req_Prompt Sample2.metadata_only) = "" /\
   VolcRequest.req_Image Sample2.metadata_only = "") /\
  exists err, snd out = inl err /\ VolcRequest.te_code err = "invalid_request" /\
              VolcRequest.te_status err = 400.
Proof.
  intros out.
  assert (A1 : Sample2.trim_spaces (VolcRequest.req_Prompt Sample2.metadata_only) = "")
    by reflexivity.
  assert (A2 : VolcRequest.req_Image Sample2.metadata_only = "") by reflexivity.
  destruct (X18_validation_rejections Sample2.trim_spaces "generate"
              (Some Sample2.metadata_only) Sample2.info) as (_ & B2 & B3 & _).
  fold out in B2, B3.
  destruct (B3 _ eq_refl A1 A2) as [err Herr].
  destruct (B2 err Herr) as (C1 & C2 & _).
  split; [auto|]. exists err. auto.
Defined.

(** Polling cgt-1, and polling with a numeric task id. *)
Lemma X19_witness_fetch :
  let good : gmap string VolcRequest.Any := {["task_id" := VolcRequest.AString "cgt-1"]} in
  let bad : gmap string VolcRequest.Any := {["task_id" := VolcRequest.ANumber 7]} in
  (forall id, bad !! "task_id" = Some (VolcRequest.AString id) -> id = "") /\
  VolcRequest.FetchTask_request Sample2.url_accepted "https://ark.example" "key" bad
    = inl VolcRequest.InvalidTaskId /\
  exists rq,
    VolcRequest.FetchTask_request Sample2.url_accepted "https://ark.example" "key" good
      = inr rq /\
    VolcRequest.rq_URL rq
      = "https://ark.example/api/v3/contents/generations/tasks/cgt-1".
Proof.
  intros good bad.
  assert (A1 : forall id, bad !! "task_id" = Some (VolcRequest.AString id) -> id = "").
  { intros id H. unfold bad in H. rewrite lookup_singleton_eq in H. discriminate. }
  destruct (X19_fetch_request Sample2.url_accepted "https://ark.example" "key" bad)
    as [B1 _].
  destruct (X19_fetch_request Sample2.url_accepted "https://ark.example" "key" good)
    as [_ B2].
  split; [exact A1|]. split; [exact (proj2 B1 A1)|].
  eexists. split; [reflexivity|].
  destruct (B2 _ eq_refl) as (id & C1 & _ & _ & C4 & _).
  unfold good in C1. rewrite lookup_singleton_eq in C1. inversion C1; subst id.
  exact C4.
Defined.

(** A submission answered with the id cgt-9. *)
Lemma X20_witness_submission :
  let out := VolcRequest.DoResponse Sample2.unmarshal_submit (Some "cgt-9") in
  fst out = inr ("cgt-9", "cgt-9") /\
  snd out = Some (200, [("task_id", "cgt-9")]) /\
  VolcRequest.FetchTask_request Sample2.url_accepted "https://ark.example" "key"
    (<["task_id" := VolcRequest.AString "cgt-9"]>
       {["action" := VolcRequest.AString "generate"]})
  <> inl VolcRequest.InvalidTaskId.
Proof.
  intros out.
  assert (A1 : fst out = inr ("cgt-9", "cgt-9")) by reflexivity.
  destruct (X20_submitted_id_can_be_polled Sample2.unmarshal_submit Sample2.url_accepted
              (Some "cgt-9") "https://ark.example" "key"
              (VolcRequest.AString "generate")) as [_ B2].
  fold out in B2. destruct (B2 _ _ A1) as (_ & _ & _ & C4 & C5).
  split; [exact A1|]. split; [exact C4|exact C5].
Defined.

(** Headers set over an earlier Authorization and a foreign header. *)
Lemma X21_witness_headers :
  let header : gmap string string :=
    <["Authorization" := "Bearer old"]> {["X-Trace" := "1"]} in
  let h := VolcRequest.BuildRequestHeader (VolcRequest.Init Sample2.info) header in
  ("X-Trace" <> "Authorization" /\ "X-Trace" <> "Accept" /\ "X-Trace" <> "Content-Type") /\
  h !! "Authorization" = Some "Bearer key" /\
  h !! "X-Trace" = Some "1" /\
  VolcRequest.BuildRequestURL (VolcRequest.Init Sample2.info)
    = "https://ark.example/api/v3/contents/generations/tasks".
Proof.
  intros header h.
  destruct (X21_init_url_and_headers Sample2.info header) as (B1 & B2 & _ & _ & B5 & _).
  fold h in B2, B5.
  assert (A1 : "X-Trace" <> "Authorization") by discriminate.
  assert (A2 : "X-Trace" <> "Accept") by discriminate.
  assert (A3 : "X-Trace" <> "Content-Type") by discriminate.
  split; [auto|]. split; [exact B2|]. split.
  - rewrite (B5 "X-Trace" A1 A2 A3). unfold header.
    rewrite lookup_insert_ne by discriminate. apply lookup_singleton_eq.
  - exact B1.
Defined.
